(** * senseai: the process supervisor, binary locator and REST client

    A shallow embedding of [senseai/binary.py], [senseai/client.py] and
    [senseai/server.py].  Python objects become records, calls that can
    raise return in a state-and-exception monad, and everything outside
    the interpreter (file system, process table, HTTP endpoints, clock)
    is one explicit [world] value that the operations read and update.

    Text is modelled as strings of 8-bit characters: [lower], [strip] and
    [int] treat the ASCII range the way CPython does and leave every
    other character alone. *)

From Stdlib Require Import ZArith NArith Ascii String List Bool Lia.
From stdpp Require Import base option list gmap strings.
From Equations Require Import Equations.

Open Scope Z_scope.
#[local] Set Warnings "-register-all".

(** ** Python string primitives *)

Module PyStr.

Definition code (c : ascii) : N := N_of_ascii c.

Definition is_upper (c : ascii) : bool :=
  ((65 <=? code c) && (code c <=? 90))%N.

Definition lower_char (c : ascii) : ascii :=
  if is_upper c then ascii_of_N (code c + 32) else c.

(** [str.lower()] *)
Fixpoint lower (s : string) : string :=
  match s with
  | EmptyString => EmptyString
  | String c s' => String (lower_char c) (lower s')
  end.

(** Characters that [str.isspace()] accepts below 128:
    TAB..CR, FS..US and the blank. *)
Definition is_space (c : ascii) : bool :=
  (((9 <=? code c) && (code c <=? 13))
   || ((28 <=? code c) && (code c <=? 32)))%N.

Fixpoint lstrip (s : string) : string :=
  match s with
  | EmptyString => EmptyString
  | String c s' => if is_space c then lstrip s' else s
  end.

Fixpoint rstrip (s : string) : string :=
  match s with
  | EmptyString => EmptyString
  | String c s' =>
      match rstrip s' with
      | EmptyString => if is_space c then EmptyString else String c EmptyString
      | r => String c r
      end
  end.

(** [str.strip()] with no argument *)
Definition strip (s : string) : string := rstrip (lstrip s).

(** [str.rstrip(chars)] for a one-character [chars] *)
Fixpoint rstrip_char (x : ascii) (s : string) : string :=
  match s with
  | EmptyString => EmptyString
  | String c s' =>
      match rstrip_char x s' with
      | EmptyString => if Ascii.eqb c x then EmptyString else String c EmptyString
      | r => String c r
      end
  end.

(** [s.startswith(p)] *)
Fixpoint startswith (p s : string) : bool :=
  match p, s with
  | EmptyString, _ => true
  | String a p', String b s' => Ascii.eqb a b && startswith p' s'
  | String _ _, EmptyString => false
  end.

(** [needle in hay] *)
Fixpoint contains (needle hay : string) : bool :=
  startswith needle hay ||
  match hay with
  | EmptyString => false
  | String _ hay' => contains needle hay'
  end.

Definition is_digit (c : ascii) : bool :=
  ((48 <=? code c) && (code c <=? 57))%N.

Definition digit_val (c : ascii) : Z := Z.of_N (code c) - 48.

Definition digit_char (d : Z) : ascii := ascii_of_N (Z.to_N (48 + d)).

(** Decimal digits of a non-negative integer, most significant first.
    [fuel] bounds the number of digits. *)
Fixpoint digits (fuel : nat) (n : Z) : string :=
  match fuel with
  | O => EmptyString
  | S fuel' =>
      (if n <? 10 then EmptyString else digits fuel' (n / 10))
        +:+ String (digit_char (n mod 10)) EmptyString
  end.

Definition digits_fuel (n : Z) : nat := S (Z.to_nat (Z.log2 n)).

(** [str(n)] for an [int] *)
Definition str (n : Z) : string :=
  if n <? 0 then String "-" (digits (digits_fuel (- n)) (- n))
  else digits (digits_fuel n) n.

(** The digit part of an integer literal: decimal digits, with single
    underscores allowed between two digits. [seen] tells whether the
    previous character was a digit. *)
Fixpoint int_digits (s : string) (acc : Z) (seen : bool) : option Z :=
  match s with
  | EmptyString => if seen then Some acc else None
  | String c s' =>
      if is_digit c then int_digits s' (10 * acc + digit_val c) true
      else if Ascii.eqb c "_" then
        if seen then int_digits s' acc false else None
      else None
  end.

(** [int(s)] in base 10: [None] stands for [ValueError]. *)
Definition int (s : string) : option Z :=
  match strip s with
  | EmptyString => None
  | String c s' =>
      if Ascii.eqb c "-" then Z.opp <$> int_digits s' 0 false
      else if Ascii.eqb c "+" then int_digits s' 0 false
      else int_digits (String c s') 0 false
  end.

(** Every character of [s] satisfies [P]. *)
Fixpoint all_chars (P : ascii → bool) (s : string) : bool :=
  match s with
  | EmptyString => true
  | String c s' => P c && all_chars P s'
  end.

(** The value of a digit string read from the left. *)
Fixpoint horner (acc : Z) (s : string) : Z :=
  match s with
  | EmptyString => acc
  | String c s' => horner (10 * acc + digit_val c) s'
  end.

End PyStr.

(** ** binary.py: platform normalisation *)

(** [d.get(k, default)] on a dict written as a literal *)
Fixpoint dict_get (d : list (string * string)) (k default : string) : string :=
  match d with
  | [] => default
  | (k', v) :: d' => if String.eqb k' k then v else dict_get d' k default
  end.

Definition os_table : list (string * string) :=
  [("darwin", "darwin"); ("linux", "linux"); ("windows", "windows")].

Definition arch_table : list (string * string) :=
  [("x86_64", "amd64"); ("amd64", "amd64");
   ("arm64", "arm64"); ("aarch64", "arm64")].

(** [BinaryManager.get_platform_info], as a function of what
    [platform.system()] and [platform.machine()] report. *)
Definition get_platform_info (system_ machine_ : string) : string * string :=
  let system := PyStr.lower system_ in
  let machine := PyStr.lower machine_ in
  let os_name := dict_get os_table system system in
  let arch := dict_get arch_table machine machine in
  (os_name, arch).

(** ** Exceptions

    The classes the three modules raise or catch, with the part of the
    Python class hierarchy that decides which [except] clause fires. *)

Inductive exn_class :=
  | KeyboardInterrupt
  | Exception
  | OSError                  (* IOError, PermissionError, FileNotFoundError *)
  | ValueError
  | JSONDecodeError          (* json.JSONDecodeError *)
  | RequestException         (* requests.exceptions.RequestException *)
  | RequestsJSONDecodeError  (* requests.exceptions.JSONDecodeError *)
  | RecursionError           (* RuntimeError when the interpreter's stack is full *)
  | TimeoutExpired           (* subprocess.TimeoutExpired *)
  | NoSuchProcess            (* psutil.NoSuchProcess *)
  | AccessDenied             (* psutil.AccessDenied *)
  | SenseError
  | BinaryNotFoundError
  | ServerError
  | APIError.

#[global] Instance exn_class_eq_dec : EqDecision exn_class.
Proof. solve_decision. Defined.

(** [issubclass c d] *)
Definition issubclass (c d : exn_class) : bool :=
  bool_decide (c = d) ||
  match c, d with
  | KeyboardInterrupt, _ => false
  | _, Exception => true
  | JSONDecodeError, ValueError => true
  | RequestException, OSError => true
  | RequestsJSONDecodeError, (RequestException | JSONDecodeError | ValueError | OSError) => true
  | (BinaryNotFoundError | ServerError | APIError), SenseError => true
  | _, _ => false
  end.

(** An exception value: its class and [str(e)]. *)
Record exn := Exn { exn_class_of : exn_class; exn_str : string }.

Definition isinstance (e : exn) (c : exn_class) : bool :=
  issubclass (exn_class_of e) c.

(** ** Outcomes and the state-and-exception monad *)

(** What a call does: return, raise, or never return ([Hang], a wait with
    no timeout on a process that does not exit). *)
Inductive res (A : Type) :=
  | Ok (a : A)
  | Raise (e : exn)
  | Hang.
Arguments Ok {A} a.
Arguments Raise {A} e.
Arguments Hang {A}.

(** A computation over a state [S]. Mutations made before a [raise]
    stay, as they do in Python. *)
Definition M (S A : Type) : Type := S → res A * S.

#[global] Instance M_ret {S} : MRet (M S) := λ A a s, (Ok a, s).

#[global] Instance M_bind {S} : MBind (M S) := λ A B f m s,
  match m s with
  | (Ok a, s') => f a s'
  | (Raise e, s') => (Raise e, s')
  | (Hang, s') => (Hang, s')
  end.

Definition raise {S A} (c : exn_class) (msg : string) : M S A :=
  λ s, (Raise (Exn c msg), s).

Definition get_state {S} : M S S := λ s, (Ok s, s).
Definition modify_state {S} (f : S → S) : M S unit := λ s, (Ok tt, f s).

(** The first [except] clause whose classes match the exception. *)
Fixpoint find_clause {H} (e : exn) (clauses : list (list exn_class * H))
    : option H :=
  match clauses with
  | [] => None
  | (classes, h) :: rest =>
      if existsb (isinstance e) classes then Some h else find_clause e rest
  end.

(** [try: body except <classes> as e: handler e ...] *)
Definition try_except {S A} (body : M S A)
    (clauses : list (list exn_class * (exn → M S A))) : M S A :=
  λ s, match body s with
       | (Raise e, s') =>
           match find_clause e clauses with
           | Some handler => handler e s'
           | None => (Raise e, s')
           end
       | r => r
       end.

(** Code that only reads its surroundings is a function into [res]. *)
#[global] Instance res_ret : MRet res := λ A a, Ok a.

#[global] Instance res_bind : MBind res := λ A B f r,
  match r with
  | Ok a => f a
  | Raise e => Raise e
  | Hang => Hang
  end.

Definition try_res {A} (body : res A)
    (clauses : list (list exn_class * (exn → res A))) : res A :=
  match body with
  | Raise e =>
      match find_clause e clauses with
      | Some handler => handler e
      | None => Raise e
      end
  | r => r
  end.

(** A read-only call made from stateful code. *)
Definition ask {S A} (f : S → res A) : M S A := λ s, (f s, s).

(** Run a computation on the second component of a pair of states. *)
Definition liftW {O W A} (m : M W A) : M (O * W) A :=
  λ '(o, w), let '(r, w') := m w in (r, (o, w')).

(** ** JSON values, as [json.loads] builds them *)

Inductive json :=
  | JNull
  | JBool (b : bool)
  | JInt (n : Z)
  | JFloat (bits : Z)             (* an IEEE-754 double, by its bit pattern *)
  | JStr (s : string)
  | JList (l : list json)
  | JDict (items : list (string * json)).

(** What [json.loads] does with a text: it returns the value, rejects
    the text as invalid JSON ([JSONDecodeError]), or gives up on a text
    nested deeper than the interpreter's recursion limit
    ([RecursionError]), whether the text is valid or not. *)
Inductive decoding :=
  | Decoded (v : json)
  | NotJSON (msg : string)
  | TooDeep (msg : string).

(** ** The world outside the interpreter *)

(** A file: its permission bits and its text ([None]: reading it raises
    [IOError]). *)
Record file := File { f_mode : Z; f_text : option string }.

(** A server-sent event, as [sseclient] hands it over. *)
Record sse_event := Event { event : string; data : string }.

Inductive stream_end :=
  | StreamClosed                 (* the iterator is exhausted *)
  | StreamBroken (e : exn)       (* the iterator raises *)
  | StreamSilent.                (* the connection stays open, nothing comes *)

(** An HTTP answer as [requests] presents it. [r_events] is what the
    server-sent-event client reads from the body, and [r_end] how the
    event iterator behaves after the last of them. *)
Record response := Response {
  status_code : Z;
  reason : string;
  text : string;
  r_events : list sse_event;
  r_end : stream_end;
}.

Inductive http_result :=
  | HttpFails (e : exn)          (* [session.get] raises *)
  | HttpAnswers (r : response).

(** A process as the operating system sees it. It is alive until
    [p_exit_at]; [p_term_grace] is the time it takes to exit once it
    receives SIGTERM ([None]: it ignores the signal). Once it has exited
    it stays in the process table as a zombie if [p_zombie] is set: its
    parent has not collected it. *)
Record os_proc := Proc {
  p_name : string;
  p_exit_at : option Z;
  p_returncode : Z;
  p_stderr : string;
  p_inspectable : bool;          (* psutil may read its name *)
  p_signalable : bool;           (* we may send it signals *)
  p_term_grace : option Z;
  p_zombie : bool;
}.

Inductive signal := SIGTERM | SIGKILL.

Inductive spawn_outcome :=
  | SpawnFails (e : exn)
  | SpawnChild (pid : Z) (p : os_proc).

(** What the host reports and allows. *)
Record host := Host {
  platform_system : string;                (* platform.system() *)
  platform_machine : string;               (* platform.machine() *)
  sys_platform : string;                   (* sys.platform *)
  home : string;                           (* Path.home() *)
  env_LOCALAPPDATA : option string;
  env_XDG_CACHE_HOME : option string;
  project_root : string;                   (* four levels above binary.py *)
  which_sense : option (Z * string);       (* returncode and stdout of
                                              [which sense]; [None]: it raises *)
  urlretrieve : string → res unit;         (* [Hang]: the transfer stalls;
                                              the call sets no timeout *)
  new_file_mode : Z;
  mkdir_ok : string → bool;
  write_ok : string → bool;
  chmod_ok : string → bool;
  unlink_ok : string → bool;
  json_loads : string → decoding;          (* [json.loads] *)
  requests_wraps_json_error : bool;        (* [response.json()] raises the
                                              JSONDecodeError of [requests]
                                              (2.27 and later) rather than
                                              the one of [json] *)
}.

(** Time is in milliseconds and passes only in [time.sleep] and in
    [Popen.wait]. *)
Record world := World {
  w_host : host;
  w_clock : Z;
  w_files : gmap string file;
  w_procs : gmap Z os_proc;
  w_http : Z → string → http_result;       (* by time and URL *)
  w_spawn : list spawn_outcome;            (* what the next [Popen]s do *)
  w_spawned : list (list string);          (* commands started so far *)
  w_signals : list (Z * signal);           (* signals delivered so far *)
  w_stdout : list string;                  (* lines printed so far *)
}.

Definition set_clock (t : Z) (w : world) : world :=
  World (w_host w) t (w_files w) (w_procs w) (w_http w) (w_spawn w)
        (w_spawned w) (w_signals w) (w_stdout w).

Definition set_files (fs : gmap string file) (w : world) : world :=
  World (w_host w) (w_clock w) fs (w_procs w) (w_http w) (w_spawn w)
        (w_spawned w) (w_signals w) (w_stdout w).

Definition set_procs (ps : gmap Z os_proc) (w : world) : world :=
  World (w_host w) (w_clock w) (w_files w) ps (w_http w) (w_spawn w)
        (w_spawned w) (w_signals w) (w_stdout w).

Definition set_spawn (q : list spawn_outcome) (w : world) : world :=
  World (w_host w) (w_clock w) (w_files w) (w_procs w) (w_http w) q
        (w_spawned w) (w_signals w) (w_stdout w).

Definition log_spawned (cmd : list string) (w : world) : world :=
  World (w_host w) (w_clock w) (w_files w) (w_procs w) (w_http w) (w_spawn w)
        (w_spawned w ++ [cmd]) (w_signals w) (w_stdout w).

Definition log_signal (pid : Z) (sig : signal) (w : world) : world :=
  World (w_host w) (w_clock w) (w_files w) (w_procs w) (w_http w) (w_spawn w)
        (w_spawned w) (w_signals w ++ [(pid, sig)]) (w_stdout w).

Definition log_stdout (line : string) (w : world) : world :=
  World (w_host w) (w_clock w) (w_files w) (w_procs w) (w_http w) (w_spawn w)
        (w_spawned w) (w_signals w) (w_stdout w ++ [line]).

(** [print(line)] *)
Definition print (line : string) : M world unit :=
  modify_state (log_stdout line).

(** [time.sleep(ms / 1000)] *)
Definition sleep (ms : Z) : M world unit :=
  modify_state (λ w, set_clock (w_clock w + ms) w).

(** *** pathlib *)

(** [Path(a) / b] *)
Definition path_join (a b : string) : string := a +:+ "/" +:+ b.

(** [p.exists()] *)
Definition path_exists (w : world) (p : string) : bool :=
  bool_decide (is_Some (w_files w !! p)).

(** [p.expanduser()] for the forms the cache directory can take *)
Definition expanduser (w : world) (p : string) : string :=
  match p with
  | String "~" EmptyString => home (w_host w)
  | String "~" (String "/" rest) => home (w_host w) +:+ "/" +:+ rest
  | _ => p
  end.

(** [p.mkdir(parents=True, exist_ok=True)] *)
Definition mkdir (p : string) : M world unit :=
  λ w, if mkdir_ok (w_host w) p then (Ok tt, w)
       else (Raise (Exn OSError ("cannot create directory " +:+ p)), w).

(** [p.write_text(s)] *)
Definition write_text (p s : string) : M world unit :=
  λ w, if write_ok (w_host w) p then
         let mode := match w_files w !! p with
                     | Some f => f_mode f
                     | None => new_file_mode (w_host w)
                     end in
         (Ok tt, set_files (<[p := File mode (Some s)]> (w_files w)) w)
       else (Raise (Exn OSError ("cannot write " +:+ p)), w).

(** [p.read_text()] *)
Definition read_text (p : string) (w : world) : res string :=
  match w_files w !! p with
  | Some (File _ (Some s)) => Ok s
  | _ => Raise (Exn OSError ("cannot read " +:+ p))
  end.

(** [p.unlink()] *)
Definition unlink (p : string) : M world unit :=
  λ w, match w_files w !! p with
       | Some _ =>
           if unlink_ok (w_host w) p
           then (Ok tt, set_files (delete p (w_files w)) w)
           else (Raise (Exn OSError ("cannot remove " +:+ p)), w)
       | None => (Raise (Exn OSError ("no such file " +:+ p)), w)
       end.

(** ** binary.py: [BinaryManager] *)

Record BinaryManager := BinaryManager_ {
  version : string;
  _binary_path : option string;
}.

Definition GITHUB_REPO : string := "Faux16/sense-ai".
Definition BINARY_NAME : string := "sense".

(** [BinaryManager(version)] *)
Definition BinaryManager_init (version : string) : BinaryManager :=
  BinaryManager_ version None.

(** [self._binary_path = p] *)
Definition set_binary_path (p : string) : M (BinaryManager * world) unit :=
  modify_state (λ '(bm, w), (BinaryManager_ (version bm) (Some p), w)).

(** [p.exists()] in the current world *)
Definition exists_ {O} (p : string) : M (O * world) bool :=
  λ s, (Ok (path_exists (s.2) p), s).

Definition get_cache_dir : M world string :=
  w ← get_state;
  let h := w_host w in
  let cache_dir :=
    if String.eqb (sys_platform h) "win32" then
      path_join (default "~/.cache" (env_LOCALAPPDATA h)) "senseai"
    else if String.eqb (sys_platform h) "darwin" then
      path_join (path_join (path_join (home h) "Library") "Caches") "senseai"
    else
      path_join (default "~/.cache" (env_XDG_CACHE_HOME h)) "senseai" in
  let cache_dir := expanduser w cache_dir in
  mkdir cache_dir;;
  mret cache_dir.

(** [_find_in_path]: every exception of [subprocess.run] is swallowed. *)
Definition _find_in_path (w : world) : option string :=
  match which_sense (w_host w) with
  | Some (returncode, stdout) =>
      if (returncode =? 0) && negb (String.eqb (PyStr.strip stdout) "")
      then Some (PyStr.strip stdout)
      else None
  | None => None
  end.

(** [stat.S_IXUSR | stat.S_IXGRP | stat.S_IXOTH] *)
Definition S_IXALL : Z := Z.lor 64 (Z.lor 8 1).

Definition _make_executable (path : string) : M world unit :=
  w ← get_state;
  if negb (String.eqb (sys_platform (w_host w)) "win32") then
    match w_files w !! path with
    | None => raise OSError ("no such file " +:+ path)
    | Some f =>
        if chmod_ok (w_host w) path then
          modify_state
            (set_files (<[path := File (Z.lor (f_mode f) S_IXALL) (f_text f)]>
                          (w_files w)))
        else raise OSError ("cannot change mode of " +:+ path)
    end
  else mret tt.

Definition version_tag (version : string) : string :=
  if String.eqb version "latest" then "v0.1.0"
  else if negb (PyStr.startswith "v" version) then "v" +:+ version
  else version.

Definition release_asset (os_name arch : string) : string :=
  let binary_name := "sense-" +:+ os_name +:+ "-" +:+ arch in
  if String.eqb os_name "windows" then binary_name +:+ ".exe" else binary_name.

Definition download_url (bm : BinaryManager) (w : world) : string :=
  let '(os_name, arch) :=
    get_platform_info (platform_system (w_host w)) (platform_machine (w_host w)) in
  "https://github.com/" +:+ GITHUB_REPO +:+ "/releases/download/"
    +:+ version_tag (version bm) +:+ "/" +:+ release_asset os_name arch.

Definition _download_binary (bm : BinaryManager) : M world string :=
  w ← get_state;
  let '(os_name, arch) :=
    get_platform_info (platform_system (w_host w)) (platform_machine (w_host w)) in
  let url := download_url bm w in
  cache_dir ← get_cache_dir;
  let target_path :=
    if String.eqb os_name "windows"
    then path_join cache_dir (BINARY_NAME +:+ ".exe")
    else path_join cache_dir BINARY_NAME in
  print ("Downloading SENSE binary from " +:+ url +:+ "...");;
  try_except
    (λ w, match urlretrieve (w_host w) url with
          | Raise e => (Raise e, w)
          | Hang => (Hang, w)
          | Ok _ =>
              (Ok tt,
               set_files
                 (<[target_path := File (new_file_mode (w_host w)) None]>
                    (w_files w)) w)
          end)
    [([Exception],
      λ e, raise BinaryNotFoundError
             ("Failed to download binary from " +:+ url +:+ ". "
              +:+ "You may need to build the binary manually. Error: "
              +:+ exn_str e))];;
  _make_executable target_path;;
  print ("Binary downloaded to " +:+ target_path);;
  mret target_path.

Definition get_binary_path : M (BinaryManager * world) string :=
  '(bm, w) ← get_state;
  let memo := match _binary_path bm with
              | Some p => if path_exists w p then Some p else None
              | None => None
              end in
  match memo with
  | Some p => mret p
  | None =>
      (* Strategy 1: 'sense' in PATH *)
      match _find_in_path w with
      | Some binary_in_path =>
          set_binary_path binary_in_path;; mret binary_in_path
      | None =>
          (* Strategy 2: binary in the project root *)
          let dev_binary := path_join (project_root (w_host w)) "sense" in
          dev ← exists_ dev_binary;
          if (dev : bool) then set_binary_path dev_binary;; mret dev_binary
          else
            (* Strategy 3: cache directory *)
            cache_dir ← liftW get_cache_dir;
            let cache_binary := path_join cache_dir BINARY_NAME in
            cached ← exists_ cache_binary;
            if (cached : bool) then
              set_binary_path cache_binary;;
              liftW (_make_executable cache_binary);;
              mret cache_binary
            else
              (* Strategy 4: download from GitHub Releases *)
              try_except
                (downloaded_binary ← liftW (_download_binary bm);
                 set_binary_path downloaded_binary;;
                 mret downloaded_binary)
                [([Exception],
                  λ e, raise BinaryNotFoundError
                         ("Could not find or download SENSE binary. "
                          +:+ "Please build it manually or check your internet connection. Error: "
                          +:+ exn_str e))]
      end
  end.

(** *** The four strategies, one at a time

    What each resolution strategy of [get_binary_path] does when it is
    looked at on its own: it finds a binary ([Ok (Some p)]), finds none
    ([Ok None]), or is cut short by an exception no clause catches. *)

Definition memo_hit (bm : BinaryManager) (w : world) : option string :=
  match _binary_path bm with
  | Some p => if path_exists w p then Some p else None
  | None => None
  end.

Definition strategy_path (w : world) : res (option string) :=
  match which_sense (w_host w) with
  | Some (0, stdout) =>
      if String.eqb (PyStr.strip stdout) "" then Ok None
      else Ok (Some (PyStr.strip stdout))
  | _ => Ok None
  end.

Definition strategy_dev (w : world) : res (option string) :=
  let dev_binary := path_join (project_root (w_host w)) "sense" in
  Ok (if path_exists w dev_binary then Some dev_binary else None).

Definition strategy_cache (w : world) : res (option string) :=
  match get_cache_dir w with
  | (Ok cache_dir, w1) =>
      let cache_binary := path_join cache_dir BINARY_NAME in
      if path_exists w1 cache_binary then
        match (_make_executable cache_binary w1).1 with
        | Ok _ => Ok (Some cache_binary)
        | Raise e => Raise e
        | Hang => Hang
        end
      else Ok None
  | (Raise e, _) => Raise e
  | (Hang, _) => Hang
  end.

Definition strategy_download (bm : BinaryManager) (w : world)
    : res (option string) :=
  match (_download_binary bm w).1 with
  | Ok p => Ok (Some p)
  | Raise e => if isinstance e Exception then Ok None else Raise e
  | Hang => Hang
  end.

(** The manager once it has remembered [p]. *)
Definition remember (p : string) (bm : BinaryManager) : BinaryManager :=
  BinaryManager_ (version bm) (Some p).

Definition not_found_message (e : exn) : string :=
  "Could not find or download SENSE binary. "
  +:+ "Please build it manually or check your internet connection. Error: "
  +:+ exn_str e.

(** ** client.py: [SenseClient] *)

Record SenseClient := SenseClient_ { base_url : string; timeout : Z }.

(** [SenseClient(base_url, timeout)] *)
Definition SenseClient_init (base_url : string) (timeout : Z) : SenseClient :=
  SenseClient_ (PyStr.rstrip_char "/" base_url) timeout.

(** [self.session.get(url, ...)]: the answer the world gives now. *)
Definition session_get (url : string) (w : world) : res response :=
  match w_http w (w_clock w) url with
  | HttpFails e => Raise e
  | HttpAnswers r => Ok r
  end.

(** [response.raise_for_status()] *)
Definition raise_for_status (url : string) (r : response) : res unit :=
  if (400 <=? status_code r) && (status_code r <? 500) then
    Raise (Exn RequestException
             (PyStr.str (status_code r) +:+ " Client Error: " +:+ reason r
              +:+ " for url: " +:+ url))
  else if (500 <=? status_code r) && (status_code r <? 600) then
    Raise (Exn RequestException
             (PyStr.str (status_code r) +:+ " Server Error: " +:+ reason r
              +:+ " for url: " +:+ url))
  else Ok tt.

(** [response.json()] *)
Definition response_json (w : world) (r : response) : res json :=
  match json_loads (w_host w) (text r) with
  | NotJSON msg =>
      if requests_wraps_json_error (w_host w)
      then Raise (Exn RequestsJSONDecodeError msg)
      else Raise (Exn JSONDecodeError msg)
  | TooDeep msg => Raise (Exn RecursionError msg)
  | Decoded v => Ok v
  end.

Definition health_check (self : SenseClient) (w : world) : res bool :=
  try_res
    (response ← session_get (base_url self +:+ "/findings") w;
     mret (status_code response =? 200))
    [([Exception], λ _, Ok false)].

(** [l[:limit]] *)
Definition slice_to {A} (limit : Z) (l : list A) : list A :=
  if limit <? 0 then take (Z.to_nat (Z.of_nat (length l) + limit)) l
  else take (Z.to_nat limit) l.

Definition get_findings (self : SenseClient) (limit : option Z) (w : world)
    : res (list json) :=
  try_res
    (let url := base_url self +:+ "/findings" in
     response ← session_get url w;
     raise_for_status url response;;
     findings ← response_json w response;
     let findings :=
       match limit, findings with
       | Some n, JList l => JList (slice_to n l)
       | _, _ => findings
       end in
     mret (match findings with JList l => l | _ => [] end))
    [([RequestException],
      λ e, Raise (Exn APIError ("Failed to fetch findings: " +:+ exn_str e)));
     ([JSONDecodeError],
      λ e, Raise (Exn APIError ("Failed to parse API response: " +:+ exn_str e)))].

(** *** [stream_findings], a generator

    A generator object is either not started, suspended at its [yield]
    with the rest of the event stream ahead of it, or finished. *)
Inductive generator :=
  | GenCreated
  | GenSuspended (rest : list sse_event) (fin : stream_end)
  | GenFinished.

(** How an iteration over a generator ends: it is exhausted
    ([StopIteration]), it raises, or [next] never returns. *)
Inductive gen_end :=
  | Exhausted
  | Raised (e : exn)
  | Blocked.

(** What one [next()] does. *)
Inductive gen_step :=
  | Yield (finding : json) (g : generator)
  | Done (e : gen_end).

(** The two outer [except] clauses of [stream_findings]. *)
Definition stream_exit (e : exn) : gen_end :=
  if isinstance e RequestException then
    Raised (Exn APIError ("Failed to stream findings: " +:+ exn_str e))
  else if isinstance e KeyboardInterrupt then Exhausted
  else Raised e.

(** [for event in client.events(): ...] up to the next [yield] *)
Fixpoint stream_loop (w : world) (events : list sse_event)
    (fin : stream_end) : gen_step :=
  match events with
  | [] =>
      match fin with
      | StreamClosed => Done Exhausted
      | StreamBroken e => Done (stream_exit e)
      | StreamSilent => Done Blocked
      end
  | ev :: rest =>
      if String.eqb (event ev) "finding" then
        match json_loads (w_host w) (data ev) with
        | Decoded finding => Yield finding (GenSuspended rest fin)
        | NotJSON _ => stream_loop w rest fin    (* skip malformed events *)
        | TooDeep msg => Done (stream_exit (Exn RecursionError msg))
        end
      else if String.eqb (event ev) "connected" then stream_loop w rest fin
      else stream_loop w rest fin
  end.

(** [next(g)] for [g = self.stream_findings()] *)
Definition gen_next (self : SenseClient) (w : world) (g : generator) : gen_step :=
  match g with
  | GenCreated =>
      let url := base_url self +:+ "/stream" in
      match (response ← session_get url w;
             raise_for_status url response;;
             mret response) with
      | Ok response => stream_loop w (r_events response) (r_end response)
      | Raise e => Done (stream_exit e)
      | Hang => Done Blocked
      end
  | GenSuspended rest fin => stream_loop w rest fin
  | GenFinished => Done Exhausted
  end.

(** [for finding in self.stream_findings(): out.append(finding)]: the
    findings received and the way the loop ends. [None] when [fuel] calls
    to [next] do not reach that end. *)
Fixpoint collect (fuel : nat) (self : SenseClient) (w : world) (g : generator)
    : option (list json * gen_end) :=
  match fuel with
  | O => None
  | S fuel' =>
      match gen_next self w g with
      | Yield finding g' =>
          '(l, e) ← collect fuel' self w g';
          Some (finding :: l, e)
      | Done e => Some ([], e)
      end
  end.

(** The findings a stream carries, in the words of the interface: the
    decoded data of the events named finding whose data is valid JSON, in
    stream order. *)
Definition carried_finding (w : world) (ev : sse_event) : option json :=
  if String.eqb (event ev) "finding" then
    match json_loads (w_host w) (data ev) with
    | Decoded finding => Some finding
    | _ => None
    end
  else None.

Definition carried_findings (w : world) (events : list sse_event) : list json :=
  omap (carried_finding w) events.

(** The decoder gives up on the data of [ev], an event named finding:
    the message of its [RecursionError]. *)
Definition too_deep (w : world) (ev : sse_event) : option string :=
  if String.eqb (event ev) "finding" then
    match json_loads (w_host w) (data ev) with
    | TooDeep msg => Some msg
    | _ => None
    end
  else None.

(** How a consumer's loop ends once the events are used up. *)
Definition stream_ending (fin : stream_end) : gen_end :=
  match fin with
  | StreamClosed => Exhausted
  | StreamBroken e => stream_exit e
  | StreamSilent => Blocked
  end.

(** ** subprocess and psutil *)

Definition alive_at (t : Z) (p : os_proc) : bool :=
  match p_exit_at p with
  | Some d => t <? d
  | None => true
  end.

(** A [subprocess.Popen] object *)
Record Popen := Popen_ { pid : Z }.

(** [subprocess.Popen(cmd, stdout=PIPE, stderr=PIPE, text=True)] *)
Definition subprocess_Popen (cmd : list string) : M world Popen :=
  λ w, match w_spawn w with
       | [] => (Raise (Exn OSError "cannot execute the command"), w)
       | SpawnFails e :: q => (Raise e, set_spawn q w)
       | SpawnChild pid p :: q =>
           (Ok (Popen_ pid),
            log_spawned cmd (set_procs (<[pid := p]> (w_procs w)) (set_spawn q w)))
       end.

(** [h.poll()]: [None] while the child runs. A child the system no longer
    knows is reported with return code 0. *)
Definition poll (h : Popen) (w : world) : option Z :=
  match w_procs w !! pid h with
  | Some p => if alive_at (w_clock w) p then None else Some (p_returncode p)
  | None => Some 0
  end.

(** [h.stderr.read()], called once the child has exited. The child is
    taken to be the only writer of its pipe, so that the pipe is at end
    of file by then and the text is there. *)
Definition stderr_read (h : Popen) (w : world) : string :=
  match w_procs w !! pid h with
  | Some p => p_stderr p
  | None => ""
  end.

(** The effect of a delivered signal on a live process *)
Definition signalled (now : Z) (sig : signal) (p : os_proc) : os_proc :=
  match sig with
  | SIGKILL =>
      Proc (p_name p) (Some now) (-9) (p_stderr p)
           (p_inspectable p) (p_signalable p) (p_term_grace p) (p_zombie p)
  | SIGTERM =>
      match p_term_grace p with
      | None => p
      | Some g =>
          let d := now + g in
          match p_exit_at p with
          | Some d' =>
              if d' <=? d then p
              else Proc (p_name p) (Some d) (-15) (p_stderr p)
                        (p_inspectable p) (p_signalable p) (p_term_grace p)
                        (p_zombie p)
          | None =>
              Proc (p_name p) (Some d) (-15) (p_stderr p)
                   (p_inspectable p) (p_signalable p) (p_term_grace p)
                   (p_zombie p)
          end
      end
  end.

(** [h.send_signal(sig)]: nothing is sent to a child that has exited.
    A signal the caller may not send makes [os.kill] raise
    [PermissionError], an [OSError] with errno 1. *)
Definition send_signal (h : Popen) (sig : signal) : M world unit :=
  λ w, match w_procs w !! pid h with
       | None => (Ok tt, w)
       | Some p =>
           if negb (alive_at (w_clock w) p) then (Ok tt, w)
           else if negb (p_signalable p) then
             (Raise (Exn OSError "[Errno 1] Operation not permitted"), w)
           else
             (Ok tt,
              log_signal (pid h) sig
                (set_procs (<[pid h := signalled (w_clock w) sig p]> (w_procs w)) w))
       end.

Definition terminate (h : Popen) : M world unit := send_signal h SIGTERM.

(** The parent has collected [p]. *)
Definition collected (p : os_proc) : os_proc :=
  Proc (p_name p) (p_exit_at p) (p_returncode p) (p_stderr p)
       (p_inspectable p) (p_signalable p) (p_term_grace p) false.

(** [h.poll()] and [h.wait()] collect a child that has exited: from then
    on the system does not list it, not even as a zombie. *)
Definition collect_child (h : Popen) (w : world) : world :=
  match w_procs w !! pid h with
  | Some p =>
      if alive_at (w_clock w) p then w
      else set_procs (<[pid h := collected p]> (w_procs w)) w
  | None => w
  end.

Definition kill (h : Popen) : M world unit := send_signal h SIGKILL.

(** [h.wait(timeout)], [timeout] in seconds; [None] waits without bound. *)
Definition wait (h : Popen) (timeout : option Z) : M world Z :=
  λ w, match w_procs w !! pid h with
       | None => (Ok 0, w)
       | Some p =>
           match p_exit_at p, timeout with
           | Some d, Some t =>
               if d <=? w_clock w + 1000 * Z.max 0 t
               then (Ok (p_returncode p),
                     collect_child h (set_clock (Z.max (w_clock w) d) w))
               else (Raise (Exn TimeoutExpired "timed out"),
                     set_clock (w_clock w + 1000 * Z.max 0 t) w)
           | Some d, None =>
               (Ok (p_returncode p),
                collect_child h (set_clock (Z.max (w_clock w) d) w))
           | None, Some t =>
               (Raise (Exn TimeoutExpired "timed out"),
                set_clock (w_clock w + 1000 * Z.max 0 t) w)
           | None, None => (Hang, w)
           end
       end.

(** What psutil lists: the processes that run and, of those that have
    exited, the zombies. *)
Definition listed (w : world) (p : os_proc) : bool :=
  alive_at (w_clock w) p || p_zombie p.

(** The process psutil finds under [pid], if any. *)
Definition pid_lookup (w : world) (pid : Z) : option os_proc :=
  match w_procs w !! pid with
  | Some p => if listed w p then Some p else None
  | None => None
  end.

(** [psutil.Process(pid)]: a negative [pid] is refused with [ValueError]
    before the process is looked up. *)
Definition psutil_Process (w : world) (pid : Z) : res os_proc :=
  if pid <? 0 then
    Raise (Exn ValueError
             ("pid must be a positive integer (got " +:+ PyStr.str pid +:+ ")"))
  else
    match pid_lookup w pid with
    | Some p => Ok p
    | None => Raise (Exn NoSuchProcess "process PID not found")
    end.

(** [process.is_running()]: a zombie counts as running. *)
Definition ps_is_running (w : world) (p : os_proc) : bool := listed w p.

(** [process.name()]; where the name of a zombie cannot be read, the
    [ZombieProcess] that is raised is a [NoSuchProcess] and is caught
    like [AccessDenied]. *)
Definition ps_name (p : os_proc) : res string :=
  if p_inspectable p then Ok (p_name p)
  else Raise (Exn AccessDenied "access denied").

(** ** server.py: [SenseServer] *)

Record SenseServer := SenseServer_ {
  port : Z;
  interface : string;
  db_path : string;
  policy_file : string;
  use_sudo : bool;
  binary_manager : BinaryManager;
  process : option Popen;
  _pid_file : string;
}.

(** [x or default] for an optional string *)
Definition str_or (x : option string) (default : string) : string :=
  match x with
  | Some (String c s) => String c s
  | _ => default
  end.

(** [SenseServer(port, interface, db_path, policy_file, use_sudo)]. The
    [atexit] registration of [stop] is outside the model. *)
Definition SenseServer_init (w : world) (port : Z) (interface : string)
    (db_path policy_file : option string) (use_sudo : bool) : SenseServer :=
  SenseServer_ port interface
    (str_or db_path "/tmp/sense.db")
    (str_or policy_file "policies.yaml")
    use_sudo
    (BinaryManager_init "latest")
    None
    (path_join (path_join (home (w_host w)) ".senseai") "server.pid").

Definition set_process (h : option Popen) : M (SenseServer * world) unit :=
  modify_state (λ '(self, w),
    (SenseServer_ (port self) (interface self) (db_path self) (policy_file self)
       (use_sudo self) (binary_manager self) h (_pid_file self), w)).

(** Run a [BinaryManager] method on [self.binary_manager]. *)
Definition on_binary_manager {A} (m : M (BinaryManager * world) A)
    : M (SenseServer * world) A :=
  λ '(self, w),
    let '(r, (bm, w')) := m (binary_manager self, w) in
    (r, (SenseServer_ (port self) (interface self) (db_path self)
           (policy_file self) (use_sudo self) bm (process self)
           (_pid_file self), w')).

(** [p.parent] *)
Fixpoint path_parent (p : string) : string :=
  match p with
  | EmptyString => EmptyString
  | String c rest =>
      if PyStr.contains "/" rest then String c (path_parent rest)
      else EmptyString
  end.

(** *** The PID store *)

Definition _save_pid (self : SenseServer) (pid : Z) : M world unit :=
  mkdir (path_parent (_pid_file self));;
  write_text (_pid_file self) (PyStr.str pid).

(** [int(s)] *)
Definition int_ (s : string) : res Z :=
  match PyStr.int s with
  | Some n => Ok n
  | None => Raise (Exn ValueError "invalid literal for int() with base 10")
  end.

Definition _read_pid (self : SenseServer) (w : world) : res (option Z) :=
  if path_exists w (_pid_file self) then
    try_res
      (s ← read_text (_pid_file self) w;
       n ← int_ (PyStr.strip s);
       mret (Some n))
      [([ValueError; OSError], λ _, Ok None)]
  else Ok None.

Definition _remove_pid (self : SenseServer) : M world unit :=
  w ← get_state;
  if path_exists w (_pid_file self) then unlink (_pid_file self)
  else mret tt.

(** *** Liveness *)

(** [SenseClient(base_url=f"http://localhost:{self.port}")] *)
Definition local_client (self : SenseServer) : SenseClient :=
  SenseClient_init ("http://localhost:" +:+ PyStr.str (port self)) 30.

(** [self.process and self.process.poll() is None] *)
Definition handle_alive (self : SenseServer) (w : world) : bool :=
  match process self with
  | Some h => bool_decide (poll h w = None)
  | None => false
  end.

(** The world once [self.process.poll()] has run, if there is a handle. *)
Definition polled (self : SenseServer) (w : world) : world :=
  match process self with
  | Some h => collect_child h w
  | None => w
  end.

(** The PID-file check of [is_running]: [Some b] when it returns [b],
    [None] when control passes on to the health check. The [except]
    clause names [NoSuchProcess] and [AccessDenied] only. *)
Definition pid_file_check (self : SenseServer) (w : world) : res (option bool) :=
  read ← _read_pid self w;
  match read with
  | Some pid =>
      if negb (pid =? 0) then
        try_res
          (process ← psutil_Process w pid;
           if ps_is_running w process then
             name ← ps_name process;
             mret (Some (PyStr.contains "sense" (PyStr.lower name)))
           else mret (Some false))
          [([NoSuchProcess; AccessDenied], λ _, Ok None)]
      else Ok None
  | None => Ok None
  end.

Definition is_running (self : SenseServer) (w : world) : res bool :=
  if handle_alive self w then Ok true
  else
    checked ← pid_file_check self (polled self w);
    match checked with
    | Some b => Ok b
    | None => health_check (local_client self) w
    end.

(** *** Readiness *)

(** The death check of the readiness loop: the child's stderr if
    [self.process.poll()] reports an exit. *)
Definition died (self : SenseServer) (w : world) : option string :=
  match process self with
  | Some h =>
      match poll h w with
      | Some _ => Some (stderr_read h w)
      | None => None
      end
  | None => None
  end.

(** The [while] loop of [_wait_for_ready]; it is entered at [start_time]
    and every round that does not leave it sleeps half a second. *)
Equations wait_loop (self : SenseServer) (client : SenseClient)
    (start_time timeout : Z) (w : world) : res unit * world
    by wf (Z.to_nat (start_time + 1000 * timeout - w_clock w)) lt :=
  wait_loop self client start_time timeout w
    with Z_lt_dec (w_clock w - start_time) (1000 * timeout) := {
    | left _ with health_check client w := {
        | Ok true => (Ok tt, w)
        | Ok false with died self w := {
            | Some stderr =>
                (Raise (Exn ServerError
                          ("Server process died unexpectedly: " +:+ stderr)), w)
            | None =>
                wait_loop self client start_time timeout
                  (set_clock (w_clock w + 500) w) }
        | Raise e => (Raise e, w)
        | Hang => (Hang, w) }
    | right _ =>
        (Raise (Exn ServerError
                  ("Server failed to become ready within "
                   +:+ PyStr.str timeout +:+ " seconds")), w) }.
Next Obligation. simpl. lia. Qed.

Definition _wait_for_ready (self : SenseServer) (timeout : Z) : M world unit :=
  λ w, wait_loop self (local_client self) (w_clock w) timeout w.

(** *** start, stop, restart *)

(** Run a method that leaves [self] as it is. *)
Definition with_self {A} (f : SenseServer → M world A)
    : M (SenseServer * world) A :=
  λ '(self, w), let '(r, w') := f self w in (r, (self, w')).

Definition command_line (self : SenseServer) (binary_path : string)
    : list string :=
  (if use_sudo self then ["sudo"] else [])
    ++ [binary_path;
        "--port"; PyStr.str (port self);
        "--interface"; interface self;
        "--db"; db_path self]
    ++ (if negb (String.eqb (policy_file self) "")
        then ["--policies"; policy_file self] else []).

Definition start (wait_for_ready : bool) (timeout : Z)
    : M (SenseServer * world) unit :=
  running ← ask (λ '(self, w), is_running self w);
  if (running : bool) then
    with_self (λ self,
      print ("SENSE server is already running on port " +:+ PyStr.str (port self)))
  else
    binary_path ←
      try_except (on_binary_manager get_binary_path)
        [([Exception],
          λ e, raise ServerError ("Failed to locate SENSE binary: " +:+ exn_str e))];
    try_except
      (with_self (λ self,
         print ("Starting SENSE server on port " +:+ PyStr.str (port self) +:+ "...");;
         if use_sudo self
         then print "Note: Running with sudo for network scanning capabilities"
         else mret tt);;
       h ← with_self (λ self, subprocess_Popen (command_line self binary_path));
       set_process (Some h);;
       with_self (λ self, _save_pid self (pid h));;
       (if wait_for_ready
        then with_self (λ self, _wait_for_ready self timeout)
        else mret tt);;
       liftW (print ("SENSE server started successfully (PID: "
                     +:+ PyStr.str (pid h) +:+ ")")))
      [([Exception],
        λ e, raise ServerError ("Failed to start SENSE server: " +:+ exn_str e))].

Definition stop (timeout : Z) : M (SenseServer * world) unit :=
  running ← ask (λ '(self, w), is_running self w);
  if negb running then mret tt
  else
    try_except
      ('(self, _) ← get_state;
       match process self with
       | Some h =>
           liftW (print "Stopping SENSE server...");;
           liftW (terminate h);;
           try_except
             (liftW (wait h (Some timeout));; mret tt)
             [([TimeoutExpired],
               λ _, liftW (print "Forcing server shutdown...");;
                    liftW (kill h);;
                    liftW (wait h None);;
                    mret tt)];;
           set_process None;;
           liftW (print "SENSE server stopped")
       | None => mret tt
       end;;
       with_self _remove_pid)
      [([Exception],
        λ e, raise ServerError ("Failed to stop SENSE server: " +:+ exn_str e))].

Definition restart (timeout : Z) : M (SenseServer * world) unit :=
  stop 10;;
  liftW (sleep 1000);;
  start true timeout.

(** ** client.py: the queries built on [get_findings] *)

(** An exception of a class this code never names ([AttributeError],
    [TypeError]): only [except Exception] can catch it. *)
Definition other_error (msg : string) : exn := Exn Exception msg.

(** The value a [dict] built by [json.loads] holds under [key]; [items]
    are its items, each key once. *)
Fixpoint items_get (items : list (string * json)) (key : string) : option json :=
  match items with
  | [] => None
  | (k, v) :: rest => if String.eqb k key then Some v else items_get rest key
  end.

(** [f.get(key, absent)]: only a [dict] has [get]. *)
Definition json_get (f : json) (key : string) (absent : json) : res json :=
  match f with
  | JDict items => Ok (default absent (items_get items key))
  | _ => Raise (other_error "object has no attribute 'get'")
  end.

(** A Python number by its exact value: [m * 2 ^ e], or a float that is
    not finite. *)
Inductive pynum :=
  | Finite (m e : Z)
  | PosInf
  | NegInf
  | NaN.

(** The value of an IEEE-754 double given by its 64 bits. *)
Definition float_value (bits : Z) : pynum :=
  let b := bits mod 2 ^ 64 in
  let negative := Z.testbit b 63 in
  let expo := (b / 2 ^ 52) mod 2 ^ 11 in
  let frac := b mod 2 ^ 52 in
  let sign := if negative then -1 else 1 in
  if expo =? 2047 then
    if frac =? 0 then (if negative then NegInf else PosInf) else NaN
  else if expo =? 0 then Finite (sign * frac) (-1074)
  else Finite (sign * (2 ^ 52 + frac)) (expo - 1075).

(** The number a JSON value is, if it is one ([True] is 1). *)
Definition as_number (v : json) : option pynum :=
  match v with
  | JInt n => Some (Finite n 0)
  | JBool b => Some (Finite (if b then 1 else 0) 0)
  | JFloat bits => Some (float_value bits)
  | _ => None
  end.

(** [a <= b] on numbers; every comparison with NaN is false. *)
Definition num_le (a b : pynum) : bool :=
  match a, b with
  | NaN, _ | _, NaN => false
  | NegInf, _ | _, PosInf => true
  | _, NegInf | PosInf, _ => false
  | Finite m1 e1, Finite m2 e2 =>
      if e1 <=? e2 then m1 <=? m2 * 2 ^ (e2 - e1)
      else m1 * 2 ^ (e1 - e2) <=? m2
  end.

(** [a == b] on numbers *)
Definition num_eq (a b : pynum) : bool :=
  match a, b with
  | Finite _ _, Finite _ _ => num_le a b && num_le b a
  | PosInf, PosInf | NegInf, NegInf => true
  | _, _ => false
  end.

(** [v == n] for an [int] [n] *)
Definition eq_int (v : json) (n : Z) : bool :=
  match as_number v with
  | Some x => num_eq x (Finite n 0)
  | None => false
  end.

(** [v == s] for a [str] [s] *)
Definition eq_str (v : json) (s : string) : bool :=
  match v with
  | JStr t => String.eqb t s
  | _ => false
  end.

(** [[f for f in l if test(f)]], where the test may raise *)
Fixpoint comprehension {A} (test : A → res bool) (l : list A) : res (list A) :=
  match l with
  | [] => Ok []
  | f :: rest =>
      keep ← test f;
      kept ← comprehension test rest;
      mret (if (keep : bool) then f :: kept else kept)
  end.

(** The [for] loop of [get_finding_by_id] *)
Fixpoint first_with_id (findings : list json) (finding_id : Z)
    : res (option json) :=
  match findings with
  | [] => Ok None
  | finding :: rest =>
      v ← json_get finding "id" JNull;
      if eq_int v finding_id then Ok (Some finding)
      else first_with_id rest finding_id
  end.

Definition get_finding_by_id (self : SenseClient) (finding_id : Z) (w : world)
    : res (option json) :=
  findings ← get_findings self None w;
  first_with_id findings finding_id.

Definition get_findings_by_type (self : SenseClient) (finding_type : string)
    (w : world) : res (list json) :=
  findings ← get_findings self None w;
  comprehension
    (λ f, v ← json_get f "type" JNull; mret (eq_str v finding_type))
    findings.

(** [min_severity <= x <= max_severity] for the value [x] of a finding *)
Definition severity_between (min_severity max_severity : pynum) (x : json)
    : res bool :=
  match as_number x with
  | Some n => Ok (num_le min_severity n && num_le n max_severity)
  | None => Raise (other_error "'<=' not supported between these instances")
  end.

Definition get_findings_by_severity (self : SenseClient)
    (min_severity max_severity : pynum) (w : world) : res (list json) :=
  findings ← get_findings self None w;
  comprehension
    (λ f, x ← json_get f "severity" (JInt 0);
          severity_between min_severity max_severity x)
    findings.

(** ** binary.py: [verify_binary] *)

(** [run_help path] stands for
    [subprocess.run([path, "--help"], capture_output=True, text=True, timeout=5)]:
    the return code, or the exception it raises. *)
Definition verify_binary (run_help : string → res Z)
    : M (BinaryManager * world) bool :=
  try_except
    (binary_path ← get_binary_path;
     returncode ← ask (λ _, run_help binary_path);
     mret (returncode =? 0))
    [([Exception], λ _, mret false)].

(** ** server.py: [get_status] *)

(** [status[key] = v] *)
Definition dict_set (key : string) (v : json) : M (gmap string json) unit :=
  modify_state (<[key := v]>).

(** [self._read_pid() or (self.process.pid if self.process else None)] *)
Definition known_pid (read : option Z) (self : SenseServer) : option Z :=
  match read with
  | Some n => if n =? 0 then pid <$> process self else Some n
  | None => pid <$> process self
  end.

(** [cpu_percent p] stands for [process.cpu_percent()] and [memory_mb p]
    for [process.memory_info().rss / 1024 / 1024], two floats sampled
    when the status is asked for; either call may raise. *)
Definition get_status (cpu_percent memory_mb : os_proc → res json)
    (self : SenseServer) (w : world) : res (gmap string json) :=
  running ← is_running self w;
  let status : gmap string json :=
    <["db_path" := JStr (db_path self)]>
      (<["interface" := JStr (interface self)]>
         (<["port" := JInt (port self)]>
            (<["running" := JBool running]> ∅))) in
  if (running : bool) then
    read ← _read_pid self w;
    match known_pid read self with
    | Some n =>
        if negb (n =? 0) then
          match
            try_except
              (process ← ask (λ _, psutil_Process (polled self w) n);
               dict_set "pid" (JInt n);;
               cpu ← ask (λ _, cpu_percent process);
               dict_set "cpu_percent" cpu;;
               mem ← ask (λ _, memory_mb process);
               dict_set "memory_mb" mem)
              [([NoSuchProcess; AccessDenied], λ _, mret tt)]
              status
          with
          | (Ok _, status') => Ok status'
          | (Raise e, _) => Raise e
          | (Hang, _) => Hang
          end
        else Ok status
    | None => Ok status
    end
  else Ok status.

(** ** Vocabulary of the statements about the client *)

Definition is_dict (f : json) : bool :=
  match f with JDict _ => true | _ => false end.

(** What [f.get(key, absent)] gives on a finding that is a dict. *)
Definition field (key : string) (absent : json) (f : json) : json :=
  match f with
  | JDict items => default absent (items_get items key)
  | _ => absent
  end.

Definition has_id (finding_id : Z) (f : json) : bool :=
  eq_int (field "id" JNull f) finding_id.

Definition has_type (finding_type : string) (f : json) : bool :=
  eq_str (field "type" JNull f) finding_type.

(** The severity of a finding as a number; a finding without one counts
    as 0. *)
Definition severity (f : json) : option pynum :=
  as_number (field "severity" (JInt 0) f).

Definition severity_in (lo hi : pynum) (f : json) : bool :=
  match severity f with
  | Some n => num_le lo n && num_le n hi
  | None => false
  end.

(** A JSON object whose severity, if it has one, is a number. *)
Definition has_numeric_severity (f : json) : bool :=
  is_dict f && bool_decide (is_Some (severity f)).

(** The last character of a string *)
Fixpoint last_char (s : string) : option ascii :=
  match s with
  | EmptyString => None
  | String c EmptyString => Some c
  | String _ s' => last_char s'
  end.

(** ** Vocabulary of the statements about the supervisor *)

(** [w] with other files and other printed lines. *)
Definition with_files_stdout (fs : gmap string file) (out : list string)
    (w : world) : world :=
  World (w_host w) (w_clock w) fs (w_procs w) (w_http w) (w_spawn w)
        (w_spawned w) (w_signals w) out.

Definition died_error (stderr : string) : exn :=
  Exn ServerError ("Server process died unexpectedly: " +:+ stderr).

Definition timeout_error (timeout : Z) : exn :=
  Exn ServerError
    ("Server failed to become ready within " +:+ PyStr.str timeout +:+ " seconds").

(** [ServerError(f"Failed to start SENSE server: {e}")] *)
Definition start_failed (e : exn) : exn :=
  Exn ServerError ("Failed to start SENSE server: " +:+ exn_str e).

(** [ServerError(f"Failed to locate SENSE binary: {e}")] *)
Definition locate_failed (e : exn) : exn :=
  Exn ServerError ("Failed to locate SENSE binary: " +:+ exn_str e).

(** [ServerError(f"Failed to stop SENSE server: {e}")] *)
Definition stop_failed (e : exn) : exn :=
  Exn ServerError ("Failed to stop SENSE server: " +:+ exn_str e).

(** The health probe of [self], asked at time [t]. *)
Definition health_at (self : SenseServer) (w : world) (t : Z) : res bool :=
  health_check (local_client self) (set_clock t w).

(** [self] once it holds the binary manager [bm] and the handle [h]. *)
Definition holding (bm : BinaryManager) (h : option Popen) (self : SenseServer)
    : SenseServer :=
  SenseServer_ (port self) (interface self) (db_path self) (policy_file self)
    (use_sudo self) bm h (_pid_file self).

(** The world right after [start] has spawned the child [p] under [pid]
    from the world [w] and has written the PID file: what [start] has
    printed, the child in the process table, the command in the log of
    spawned commands, the PID in its file. *)
Definition launched (self : SenseServer) (binary_path : string) (pid : Z)
    (p : os_proc) (q : list spawn_outcome) (w : world) : world :=
  let w1 :=
    log_stdout ("Starting SENSE server on port " +:+ PyStr.str (port self) +:+ "...") w in
  let w2 :=
    if use_sudo self
    then log_stdout "Note: Running with sudo for network scanning capabilities" w1
    else w1 in
  let w3 :=
    log_spawned (command_line self binary_path)
      (set_procs (<[pid := p]> (w_procs w2)) (set_spawn q w2)) in
  let mode := match w_files w3 !! _pid_file self with
              | Some f => f_mode f
              | None => new_file_mode (w_host w3)
              end in
  set_files (<[_pid_file self := File mode (Some (PyStr.str pid))]> (w_files w3)) w3.

(** The four entries every status has. *)
Definition base_status (self : SenseServer) (running : bool) : gmap string json :=
  <["db_path" := JStr (db_path self)]>
    (<["interface" := JStr (interface self)]>
       (<["port" := JInt (port self)]>
          (<["running" := JBool running]> ∅))).

(** What [psutil.Process(n)] raises for a negative [n]. *)
Definition bad_pid (n : Z) : exn :=
  Exn ValueError ("pid must be a positive integer (got " +:+ PyStr.str n +:+ ")").

(** [e] is caught by [except (psutil.NoSuchProcess, psutil.AccessDenied)]. *)
Definition process_gone (e : exn) : bool :=
  isinstance e NoSuchProcess || isinstance e AccessDenied.

(** ** Vocabulary of the statements about the binary manager *)

(** The target of a download into [cache_dir]: [sense], or [sense.exe]
    on Windows. *)
Definition download_target (w : world) (cache_dir : string) : string :=
  if String.eqb
       (get_platform_info (platform_system (w_host w))
          (platform_machine (w_host w))).1 "windows"
  then path_join cache_dir (BINARY_NAME +:+ ".exe")
  else path_join cache_dir BINARY_NAME.

(** ** Sample inputs

    A small host and a few worlds on which the model is run. *)

(** A decoder that knows four documents and whose recursion limit is
    reached by five levels of nesting. *)
Definition sample_loads (s : string) : decoding :=
  if String.eqb s "[]" then Decoded (JList [])
  else if String.eqb s "{}" then Decoded (JDict [])
  else if String.eqb s "null" then Decoded JNull
  else if String.eqb s "[1]" then Decoded (JList [JInt 1])
  else if String.eqb s "[[[[[1]]]]]" then
    TooDeep "maximum recursion depth exceeded while decoding a JSON array from a unicode string"
  else NotJSON "Expecting value: line 1 column 1 (char 0)".

Definition offline : exn := Exn OSError "Network is unreachable".
Definition refused : exn := Exn RequestException "Connection refused".

Definition sample_host : host :=
  Host "Linux" "x86_64" "linux" "/home/user" None None "/opt/sense-ai"
       None (λ _, Raise offline) 420
       (λ _, true) (λ _, true) (λ _, true) (λ _, true) sample_loads true.

(** Nothing installed, nothing running, nothing listening. *)
Definition empty_world : world :=
  World sample_host 0 ∅ ∅ (λ _ _, HttpFails refused) [] [] [] [].

(** A world whose every URL answers with [r]. *)
Definition answering (r : response) : world :=
  World sample_host 0 ∅ ∅ (λ _ _, HttpAnswers r) [] [] [] [].

Definition sample_client : SenseClient :=
  SenseClient_init "http://localhost:8080/" 30.

Definition sample_stream : list sse_event :=
  [Event "connected" "{}"; Event "finding" "[1]"; Event "finding" "{oops";
   Event "ping" "[]"; Event "finding" "null"].

(** The binary has been built in the project root. *)
Definition dev_files : gmap string file :=
  {[ "/opt/sense-ai/sense" := File 493 None ]}.

(** A backend that exits with status 1 at [exit_at], if at all. *)
Definition sample_child (exit_at : option Z) : os_proc :=
  Proc "sense" exit_at 1 "listen tcp :9999: bind: permission denied"
       true true (Some 100) true.

(** The binary is built, nothing answers on any port, and the next
    [Popen] starts [p] as process 4242. *)
Definition launch_world (p : os_proc) : world :=
  World sample_host 0 dev_files ∅ (λ _ _, HttpFails refused)
        [SpawnChild 4242 p] [] [] [].

Definition healthy : response := Response 200 "OK" "[]" [] StreamClosed.

Definition pid_file_4242 : gmap string file :=
  {[ "/home/user/.senseai/server.pid" := File 420 (Some "4242") ]}.

(** The PID file names process 4242, which is alive but is a Python
    interpreter; a backend started by someone else answers on the port. *)
Definition foreign_pid_world : world :=
  World sample_host 0 pid_file_4242
        {[ 4242 := Proc "python3" None 0 "" true true (Some 100) false ]}
        (λ _ _, HttpAnswers healthy) [] [] [] [].

(** The PID file names process 4242, a backend that an earlier run of the
    controlling program started and that is still alive. *)
Definition orphan_world : world :=
  World sample_host 0 pid_file_4242 {[ 4242 := sample_child None ]}
        (λ _ _, HttpFails refused) [] [] [] [].

(** As [launch_world], with a backend that answers from the first second on. *)
Definition ready_world (p : os_proc) : world :=
  World sample_host 0 dev_files ∅
        (λ t _, if 1000 <=? t then HttpAnswers healthy else HttpFails refused)
        [SpawnChild 4242 p] [] [] [].

(** The three findings of the test suite, with severities 8.0, 5.0 and
    6.0 as doubles. *)
Definition finding (id : Z) (type : string) (severity_bits : Z) : json :=
  JDict [("id", JInt id); ("type", JStr type); ("severity", JFloat severity_bits)].

Definition three_findings : list json :=
  [finding 1 "network" 4620693217682128896;
   finding 2 "endpoint" 4617315517961601024;
   finding 3 "network" 4618441417868443648].

(** A decoder that reads the body [findings] as [three_findings]. *)
Definition findings_host : host :=
  Host "Linux" "x86_64" "linux" "/home/user" None None "/opt/sense-ai"
       None (λ _, Raise offline) 420
       (λ _, true) (λ _, true) (λ _, true) (λ _, true)
       (λ s, if String.eqb s "findings" then Decoded (JList three_findings)
             else sample_loads s)
       true.

Definition findings_world : world :=
  World findings_host 0 ∅ ∅
        (λ _ _, HttpAnswers (Response 200 "OK" "findings" [] StreamClosed))
        [] [] [] [].

Definition sample_server : SenseServer :=
  SenseServer_init empty_world 9999 "en0" None None false.

(** The supervisor that started process 4242 and still holds its handle. *)
Definition held_server : SenseServer :=
  holding (BinaryManager_init "latest") (Some (Popen_ 4242)) sample_server.


(** The PID file holds -1. *)
Definition negative_pid_world : world :=
  World sample_host 0
        {[ "/home/user/.senseai/server.pid" := File 420 (Some "-1") ]} ∅
        (λ _ _, HttpFails refused) [] [] [] [].

(** A backend that ignores SIGTERM. *)
Definition stubborn_world : world :=
  World sample_host 0 pid_file_4242
        {[ 4242 := Proc "sense" None 0 "" true true None true ]}
        (λ _ _, HttpFails refused) [] [] [] [].

(** A backend that runs as another user: it cannot be signalled. *)
Definition root_owned_world : world :=
  World sample_host 0 pid_file_4242
        {[ 4242 := Proc "sudo" None 0 "" true false (Some 100) true ]}
        (λ _ _, HttpFails refused) [] [] [] [].

(** As [launch_world], on a host where no file can be written. *)
Definition read_only_host : host :=
  Host "Linux" "x86_64" "linux" "/home/user" None None "/opt/sense-ai"
       None (λ _, Raise offline) 420
       (λ _, true) (λ _, false) (λ _, true) (λ _, true) sample_loads true.

Definition read_only_world : world :=
  World read_only_host 0 dev_files ∅ (λ _ _, HttpFails refused)
        [SpawnChild 4242 (sample_child None)] [] [] [].

(** Nothing installed, [which] finds nothing, and no directory can be
    made: the home directory is on a file system mounted read-only. *)
Definition sealed_host : host :=
  Host "Linux" "x86_64" "linux" "/home/user" None None "/opt/sense-ai"
       (Some (1, "")) (λ _, Raise offline) 420
       (λ _, false) (λ _, false) (λ _, false) (λ _, false) sample_loads true.

Definition sealed_world : world :=
  World sealed_host 0 ∅ ∅ (λ _ _, HttpFails refused) [] [] [] [].

(** Nothing installed, and the release can be fetched. *)
Definition online_host : host :=
  Host "Linux" "x86_64" "linux" "/home/user" None None "/opt/sense-ai"
       None (λ _, Ok tt) 420
       (λ _, true) (λ _, true) (λ _, true) (λ _, true) sample_loads true.

Definition online_world : world :=
  World online_host 0 ∅ ∅ (λ _ _, HttpFails refused) [] [] [] [].

(** Metrics of a process at rest, and metrics that may not be read. *)
Definition idle : os_proc → res json := λ _, Ok (JFloat 0).
Definition denied : os_proc → res json :=
  λ _, Raise (Exn AccessDenied "access denied").

Definition newline : string := String (ascii_of_N 10) EmptyString.

(** * Properties *)

(** ** Strings and integers *)

Module PyStrFacts.
Import PyStr.

#[local] Arguments digits_fuel : simpl never.

Lemma all_chars_app P a b :
  all_chars P (a +:+ b) = all_chars P a && all_chars P b.
Proof.
  induction a as [|c a IH]; simpl; [reflexivity|].
  rewrite IH. apply andb_assoc.
Qed.

Lemma lstrip_id s :
  all_chars (λ c, negb (is_space c)) s = true → lstrip s = s.
Proof.
  destruct s as [|c s]; simpl; [reflexivity|].
  intros [Hc _]%andb_true_iff. apply negb_true_iff in Hc. now rewrite Hc.
Qed.

Lemma rstrip_id s :
  all_chars (λ c, negb (is_space c)) s = true → rstrip s = s.
Proof.
  induction s as [|c s IH]; simpl; [reflexivity|].
  intros [Hc Hs]%andb_true_iff. apply negb_true_iff in Hc.
  rewrite (IH Hs), Hc. now destruct s.
Qed.

Lemma strip_id s :
  all_chars (λ c, negb (is_space c)) s = true → strip s = s.
Proof.
  intros H. unfold strip. rewrite (lstrip_id _ H). now apply rstrip_id.
Qed.

Lemma digit_char_spec d :
  0 <= d < 10 →
  is_digit (digit_char d) = true ∧ digit_val (digit_char d) = d.
Proof.
  intros H.
  assert (d = 0 ∨ d = 1 ∨ d = 2 ∨ d = 3 ∨ d = 4 ∨ d = 5 ∨ d = 6 ∨
          d = 7 ∨ d = 8 ∨ d = 9) as Hd by lia.
  repeat destruct Hd as [-> | Hd]; try subst d; split; reflexivity.
Qed.

Lemma is_digit_not_space c : is_digit c = true → is_space c = false.
Proof.
  unfold is_digit, is_space.
  intros [H1 H2]%andb_true_iff.
  apply N.leb_le in H1. apply N.leb_le in H2.
  apply orb_false_iff. split; apply andb_false_iff.
  - right. apply N.leb_gt. lia.
  - right. apply N.leb_gt. lia.
Qed.

Lemma is_digit_not_sign c :
  is_digit c = true → Ascii.eqb c "-" = false ∧ Ascii.eqb c "+" = false.
Proof.
  intros H. split; apply Ascii.eqb_neq; intros ->; discriminate H.
Qed.

Lemma horner_app acc a b : horner acc (a +:+ b) = horner (horner acc a) b.
Proof. revert acc. induction a as [|c a IH]; intros acc; simpl; auto. Qed.

Lemma int_digits_all_digits s acc seen :
  all_chars is_digit s = true →
  int_digits s acc seen =
    if (seen || negb (String.eqb s ""))%bool then Some (horner acc s) else None.
Proof.
  revert acc seen. induction s as [|c s IH]; intros acc seen Hs; simpl in *.
  - now destruct seen.
  - apply andb_true_iff in Hs as [Hc Hs]. rewrite Hc, (IH _ _ Hs).
    simpl. now rewrite orb_true_r.
Qed.

Lemma digits_all_digits fuel n :
  0 <= n → all_chars is_digit (digits fuel n) = true.
Proof.
  revert n. induction fuel as [|fuel IH]; intros n Hn; simpl; [reflexivity|].
  rewrite all_chars_app. simpl.
  assert (0 <= n mod 10 < 10) as Hm by (apply Z.mod_pos_bound; lia).
  rewrite (proj1 (digit_char_spec _ Hm)), andb_true_r.
  destruct (n <? 10); [reflexivity|].
  apply IH. apply Z.div_pos; lia.
Qed.

Lemma digits_nonempty fuel n : digits (S fuel) n ≠ "".
Proof.
  simpl. destruct (if n <? 10 then _ else _); discriminate.
Qed.

Lemma horner_digits fuel n :
  0 <= n < 10 ^ Z.of_nat fuel → horner 0 (digits fuel n) = n.
Proof.
  revert n. induction fuel as [|fuel IH]; intros n Hn.
  - simpl in *. lia.
  - cbn [digits]. rewrite horner_app.
    assert (0 <= n mod 10 < 10) as Hm by (apply Z.mod_pos_bound; lia).
    cbn [horner]. rewrite (proj2 (digit_char_spec _ Hm)).
    destruct (Z.ltb_spec n 10) as [Hlt|Hge].
    + cbn [horner]. rewrite Z.mod_small by lia. lia.
    + rewrite IH.
      * pose proof (Z.div_mod n 10 ltac:(lia)). lia.
      * rewrite Nat2Z.inj_succ, Z.pow_succ_r in Hn by lia.
        split; [apply Z.div_pos; lia|].
        apply Z.div_lt_upper_bound; lia.
Qed.

Lemma digits_fuel_enough n : 0 <= n → n < 10 ^ Z.of_nat (digits_fuel n).
Proof.
  intros Hn. unfold digits_fuel.
  rewrite Nat2Z.inj_succ, Z2Nat.id by apply Z.log2_nonneg.
  destruct (Z.eq_dec n 0) as [->|Hz]; [reflexivity|].
  pose proof (Z.log2_spec n ltac:(lia)) as [_ Hlt].
  eapply Z.lt_le_trans; [exact Hlt|].
  apply Z.pow_le_mono_l. pose proof (Z.log2_nonneg n). lia.
Qed.

Lemma int_digits_str_nonneg n :
  0 <= n → int_digits (digits (digits_fuel n) n) 0 false = Some n.
Proof.
  intros Hn.
  rewrite int_digits_all_digits by now apply digits_all_digits.
  unfold digits_fuel at 1.
  destruct (String.eqb_spec (digits (S (Z.to_nat (Z.log2 n))) n) "") as [He|_].
  - now apply digits_nonempty in He.
  - cbn [orb negb]. f_equal. apply (horner_digits (digits_fuel n)).
    split; [lia|]. now apply digits_fuel_enough.
Qed.

Lemma all_digits_no_space s :
  all_chars is_digit s = true →
  all_chars (λ c, negb (is_space c)) s = true.
Proof.
  induction s as [|c s IH]; simpl; [reflexivity|].
  intros [Hc Hs]%andb_true_iff.
  now rewrite (is_digit_not_space _ Hc), IH.
Qed.

(** [int(str(n)) == n] *)
Lemma int_str n : int (str n) = Some n.
Proof.
  unfold int, str. destruct (Z.ltb_spec n 0) as [Hneg|Hpos].
  - assert (0 <= - n) as Hn by lia.
    rewrite strip_id.
    + cbv beta iota. replace (Ascii.eqb "-" "-") with true by reflexivity.
      rewrite (int_digits_str_nonneg _ Hn). cbn [fmap option_fmap option_map].
      f_equal. lia.
    + cbn [all_chars]. rewrite all_digits_no_space by now apply digits_all_digits.
      reflexivity.
  - pose proof (digits_all_digits (digits_fuel n) n Hpos) as Hd.
    rewrite strip_id by now apply all_digits_no_space.
    pose proof (int_digits_str_nonneg n Hpos) as Hi.
    destruct (digits (digits_fuel n) n) as [|c s] eqn:E.
    + discriminate Hi.
    + simpl in Hd. apply andb_true_iff in Hd as [Hc _].
      destruct (is_digit_not_sign _ Hc) as [-> ->]. exact Hi.
Qed.

Lemma strip_str n : strip (str n) = str n.
Proof.
  apply strip_id. unfold str. destruct (Z.ltb_spec n 0).
  - cbn [all_chars]. rewrite all_digits_no_space by (apply digits_all_digits; lia).
    reflexivity.
  - apply all_digits_no_space, digits_all_digits. lia.
Qed.

Lemma lstrip_head t :
  lstrip t = "" ∨ ∃ c r, lstrip t = String c r ∧ is_space c = false.
Proof.
  induction t as [|c t IH]; simpl; [now left|].
  destruct (is_space c) eqn:Hc; [exact IH|]. right. eauto.
Qed.

Lemma rstrip_head c r :
  is_space c = false → ∃ r', rstrip (String c r) = String c r'.
Proof.
  intros Hc. cbn [rstrip]. destruct (rstrip r); [rewrite Hc|]; eauto.
Qed.

Lemma rstrip_idempotent t : rstrip (rstrip t) = rstrip t.
Proof.
  induction t as [|c t IH]; [reflexivity|].
  cbn [rstrip]. destruct (rstrip t) as [|c' r] eqn:E.
  - destruct (is_space c) eqn:Hc; [reflexivity|].
    cbn [rstrip]. now rewrite Hc.
  - change (rstrip (String c (String c' r))) with
      (match rstrip (String c' r) with
       | EmptyString => if is_space c then EmptyString else String c EmptyString
       | String a b => String c (String a b)
       end).
    now rewrite IH.
Qed.

Lemma strip_idempotent s : strip (strip s) = strip s.
Proof.
  unfold strip.
  assert (lstrip (rstrip (lstrip s)) = rstrip (lstrip s)) as ->.
  { destruct (lstrip_head s) as [->|(c & r & -> & Hc)]; [reflexivity|].
    destruct (rstrip_head c r Hc) as [r' ->]. cbn [lstrip]. now rewrite Hc. }
  apply rstrip_idempotent.
Qed.

Lemma int_strip s : int (strip s) = int s.
Proof. unfold int. now rewrite strip_idempotent. Qed.

End PyStrFacts.

(** ** Platform normalisation *)

(** Case analysis on the first string comparison of the goal. *)
Ltac case_string_eqb :=
  match goal with
  | |- context [String.eqb ?a ?b] => destruct (String.eqb_spec a b)
  end.

Lemma dict_get_os s : dict_get os_table s s = s.
Proof.
  unfold os_table. cbn [dict_get].
  repeat (case_string_eqb; [assumption|]).
  reflexivity.
Qed.

(** C7. [get_platform_info] is a total function of the two strings the
    operating system reports. The OS name is the reported one in lower
    case, so darwin, linux and windows come out under these names; the
    machine names x86_64 and amd64 give amd64, arm64 and aarch64 give
    arm64, and any other machine name comes back lower-cased and otherwise
    unchanged. *)
Theorem platform_normalization (system machine : string) :
  let s := PyStr.lower system in
  let m := PyStr.lower machine in
  let r := get_platform_info system machine in
  (s = "darwin" → r.1 = "darwin") ∧
  (s = "linux" → r.1 = "linux") ∧
  (s = "windows" → r.1 = "windows") ∧
  r.1 = s ∧
  (m = "x86_64" ∨ m = "amd64" → r.2 = "amd64") ∧
  (m = "arm64" ∨ m = "aarch64" → r.2 = "arm64") ∧
  (m ≠ "x86_64" → m ≠ "amd64" → m ≠ "arm64" → m ≠ "aarch64" → r.2 = m).
Proof.
  cbv zeta. unfold get_platform_info. cbn [fst snd].
  rewrite dict_get_os.
  repeat split; try (intros ->; reflexivity).
  - intros [-> | ->]; reflexivity.
  - intros [-> | ->]; reflexivity.
  - intros H1 H2 H3 H4. unfold arch_table. cbn [dict_get].
    repeat (case_string_eqb; [congruence|]).
    reflexivity.
Qed.

Lemma platform_normalization_witness :
  (get_platform_info "Linux" "x86_64").1 = "linux" ∧
  (get_platform_info "Linux" "x86_64").2 = "amd64" ∧
  (get_platform_info "Plan9" "MIPS").2 = "mips".
Proof.
  pose proof (platform_normalization "Linux" "x86_64") as (_ & Hl & _ & _ & Ha & _).
  pose proof (platform_normalization "Plan9" "MIPS") as (_ & _ & _ & _ & _ & _ & Hm).
  split; [apply Hl; reflexivity|].
  split; [apply Ha; left; reflexivity|].
  apply Hm; discriminate.
Defined.

(** ** The PID store *)


Lemma read_pid_text self w mode s :
  w_files w !! _pid_file self = Some (File mode (Some s)) →
  _read_pid self w = Ok (PyStr.int s).
Proof.
  intros H. unfold _read_pid, path_exists, read_text, int_.
  rewrite H, bool_decide_eq_true_2 by eauto.
  cbn [mbind res_bind]. rewrite PyStrFacts.int_strip.
  destruct (PyStr.int s); reflexivity.
Qed.

Lemma read_pid_never_raises self w : ∃ r, _read_pid self w = Ok r.
Proof.
  unfold _read_pid, path_exists, read_text, int_.
  destruct (w_files w !! _pid_file self) as [[mode [s|]]|] eqn:Hf.
  - rewrite bool_decide_eq_true_2 by eauto. cbn [mbind res_bind].
    destruct (PyStr.int _); eauto.
  - rewrite bool_decide_eq_true_2 by eauto. eauto.
  - rewrite bool_decide_eq_false_2; [eauto|]. now intros [? ?].
Qed.



(** ** The REST client *)

Lemma get_findings_decoded self limit w r :
  session_get (base_url self +:+ "/findings") w = Ok r →
  raise_for_status (base_url self +:+ "/findings") r = Ok tt →
  get_findings self limit w =
    match json_loads (w_host w) (text r) with
    | NotJSON msg =>
        Raise (Exn APIError
                 ((if requests_wraps_json_error (w_host w)
                   then "Failed to fetch findings: "
                   else "Failed to parse API response: ") +:+ msg))
    | TooDeep msg => Raise (Exn RecursionError msg)
    | Decoded (JList l) =>
        Ok (match limit with Some n => slice_to n l | None => l end)
    | Decoded _ => Ok []
    end.
Proof.
  intros Hget Hstatus. unfold get_findings, response_json.
  rewrite Hget. cbn [mbind res_bind]. rewrite Hstatus. cbn [mbind res_bind].
  destruct (json_loads (w_host w) (text r)) as [v|msg|msg].
  - destruct v, limit; reflexivity.
  - now destruct (requests_wraps_json_error (w_host w)).
  - reflexivity.
Qed.

(** Neither [except] clause of [get_findings] catches the decoder's
    [RecursionError]: it reaches the caller as it is. *)
Lemma get_findings_too_deep self limit w r msg :
  session_get (base_url self +:+ "/findings") w = Ok r →
  raise_for_status (base_url self +:+ "/findings") r = Ok tt →
  json_loads (w_host w) (text r) = TooDeep msg →
  get_findings self limit w = Raise (Exn RecursionError msg).
Proof.
  intros Hget Hstatus Hdeep.
  now rewrite (get_findings_decoded _ limit _ _ Hget Hstatus), Hdeep.
Qed.

(** C9, as stated, fails: a 200 answer whose body is the JSON object
    [{}] makes [get_findings] return the empty list, not raise. *)
Lemma get_findings_non_array_counterexample :
  let w := answering (Response 200 "OK" "{}" [] StreamClosed) in
  session_get (base_url sample_client +:+ "/findings") w
    = Ok (Response 200 "OK" "{}" [] StreamClosed) ∧
  json_loads (w_host w) "{}" = Decoded (JDict []) ∧
  get_findings sample_client None w = Ok [] ∧
  ¬ ∃ msg, get_findings sample_client None w = Raise (Exn APIError msg).
Proof.
  cbv zeta. repeat split. intros [msg H]. discriminate H.
Qed.

(** C9, amended. When the results endpoint answers with a status that
    [raise_for_status] accepts: a body that the decoder rejects as
    invalid JSON makes [get_findings] raise [APIError]; a body that
    decodes to a value other than an array makes it return the empty
    list; an array is returned, cut to [limit] when one is given. A body
    on which the decoder gives up is another matter
    ([get_findings_too_deep]). *)
Theorem get_findings_payload self limit w r :
  session_get (base_url self +:+ "/findings") w = Ok r →
  raise_for_status (base_url self +:+ "/findings") r = Ok tt →
  (∀ msg, json_loads (w_host w) (text r) = NotJSON msg →
     ∃ text, get_findings self limit w = Raise (Exn APIError text)) ∧
  (∀ v, json_loads (w_host w) (text r) = Decoded v → (∀ l, v ≠ JList l) →
     get_findings self limit w = Ok []) ∧
  (∀ l, json_loads (w_host w) (text r) = Decoded (JList l) →
     get_findings self limit w
       = Ok (match limit with Some n => slice_to n l | None => l end)).
Proof.
  intros Hget Hstatus.
  rewrite (get_findings_decoded _ limit _ _ Hget Hstatus).
  split; [|split].
  - intros msg ->. eauto.
  - intros v -> Hv. destruct v; try reflexivity. now destruct (Hv l).
  - now intros l ->.
Qed.

Lemma get_findings_payload_witness :
  (∃ text, get_findings sample_client None
             (answering (Response 200 "OK" "<html>" [] StreamClosed))
           = Raise (Exn APIError text))
  ∧ get_findings sample_client None
      (answering (Response 200 "OK" "null" [] StreamClosed)) = Ok []
  ∧ get_findings sample_client (Some 5)
      (answering (Response 200 "OK" "[1]" [] StreamClosed)) = Ok [JInt 1].
Proof.
  split; [|split].
  - refine (proj1 (get_findings_payload sample_client None
                     (answering (Response 200 "OK" "<html>" [] StreamClosed))
                     _ eq_refl eq_refl) _ eq_refl).
  - refine (proj1 (proj2 (get_findings_payload sample_client None
                     (answering (Response 200 "OK" "null" [] StreamClosed))
                     _ eq_refl eq_refl)) JNull eq_refl _).
    intros l. discriminate.
  - refine (proj2 (proj2 (get_findings_payload sample_client (Some 5)
                     (answering (Response 200 "OK" "[1]" [] StreamClosed))
                     _ eq_refl eq_refl)) [JInt 1] eq_refl).
Defined.

(** One [next] on a generator suspended in front of an event that is not
    surfaced behaves as if the event were not there. *)
Lemma stream_loop_skip w ev rest fin :
  carried_finding w ev = None → too_deep w ev = None →
  stream_loop w (ev :: rest) fin = stream_loop w rest fin.
Proof.
  unfold carried_finding, too_deep. cbn [stream_loop].
  destruct (String.eqb (event ev) "finding").
  - destruct (json_loads _ _); [discriminate|reflexivity|discriminate].
  - intros _ _. now destruct (String.eqb (event ev) "connected").
Qed.

(** An event on which the decoder gives up ends the generator with the
    decoder's error. *)
Lemma stream_loop_too_deep w ev rest fin msg :
  too_deep w ev = Some msg →
  stream_loop w (ev :: rest) fin = Done (Raised (Exn RecursionError msg)).
Proof.
  unfold too_deep. cbn [stream_loop].
  destruct (String.eqb (event ev) "finding"); [|discriminate].
  destruct (json_loads _ _); try discriminate. now intros [= ->].
Qed.

Lemma stream_loop_yield w ev rest fin finding :
  carried_finding w ev = Some finding →
  stream_loop w (ev :: rest) fin = Yield finding (GenSuspended rest fin).
Proof.
  unfold carried_finding. cbn [stream_loop].
  destruct (String.eqb (event ev) "finding"); [|discriminate].
  destruct (json_loads _ _); try discriminate. now intros [= ->].
Qed.

Lemma collect_suspended self w events fin :
  Forall (λ ev, too_deep w ev = None) events →
  ∀ fuel, (length events < fuel)%nat →
  collect fuel self w (GenSuspended events fin)
    = Some (carried_findings w events, stream_ending fin).
Proof.
  induction 1 as [|ev rest Hok _ IH]; intros fuel Hfuel.
  - destruct fuel; [lia|]. cbn [collect gen_next stream_loop].
    now destruct fin.
  - destruct fuel as [|fuel]; [simpl in Hfuel; lia|].
    cbn [length] in Hfuel. unfold carried_findings. cbn [omap list_omap].
    fold (carried_findings w rest).
    destruct (carried_finding w ev) as [finding|] eqn:Hev.
    + cbn [collect gen_next]. rewrite (stream_loop_yield _ _ _ _ _ Hev).
      rewrite IH by lia. reflexivity.
    + specialize (IH (S fuel) ltac:(lia)).
      cbn [collect gen_next] in IH |- *.
      now rewrite (stream_loop_skip _ _ _ _ Hev Hok).
Qed.

(** The findings before the first event on which the decoder gives up
    are handed over; the iteration then raises and the rest of the stream
    is never read. *)
Lemma collect_too_deep self w pre ev post fin msg :
  Forall (λ ev, too_deep w ev = None) pre →
  too_deep w ev = Some msg →
  ∀ fuel, (length pre < fuel)%nat →
  collect fuel self w (GenSuspended (pre ++ ev :: post) fin)
    = Some (carried_findings w pre, Raised (Exn RecursionError msg)).
Proof.
  intros Hpre Hev. induction Hpre as [|e rest Hok _ IH]; intros fuel Hfuel.
  - destruct fuel; [lia|]. cbn [app collect gen_next].
    now rewrite (stream_loop_too_deep _ _ _ _ _ Hev).
  - destruct fuel as [|fuel]; [simpl in Hfuel; lia|].
    cbn [length] in Hfuel. unfold carried_findings.
    cbn [app omap list_omap]. fold (carried_findings w rest).
    destruct (carried_finding w e) as [finding|] eqn:He.
    + cbn [collect gen_next]. rewrite (stream_loop_yield _ _ _ _ _ He).
      rewrite IH by lia. reflexivity.
    + specialize (IH (S fuel) ltac:(lia)).
      cbn [collect gen_next] in IH |- *.
      now rewrite (stream_loop_skip _ _ _ _ He Hok).
Qed.

(** Iterating over [stream_findings] on a stream that was opened with
    an accepted status. As long as the decoder gives up on no event
    named finding, the consumer is handed exactly the decoded data of the
    events named finding whose data decodes, in stream order; events
    named connected, events of other names and finding events whose data
    the decoder rejects as invalid JSON are passed over: they raise
    nothing and the events after them are still delivered; the iteration
    ends only as the stream itself ends. At the first event named finding
    on which the decoder gives up, the iteration raises the decoder's
    [RecursionError], after the findings carried by the events before
    it. *)
Lemma stream_findings_yields self w r fuel :
  session_get (base_url self +:+ "/stream") w = Ok r →
  raise_for_status (base_url self +:+ "/stream") r = Ok tt →
  (length (r_events r) < fuel)%nat →
  (Forall (λ ev, too_deep w ev = None) (r_events r) →
   collect fuel self w GenCreated
     = Some (carried_findings w (r_events r), stream_ending (r_end r))) ∧
  (∀ pre ev post msg,
     r_events r = pre ++ ev :: post →
     Forall (λ ev, too_deep w ev = None) pre → too_deep w ev = Some msg →
     collect fuel self w GenCreated
       = Some (carried_findings w pre, Raised (Exn RecursionError msg))).
Proof.
  intros Hget Hstatus Hfuel.
  assert (collect fuel self w GenCreated
          = collect fuel self w (GenSuspended (r_events r) (r_end r))) as ->.
  { destruct fuel; [lia|]. cbn [collect gen_next]. rewrite Hget.
    cbn [mbind res_bind]. now rewrite Hstatus. }
  split.
  - intros Hok. now apply collect_suspended.
  - intros pre ev post msg Hev Hpre Hdeep. rewrite Hev.
    apply collect_too_deep; [exact Hpre|exact Hdeep|].
    rewrite Hev, length_app in Hfuel. lia.
Qed.

Lemma stream_findings_yields_witness :
  collect 3 sample_client
    (answering (Response 200 "OK" ""
                  [Event "connected" "{}"; Event "finding" "[1]"] StreamClosed))
    GenCreated = Some ([JList [JInt 1]], Exhausted)
  ∧ collect 2 sample_client
      (answering (Response 200 "OK" "" [Event "finding" "{oops"] StreamClosed))
      GenCreated = Some ([], Exhausted)
  ∧ collect 6 sample_client
      (answering (Response 200 "OK" "" sample_stream StreamSilent))
      GenCreated = Some ([JList [JInt 1]; JNull], Blocked).
Proof.
  split; [|split].
  - apply (proj1 (stream_findings_yields sample_client
             (answering (Response 200 "OK" ""
                  [Event "connected" "{}"; Event "finding" "[1]"] StreamClosed))
             _ 3%nat eq_refl eq_refl ltac:(simpl; lia))).
    repeat constructor.
  - apply (proj1 (stream_findings_yields sample_client
             (answering (Response 200 "OK" "" [Event "finding" "{oops"] StreamClosed))
             _ 2%nat eq_refl eq_refl ltac:(simpl; lia))).
    repeat constructor.
  - apply (proj1 (stream_findings_yields sample_client
             (answering (Response 200 "OK" "" sample_stream StreamSilent))
             _ 6%nat eq_refl eq_refl ltac:(simpl; lia))).
    repeat constructor.
Defined.

(** C10, at the input where the code departs from it. A stream of
    three events named finding: the first and the third carry valid
    JSON, the data of the second is nested deeper than the decoder's
    recursion limit. [json.loads] raises [RecursionError] on the second
    event, which the [except json.JSONDecodeError] around it does not
    name: the consumer gets the first finding, the iteration then raises,
    and the third finding is never delivered. *)
Theorem stream_findings_deep_event_raises :
  let events := [Event "finding" "[1]"; Event "finding" "[[[[[1]]]]]";
                 Event "finding" "null"] in
  let w := answering (Response 200 "OK" "" events StreamClosed) in
  carried_finding w (Event "finding" "[1]") = Some (JList [JInt 1]) ∧
  (∃ msg, too_deep w (Event "finding" "[[[[[1]]]]]") = Some msg) ∧
  carried_finding w (Event "finding" "null") = Some JNull ∧
  (∃ msg, collect 4 sample_client w GenCreated
          = Some ([JList [JInt 1]], Raised (Exn RecursionError msg))) ∧
  collect 4 sample_client w GenCreated ≠ Some ([JList [JInt 1]; JNull], Exhausted).
Proof.
  cbv zeta. split; [reflexivity|]. split; [eexists; reflexivity|].
  split; [reflexivity|]. split; [eexists; reflexivity|].
  intros H. discriminate H.
Qed.

(** ** Binary resolution *)

Lemma get_cache_dir_world w r w' : get_cache_dir w = (r, w') → w' = w.
Proof.
  unfold get_cache_dir, mkdir, get_state, mbind, M_bind, mret, M_ret.
  destruct (mkdir_ok _ _); now intros [= _ <-].
Qed.

(** A remembered path that still exists is returned at once. *)
Lemma get_binary_path_memo bm w p :
  memo_hit bm w = Some p → get_binary_path (bm, w) = (Ok p, (bm, w)).
Proof.
  unfold get_binary_path, memo_hit, get_state, mbind, M_bind.
  destruct (_binary_path bm) as [q|]; [|discriminate].
  destruct (path_exists w q); [|discriminate].
  now intros [= ->].
Qed.

Lemma get_binary_path_miss bm w :
  memo_hit bm w = None →
  get_binary_path (bm, w) =
    match _find_in_path w with
    | Some p => (Ok p, (remember p bm, w))
    | None =>
        let dev := path_join (project_root (w_host w)) "sense" in
        if path_exists w dev then (Ok dev, (remember dev bm, w))
        else
          match get_cache_dir w with
          | (Ok d, _) =>
              let cache := path_join d BINARY_NAME in
              if path_exists w cache then
                match _make_executable cache w with
                | (Ok _, w') => (Ok cache, (remember cache bm, w'))
                | (Raise e, w') => (Raise e, (remember cache bm, w'))
                | (Hang, w') => (Hang, (remember cache bm, w'))
                end
              else
                match _download_binary bm w with
                | (Ok p, w') => (Ok p, (remember p bm, w'))
                | (Raise e, w') =>
                    if isinstance e Exception then
                      (Raise (Exn BinaryNotFoundError (not_found_message e)),
                       (bm, w'))
                    else (Raise e, (bm, w'))
                | (Hang, w') => (Hang, (bm, w'))
                end
          | (Raise e, _) => (Raise e, (bm, w))
          | (Hang, _) => (Hang, (bm, w))
          end
    end.
Proof.
  intros Hm.
  cbv [get_binary_path mbind M_bind mret M_ret get_state modify_state exists_
       liftW set_binary_path try_except raise].
  fold (memo_hit bm w). rewrite Hm.
  destruct (_find_in_path w) as [p|] eqn:H1; [reflexivity|].
  cbn [snd].
  destruct (path_exists w _) eqn:H2; [reflexivity|].
  destruct (get_cache_dir w) as [[d| e|] w1] eqn:H3;
    pose proof (get_cache_dir_world _ _ _ H3) as ->; try reflexivity.
  cbn [snd].
  destruct (path_exists w (path_join d BINARY_NAME)) eqn:H4; cbv beta iota zeta.
  { destruct (_make_executable _ w) as [[[]|e|] w2] eqn:H5; reflexivity. }
  destruct (_download_binary bm w) as [[p|e|] w2] eqn:H5; try reflexivity.
  cbn [find_clause existsb]. rewrite orb_false_r.
  destruct (isinstance e Exception); reflexivity.
Qed.

Lemma get_cache_dir_raises w e w' :
  get_cache_dir w = (Raise e, w') → exn_class_of e = OSError.
Proof.
  unfold get_cache_dir, mkdir, get_state, mbind, M_bind, mret, M_ret.
  destruct (mkdir_ok _ _); [discriminate|]. now intros [= <- _].
Qed.

Lemma make_executable_raises p w e w' :
  _make_executable p w = (Raise e, w') → exn_class_of e = OSError.
Proof.
  cbv [_make_executable get_state mbind M_bind mret M_ret raise modify_state].
  destruct (negb _); [|discriminate].
  destruct (w_files w !! p); [|now intros [= <- _]].
  destruct (chmod_ok _ _); [discriminate|]. now intros [= <- _].
Qed.

Lemma not_exception_class e :
  isinstance e Exception = false → exn_class_of e = KeyboardInterrupt.
Proof.
  destruct e as [[] msg]; intros H;
    solve [reflexivity | vm_compute in H; discriminate H].
Qed.

(** Splits a conjunction of implications and closes the parts that hold
    by injectivity or by a clash of constructors. *)
Ltac settle_cases :=
  repeat match goal with
         | |- _ ∧ _ => split
         | |- _ ↔ _ => split
         | |- ∀ _, _ => intro
         | H : ∃ _, _ |- _ => destruct H
         | H : _ ∧ _ |- _ => destruct H
         end;
  try (simplify_eq/=; done).

(** The search of the path, read off what [which] reports, is what
    [_find_in_path] returns. *)
Lemma strategy_path_find w : strategy_path w = Ok (_find_in_path w).
Proof.
  unfold strategy_path, _find_in_path.
  destruct (which_sense (w_host w)) as [[[|rc|rc] out]|]; try reflexivity.
  cbn [Z.eqb andb]. now destruct (String.eqb (PyStr.strip out) "").
Qed.

(** On a manager that has no usable remembered path, [get_binary_path]
    goes through the search path, the development tree, the cache and
    the download in this order. The first strategy that finds a binary
    decides the result (and with the first two nothing else in the world
    is touched), and [BinaryNotFoundError] is raised exactly when all
    four have run and found nothing. An exception of the cache step
    leaves [get_binary_path] as it is and is not among these cases. *)
Lemma resolution_order bm w :
  memo_hit bm w = None →
  let r := (get_binary_path (bm, w)).1 in
  (∀ p, strategy_path w = Ok (Some p) →
        get_binary_path (bm, w) = (Ok p, (remember p bm, w))) ∧
  (strategy_path w = Ok None →
   ∀ p, strategy_dev w = Ok (Some p) →
        get_binary_path (bm, w) = (Ok p, (remember p bm, w))) ∧
  (strategy_path w = Ok None → strategy_dev w = Ok None →
   ∀ p, strategy_cache w = Ok (Some p) → r = Ok p) ∧
  (strategy_path w = Ok None → strategy_dev w = Ok None →
   strategy_cache w = Ok None →
   ∀ p, strategy_download bm w = Ok (Some p) → r = Ok p) ∧
  (strategy_path w = Ok None → strategy_dev w = Ok None →
   ∀ e, strategy_cache w = Raise e → r = Raise e) ∧
  ((∃ msg, r = Raise (Exn BinaryNotFoundError msg)) ↔
   strategy_path w = Ok None ∧ strategy_dev w = Ok None ∧
   strategy_cache w = Ok None ∧ strategy_download bm w = Ok None).
Proof.
  intros Hm. cbv zeta. rewrite (get_binary_path_miss _ _ Hm).
  rewrite strategy_path_find.
  unfold strategy_dev, strategy_cache, strategy_download.
  destruct (_find_in_path w) as [p1|]; [settle_cases|].
  cbv zeta.
  destruct (path_exists w (path_join (project_root (w_host w)) "sense"));
    [settle_cases|].
  destruct (get_cache_dir w) as [[d|e|] w1] eqn:H3;
    pose proof (get_cache_dir_world _ _ _ H3) as ->;
    [|apply get_cache_dir_raises in H3; settle_cases|settle_cases].
  cbv zeta.
  destruct (path_exists w (path_join d BINARY_NAME)).
  { destruct (_make_executable _ w) as [[[]|e|] w2] eqn:H5; cbn [fst snd];
      [|apply make_executable_raises in H5|]; settle_cases. }
  destruct (_download_binary bm w) as [[p|e|] w2] eqn:H5; cbn [fst snd];
    [settle_cases| |settle_cases].
  destruct (isinstance e Exception) eqn:He; cbn [fst snd].
  - settle_cases. eauto.
  - apply not_exception_class in He. settle_cases.
Qed.

(** C8, at the input where the code departs from it. Nothing is
    installed: [which] finds no sense, the project root holds no binary
    and the cache directory cannot be made. The first two strategies find
    nothing; the third raises while it makes the cache directory, outside
    any [try], and [get_binary_path] lets that [OSError] through as it
    is. No strategy has found the binary, the download, which makes the
    same directory, could not have fetched it either, and yet the error
    is not [BinaryNotFoundError]. *)
Theorem get_binary_path_bare_oserror :
  let bm := BinaryManager_init "latest" in
  let w := sealed_world in
  memo_hit bm w = None ∧
  which_sense (w_host w) = Some (1, "") ∧ _find_in_path w = None ∧
  path_exists w (path_join (project_root (w_host w)) "sense") = false ∧
  (∃ msg, get_cache_dir w = (Raise (Exn OSError msg), w)) ∧
  (∃ e, (_download_binary bm w).1 = Raise e) ∧
  (∃ msg, get_binary_path (bm, w) = (Raise (Exn OSError msg), (bm, w))) ∧
  (∀ msg, (get_binary_path (bm, w)).1 ≠ Raise (Exn BinaryNotFoundError msg)).
Proof.
  cbv zeta. repeat (split; [reflexivity|]).
  split; [now exists "cannot create directory /home/user/.cache/senseai"|].
  split; [now exists (Exn OSError "cannot create directory /home/user/.cache/senseai")|].
  split; [now exists "cannot create directory /home/user/.cache/senseai"|].
  intros msg H. discriminate H.
Qed.

(** ** What the operations leave alone *)

Lemma with_files_stdout_id w :
  w = with_files_stdout (w_files w) (w_stdout w) w.
Proof. now destruct w. Qed.

Lemma set_clock_id w : w = set_clock (w_clock w) w.
Proof. now destruct w. Qed.

Lemma make_executable_frame p w r w' :
  _make_executable p w = (r, w') →
  ∃ fs, w' = with_files_stdout fs (w_stdout w) w.
Proof.
  cbv [_make_executable get_state mbind M_bind mret M_ret raise modify_state].
  destruct (negb _).
  - destruct (w_files w !! p) as [f|].
    + destruct (chmod_ok _ _); intros [= _ <-]; eexists.
      * reflexivity.
      * apply with_files_stdout_id.
    + intros [= _ <-]. eexists. apply with_files_stdout_id.
  - intros [= _ <-]. eexists. apply with_files_stdout_id.
Qed.

Lemma download_binary_frame bm w r w' :
  _download_binary bm w = (r, w') →
  ∃ fs out, w' = with_files_stdout fs out w.
Proof.
  cbv [_download_binary get_state mbind M_bind mret M_ret raise modify_state
       print try_except].
  destruct (get_platform_info _ _) as [os_name arch].
  destruct (get_cache_dir w) as [[d|e|] w1] eqn:Hc;
    pose proof (get_cache_dir_world _ _ _ Hc) as ->.
  2,3: intros [= _ <-]; do 2 eexists; apply with_files_stdout_id.
  cbn [w_host log_stdout].
  destruct (urlretrieve _ _) as [[]|e|].
  - destruct (_make_executable _ _) as [[[]|e|] w2] eqn:Hm;
      apply make_executable_frame in Hm as [fs ->];
      intros [= _ <-]; do 2 eexists; reflexivity.
  - cbn [find_clause existsb]. rewrite orb_false_r.
    destruct (isinstance e Exception); intros [= _ <-]; do 2 eexists; reflexivity.
  - intros [= _ <-]; do 2 eexists; reflexivity.
Qed.

(** Resolving the binary touches files and prints, nothing else. *)
Lemma get_binary_path_frame bm w r bm' w' :
  get_binary_path (bm, w) = (r, (bm', w')) →
  ∃ fs out, w' = with_files_stdout fs out w.
Proof.
  destruct (memo_hit bm w) as [p|] eqn:Hm.
  - rewrite (get_binary_path_memo _ _ _ Hm). intros [= _ _ <-].
    do 2 eexists. apply with_files_stdout_id.
  - rewrite (get_binary_path_miss _ _ Hm).
    destruct (_find_in_path w).
    { intros [= _ _ <-]. do 2 eexists. apply with_files_stdout_id. }
    cbv zeta. destruct (path_exists w _).
    { intros [= _ _ <-]. do 2 eexists. apply with_files_stdout_id. }
    destruct (get_cache_dir w) as [[d|e|] w1].
    2,3: intros [= _ _ <-]; do 2 eexists; apply with_files_stdout_id.
    cbv zeta. destruct (path_exists w _).
    + destruct (_make_executable _ w) as [[[]|e|] w2] eqn:Hx;
        apply make_executable_frame in Hx as [fs ->];
        intros [= _ _ <-]; do 2 eexists; reflexivity.
    + destruct (_download_binary bm w) as [[p|e|] w2] eqn:Hd;
        apply download_binary_frame in Hd as (fs & out & ->).
      * intros [= _ _ <-]. do 2 eexists; reflexivity.
      * destruct (isinstance e Exception); intros [= _ _ <-];
          do 2 eexists; reflexivity.
      * intros [= _ _ <-]. do 2 eexists; reflexivity.
Qed.

Lemma health_check_frame c w w' :
  w_http w' = w_http w → w_clock w' = w_clock w →
  health_check c w' = health_check c w.
Proof.
  intros Hh Hc. unfold health_check, session_get. now rewrite Hh, Hc.
Qed.

(** ** The readiness loop *)

Lemma wait_loop_step self c t0 T w :
  wait_loop self c t0 T w =
    if decide (w_clock w - t0 < 1000 * T) then
      match health_check c w with
      | Ok true => (Ok tt, w)
      | Ok false =>
          match died self w with
          | Some stderr => (Raise (died_error stderr), w)
          | None => wait_loop self c t0 T (set_clock (w_clock w + 500) w)
          end
      | Raise e => (Raise e, w)
      | Hang => (Hang, w)
      end
    else (Raise (timeout_error T), w).
Proof.
  rewrite wait_loop_equation_1. unfold wait_loop_unfold_clause_1.
  destruct (Z_lt_dec _ _) as [H|H]; destruct (decide _) as [H'|H'];
    try lia; [|reflexivity].
  cbn. destruct (health_check c w) as [[]| |]; try reflexivity.
  cbn. destruct (died self w); reflexivity.
Qed.

(** The loop changes nothing but the clock. *)
Lemma wait_loop_only_clock self c t0 T :
  ∀ (n : nat) w, (Z.to_nat (t0 + 1000 * T - w_clock w) ≤ n)%nat →
  ∃ t, (wait_loop self c t0 T w).2 = set_clock t w.
Proof.
  induction n as [|n IH]; intros w Hn; rewrite wait_loop_step.
  - destruct (decide _) as [H|H]; [lia|].
    exists (w_clock w). apply set_clock_id.
  - destruct (decide _) as [H|H];
      [|exists (w_clock w); apply set_clock_id].
    destruct (health_check c w) as [[]| |];
      try (exists (w_clock w); apply set_clock_id).
    destruct (died self w);
      [exists (w_clock w); apply set_clock_id|].
    destruct (IH (set_clock (w_clock w + 500) w)) as [t Ht].
    { cbn [w_clock set_clock]. lia. }
    exists t. exact Ht.
Qed.

Lemma wait_for_ready_only_clock self T w :
  ∃ t, (_wait_for_ready self T w).2 = set_clock t w.
Proof.
  unfold _wait_for_ready.
  apply (wait_loop_only_clock _ _ _ _ (Z.to_nat (w_clock w + 1000 * T - w_clock w))).
  lia.
Qed.

Lemma alive_at_mono t t' p :
  t <= t' → alive_at t' p = true → alive_at t p = true.
Proof.
  unfold alive_at. destruct (p_exit_at p) as [d|]; [|reflexivity].
  intros Ht H. apply Z.ltb_lt in H. apply Z.ltb_lt. lia.
Qed.

Lemma died_alive self w h p :
  process self = Some h → w_procs w !! pid h = Some p →
  died self w = if alive_at (w_clock w) p then None else Some (p_stderr p).
Proof.
  intros Hh Hp. unfold died, poll, stderr_read. rewrite Hh, Hp.
  now destruct (alive_at _ _).
Qed.

Lemma health_check_now c w :
  health_check c w = health_check c (set_clock (w_clock w) w).
Proof. now rewrite <- set_clock_id. Qed.

(** The rounds of the loop are numbered from 0; round [j] runs at
    [t0 + 500 * j]. If the death check of round [k] finds the child
    exited and the probes of the rounds up to [k] fail, the loop ends
    with the process-died error. *)
Lemma wait_loop_died self c t0 T h p d k :
  process self = Some h → p_exit_at p = Some d →
  d <= t0 + 500 * k → 500 * k < 1000 * T →
  ∀ (n : nat) w,
    w_procs w !! pid h = Some p →
    w_clock w = t0 + 500 * (k - Z.of_nat n) → Z.of_nat n <= k →
    (∀ j, k - Z.of_nat n <= j <= k →
          health_check c (set_clock (t0 + 500 * j) w) = Ok false) →
    ∃ t, wait_loop self c t0 T w
           = (Raise (died_error (p_stderr p)), set_clock t w).
Proof.
  intros Hh Hd Hk HT. induction n as [|n IH]; intros w Hp Hc Hn Hhealth;
    rewrite wait_loop_step;
    (destruct (decide _) as [_|Hout]; [|lia]);
    (assert (health_check c w = Ok false) as ->
       by (rewrite health_check_now, Hc; apply Hhealth; lia));
    rewrite (died_alive _ _ _ _ Hh Hp).
  - assert (alive_at (w_clock w) p = false) as ->.
    { unfold alive_at. rewrite Hd. apply Z.ltb_ge. lia. }
    exists (w_clock w). now rewrite <- set_clock_id.
  - destruct (alive_at (w_clock w) p).
    + destruct (IH (set_clock (w_clock w + 500) w)) as [t Ht].
      * exact Hp.
      * cbn [w_clock set_clock]. lia.
      * lia.
      * intros j Hj. apply Hhealth. lia.
      * exists t. exact Ht.
    + exists (w_clock w). now rewrite <- set_clock_id.
Qed.

(** When every probe fails and every death check finds the child running,
    the loop ends with the timeout error. *)
Lemma wait_loop_timeout self c t0 T h p :
  process self = Some h →
  (∀ j, 0 <= j → 500 * j < 1000 * T → alive_at (t0 + 500 * j) p = true) →
  ∀ (n : nat) w j,
    w_procs w !! pid h = Some p →
    w_clock w = t0 + 500 * j → 0 <= j → (Z.to_nat (2 * T - j) ≤ n)%nat →
    (∀ i, 0 <= i → 500 * i < 1000 * T →
          health_check c (set_clock (t0 + 500 * i) w) = Ok false) →
    ∃ t, wait_loop self c t0 T w = (Raise (timeout_error T), set_clock t w).
Proof.
  intros Hh Halive. induction n as [|n IH]; intros w j Hp Hc Hj Hn Hhealth;
    rewrite wait_loop_step;
    (destruct (decide _) as [Hin|_];
       [|exists (w_clock w); now rewrite <- set_clock_id]).
  - lia.
  - assert (health_check c w = Ok false) as ->
      by (rewrite health_check_now, Hc; apply Hhealth; lia).
    rewrite (died_alive _ _ _ _ Hh Hp).
    assert (alive_at (w_clock w) p = true) as ->
      by (rewrite Hc; apply Halive; lia).
    destruct (IH (set_clock (w_clock w + 500) w) (j + 1)) as [t Ht].
    + exact Hp.
    + cbn [w_clock set_clock]. lia.
    + lia.
    + lia.
    + exact Hhealth.
    + exists t. exact Ht.
Qed.

(** ** start *)

(** [start] on a supervisor that is not running, up to the readiness wait. *)
Lemma start_launch self w (wait_for_ready : bool) T bp bm' wb cpid p q :
  is_running self w = Ok false →
  get_binary_path (binary_manager self, w) = (Ok bp, (bm', wb)) →
  w_spawn wb = SpawnChild cpid p :: q →
  mkdir_ok (w_host wb) (path_parent (_pid_file self)) = true →
  write_ok (w_host wb) (_pid_file self) = true →
  start wait_for_ready T (self, w) =
    let self1 := holding bm' (Some (Popen_ cpid)) self in
    match (if wait_for_ready then _wait_for_ready self1 T else mret tt)
            (launched self bp cpid p q wb) with
    | (Ok _, w2) =>
        (Ok tt,
         (self1,
          log_stdout ("SENSE server started successfully (PID: "
                      +:+ PyStr.str cpid +:+ ")") w2))
    | (Raise e, w2) =>
        if isinstance e Exception then (Raise (start_failed e), (self1, w2))
        else (Raise e, (self1, w2))
    | (Hang, w2) => (Hang, (self1, w2))
    end.
Proof.
  intros Hrun Hbin Hspawn Hmk Hwr.
  cbv [start ask mbind M_bind mret M_ret try_except on_binary_manager with_self
       set_process modify_state liftW raise print subprocess_Popen _save_pid
       mkdir write_text].
  rewrite Hrun, Hbin. cbn [find_clause existsb].
  destruct self as [port_ iface db pol sudo bm proc pf].
  cbn [use_sudo port w_spawn w_host w_files w_procs log_stdout set_spawn
       set_procs log_spawned _pid_file pid] in *.
  destruct sudo.
  all: cbn [w_spawn w_host w_files log_stdout set_spawn set_procs log_spawned];
    rewrite Hspawn;
    cbn [w_host w_files log_stdout set_spawn set_procs log_spawned _pid_file pid];
    rewrite Hmk;
    cbn [w_host w_files log_stdout set_spawn set_procs log_spawned _pid_file pid];
    rewrite Hwr; cbv beta iota zeta.
  all: destruct wait_for_ready; [|reflexivity].
  all: match goal with
       | |- context [holding _ _ ?s] =>
           change (_wait_for_ready _ T _) with
             (_wait_for_ready (holding bm' (Some (Popen_ cpid)) s) T
                (launched s bp cpid p q wb))
       end.
  all: destruct (_wait_for_ready _ T _) as [[[]|e|] w2]; try reflexivity;
    cbn [find_clause existsb]; rewrite orb_false_r;
    destruct (isinstance e Exception); reflexivity.
Qed.

Lemma launched_fields self bp cpid p q fs out w :
  let w1 := launched self bp cpid p q (with_files_stdout fs out w) in
  w_clock w1 = w_clock w ∧ w_http w1 = w_http w ∧
  w_signals w1 = w_signals w ∧ w_procs w1 = <[cpid := p]> (w_procs w) ∧
  w_spawned w1 = w_spawned w ++ [command_line self bp] ∧
  w_spawn w1 = q.
Proof. unfold launched. destruct (use_sudo self); repeat split. Qed.

Lemma health_at_launched self bm' h bp cpid p q fs out w t :
  health_check (local_client (holding bm' h self))
    (set_clock t (launched self bp cpid p q (with_files_stdout fs out w)))
  = health_at self w t.
Proof.
  unfold health_at. apply health_check_frame.
  - cbn [w_http set_clock]. apply launched_fields.
  - reflexivity.
Qed.

(** C3, as stated, fails: a child that exits 4.8 seconds into a wait of
    5 seconds, with no probe ever succeeding, makes [start] raise the
    timeout error, not the process-died error. The last death check runs
    at 4.5 seconds. *)
Lemma start_late_exit_counterexample :
  let w := launch_world (sample_child (Some 4800)) in
  (∀ t, health_at sample_server w t = Ok false) ∧
  p_exit_at (sample_child (Some 4800)) = Some 4800 ∧
  4800 < w_clock w + 1000 * 5 ∧
  (start true 5 (sample_server, w)).1
    = Raise (Exn ServerError
               "Failed to start SENSE server: Server failed to become ready within 5 seconds").
Proof.
  cbv zeta. split; [intros t; reflexivity|].
  split; [reflexivity|]. split; [reflexivity|]. vm_compute. reflexivity.
Qed.

(** C3, amended. [start(wait_for_ready=True, timeout=T)] on a supervisor
    that is not running, once the child [p] is spawned, checks every
    half second while fewer than [T] seconds have passed. If one of these
    death checks finds the child exited and no probe up to then has
    succeeded, [start] fails with the process-died error, which ends with
    the child's stderr text. If all these probes fail and all these death
    checks find the child running, [start] fails with the timeout error
    naming [T]. In both cases the supervisor sends no signal, and in the
    second the child is in the process table as it was spawned. *)
Theorem start_readiness_failure self w T bp bm' wb cpid p q :
  is_running self w = Ok false →
  get_binary_path (binary_manager self, w) = (Ok bp, (bm', wb)) →
  w_spawn w = SpawnChild cpid p :: q →
  mkdir_ok (w_host w) (path_parent (_pid_file self)) = true →
  write_ok (w_host w) (_pid_file self) = true →
  let t0 := w_clock w in
  (∀ d k, p_exit_at p = Some d →
      0 <= k → 500 * k < 1000 * T → d <= t0 + 500 * k →
      (∀ j, 0 <= j <= k → health_at self w (t0 + 500 * j) = Ok false) →
      ∃ st,
        start true T (self, w)
          = (Raise (Exn ServerError
                      ("Failed to start SENSE server: Server process died unexpectedly: "
                       +:+ p_stderr p)), st)
        ∧ w_signals st.2 = w_signals w) ∧
  ((∀ j, 0 <= j → 500 * j < 1000 * T →
      health_at self w (t0 + 500 * j) = Ok false ∧
      alive_at (t0 + 500 * j) p = true) →
   ∃ st,
     start true T (self, w)
       = (Raise (Exn ServerError
                   ("Failed to start SENSE server: Server failed to become ready within "
                    +:+ PyStr.str T +:+ " seconds")), st)
     ∧ w_signals st.2 = w_signals w
     ∧ w_procs st.2 = <[cpid := p]> (w_procs w)).
Proof.
  intros Hrun Hbin Hspawn Hmk Hwr.
  destruct (get_binary_path_frame _ _ _ _ _ Hbin) as (fs & out & ->).
  rewrite (start_launch _ _ true T _ _ _ _ _ _ Hrun Hbin Hspawn Hmk Hwr).
  cbv zeta. unfold _wait_for_ready.
  set (self1 := holding bm' (Some (Popen_ cpid)) self).
  set (w1 := launched self bp cpid p q (with_files_stdout fs out w)).
  pose proof (launched_fields self bp cpid p q fs out w)
    as (Hclock & Hhttp & Hsig & Hprocs & _). fold w1 in Hclock, Hhttp, Hsig, Hprocs.
  assert (w_procs w1 !! pid (Popen_ cpid) = Some p) as Hp
    by (rewrite Hprocs; apply lookup_insert_eq).
  rewrite Hclock. split.
  - intros d k Hd Hk0 HkT Hdk Hhealth.
    destruct (wait_loop_died self1 (local_client self1) (w_clock w) T
                (Popen_ cpid) p d k eq_refl Hd Hdk HkT (Z.to_nat k) w1 Hp)
      as [t ->].
    + rewrite Hclock. f_equal. lia.
    + lia.
    + intros j Hj. unfold self1, w1. rewrite health_at_launched.
      apply Hhealth. lia.
    + eexists. split; [reflexivity|]. exact Hsig.
  - intros Hrounds.
    destruct (wait_loop_timeout self1 (local_client self1) (w_clock w) T
                (Popen_ cpid) p eq_refl
                (λ j H0 HT, proj2 (Hrounds j H0 HT))
                (Z.to_nat (2 * T - 0)) w1 0 Hp)
      as [t ->].
    + rewrite Hclock. lia.
    + lia.
    + lia.
    + intros i Hi0 HiT. unfold self1, w1. rewrite health_at_launched.
      apply Hrounds; lia.
    + eexists. split; [reflexivity|]. split; [exact Hsig|exact Hprocs].
Qed.

Lemma start_readiness_failure_witness :
  (∃ st,
     start true 30 (sample_server, launch_world (sample_child (Some 2000)))
       = (Raise (Exn ServerError
                   ("Failed to start SENSE server: Server process died unexpectedly: "
                    +:+ "listen tcp :9999: bind: permission denied")), st)
     ∧ w_signals st.2 = []) ∧
  (∃ st,
     start true 5 (sample_server, launch_world (sample_child None))
       = (Raise (Exn ServerError
                   ("Failed to start SENSE server: Server failed to become ready within "
                    +:+ PyStr.str 5 +:+ " seconds")), st)
     ∧ w_signals st.2 = []
     ∧ w_procs st.2 = <[4242 := sample_child None]> ∅).
Proof.
  split.
  - refine (proj1 (start_readiness_failure sample_server
                     (launch_world (sample_child (Some 2000))) 30
                     "/opt/sense-ai/sense" _ _ 4242 (sample_child (Some 2000)) []
                     eq_refl eq_refl eq_refl eq_refl eq_refl)
                  2000 4 eq_refl _ _ _ _).
    + lia.
    + lia.
    + simpl. lia.
    + intros j Hj. reflexivity.
  - refine (proj2 (start_readiness_failure sample_server
                     (launch_world (sample_child None)) 5
                     "/opt/sense-ai/sense" _ _ 4242 (sample_child None) []
                     eq_refl eq_refl eq_refl eq_refl eq_refl) _).
    intros j Hj0 Hj. split; reflexivity.
Defined.

(** ** Liveness *)

Lemma pid_file_check_cases self w :
  pid_file_check self w =
    match _read_pid self w with
    | Ok (Some n) =>
        if n =? 0 then Ok None
        else if n <? 0 then Raise (bad_pid n)
        else
          match pid_lookup w n with
          | None => Ok None
          | Some p =>
              if p_inspectable p
              then Ok (Some (PyStr.contains "sense" (PyStr.lower (p_name p))))
              else Ok None
          end
    | Ok None => Ok None
    | Raise e => Raise e
    | Hang => Hang
    end.
Proof.
  unfold pid_file_check, psutil_Process, ps_is_running, ps_name, pid_lookup.
  destruct (_read_pid self w) as [[n|]| |]; try reflexivity.
  cbn [mbind res_bind]. destruct (n =? 0); [reflexivity|]. cbn [negb].
  destruct (n <? 0); [reflexivity|].
  destruct (w_procs w !! n) as [p|]; [|reflexivity].
  destruct (listed w p) eqn:Hl; [|reflexivity].
  cbn [mbind res_bind try_res]. rewrite Hl.
  destruct (p_inspectable p); reflexivity.
Qed.

(** Polling the handle leaves the files as they are. *)
Lemma read_pid_polled self w : _read_pid self (polled self w) = _read_pid self w.
Proof.
  unfold polled, collect_child. destruct (process self) as [h|]; [|reflexivity].
  destruct (w_procs w !! pid h) as [q|]; [|reflexivity].
  now destruct (alive_at _ _).
Qed.

Lemma alive_at_collected t q : alive_at t (collected q) = alive_at t q.
Proof. reflexivity. Qed.

(** What psutil finds once the handle has been polled is a process of
    the table that runs or is a zombie. *)
Lemma pid_lookup_polled_inv self w n p :
  pid_lookup (polled self w) n = Some p →
  w_procs w !! n = Some p ∧ listed w p = true.
Proof.
  assert (pid_lookup w n = Some p → w_procs w !! n = Some p ∧ listed w p = true)
    as Hplain.
  { unfold pid_lookup. destruct (w_procs w !! n) as [q|]; [|discriminate].
    destruct (listed w q) eqn:Hl; [|discriminate]. now intros [= <-]. }
  unfold polled, collect_child. destruct (process self) as [h|]; [|exact Hplain].
  destruct (w_procs w !! pid h) as [q|] eqn:Hq; [|exact Hplain].
  destruct (alive_at (w_clock w) q) eqn:Ha; [exact Hplain|].
  unfold pid_lookup. cbn [w_procs set_procs].
  destruct (decide (n = pid h)) as [->|Hne].
  - rewrite lookup_insert_eq. unfold listed. cbn [w_clock set_procs].
    rewrite alive_at_collected, Ha. cbn [orb collected p_zombie]. discriminate.
  - rewrite lookup_insert_ne by congruence.
    destruct (w_procs w !! n) as [q'|]; [|discriminate].
    unfold listed. cbn [w_clock set_procs]. fold (listed w q').
    destruct (listed w q') eqn:Hl; [|discriminate]. now intros [= <-].
Qed.

(** A process that runs is found, whatever the handle. *)
Lemma pid_lookup_polled_alive self w n p :
  w_procs w !! n = Some p → alive_at (w_clock w) p = true →
  pid_lookup (polled self w) n = Some p.
Proof.
  intros Hp Ha.
  assert (pid_lookup w n = Some p) as Hplain.
  { unfold pid_lookup, listed. now rewrite Hp, Ha. }
  unfold polled, collect_child. destruct (process self) as [h|]; [|exact Hplain].
  destruct (w_procs w !! pid h) as [q|] eqn:Hq; [|exact Hplain].
  destruct (alive_at (w_clock w) q) eqn:Hqa; [exact Hplain|].
  unfold pid_lookup. cbn [w_procs set_procs].
  destruct (decide (n = pid h)) as [->|Hne]; [congruence|].
  rewrite lookup_insert_ne by congruence. rewrite Hp.
  unfold listed. cbn [w_clock set_procs]. now rewrite Ha.
Qed.



(** [is_running] past a handle that is absent or whose child has exited. *)
Lemma is_running_pid_file self w :
  handle_alive self w = false →
  is_running self w =
    match _read_pid self w with
    | Ok (Some n) =>
        if n =? 0 then health_check (local_client self) w
        else if n <? 0 then Raise (bad_pid n)
        else
          match pid_lookup (polled self w) n with
          | None => health_check (local_client self) w
          | Some p =>
              if p_inspectable p
              then Ok (PyStr.contains "sense" (PyStr.lower (p_name p)))
              else health_check (local_client self) w
          end
    | Ok None => health_check (local_client self) w
    | Raise e => Raise e
    | Hang => Hang
    end.
Proof.
  intros Hh. unfold is_running.
  rewrite Hh, pid_file_check_cases, read_pid_polled.
  destruct (_read_pid self w) as [[n|]| |]; try reflexivity.
  destruct (n =? 0); [reflexivity|]. destruct (n <? 0); [reflexivity|].
  destruct (pid_lookup _ n) as [p|]; [|reflexivity].
  now destruct (p_inspectable p).
Qed.

(** A PID file that names a live process of another name settles the
    answer: the health probe is not consulted. *)
Lemma is_running_foreign_pid self w n p :
  handle_alive self w = false →
  _read_pid self w = Ok (Some n) → 0 < n →
  w_procs w !! n = Some p → alive_at (w_clock w) p = true →
  p_inspectable p = true →
  PyStr.contains "sense" (PyStr.lower (p_name p)) = false →
  is_running self w = Ok false.
Proof.
  intros Hh Hr Hn Hp Ha Hi Hname.
  rewrite (is_running_pid_file _ _ Hh), Hr.
  rewrite (pid_lookup_polled_alive self w n p Hp Ha), Hi, Hname.
  destruct (Z.eqb_spec n 0); [lia|]. destruct (Z.ltb_spec n 0); [lia|].
  reflexivity.
Qed.


(** C1, at the input where the code departs from it. The supervisor
    holds no handle, the PID file names the live process 4242 whose name
    is python3, and the health probe succeeds: [is_running] answers
    [False]. The [return] of the PID-file check gives the verdict of the
    name test without going on to the probe. *)
Theorem is_running_foreign_pid_skips_probe :
  process sample_server = None ∧
  _read_pid sample_server foreign_pid_world = Ok (Some 4242) ∧
  (∃ p, w_procs foreign_pid_world !! 4242 = Some p ∧
        alive_at (w_clock foreign_pid_world) p = true ∧
        p_name p = "python3") ∧
  health_check (local_client sample_server) foreign_pid_world = Ok true ∧
  is_running sample_server foreign_pid_world = Ok false.
Proof.
  split; [reflexivity|]. split; [reflexivity|].
  split; [eexists; repeat split; reflexivity|].
  split; [reflexivity|].
  exact (is_running_foreign_pid sample_server foreign_pid_world 4242 _
           eq_refl eq_refl eq_refl eq_refl eq_refl eq_refl eq_refl).
Qed.

(** ** stop *)

Lemma start_already_running self w wait_for_ready T :
  is_running self w = Ok true →
  start wait_for_ready T (self, w) =
    (Ok tt,
     (self,
      log_stdout ("SENSE server is already running on port "
                  +:+ PyStr.str (port self)) w)).
Proof.
  intros H. cbv [start ask mbind M_bind with_self print modify_state].
  now rewrite H.
Qed.

Lemma stop_not_running self w T :
  is_running self w = Ok false → stop T (self, w) = (Ok tt, (self, w)).
Proof.
  intros H. cbv [stop ask mbind M_bind mret M_ret]. now rewrite H.
Qed.


(** A PID file that holds a negative number makes [is_running], and so
    [stop], raise [ValueError]: [psutil.Process] refuses the number and
    no [except] clause names that class. *)
Lemma stop_negative_pid :
  process sample_server = None ∧
  _read_pid sample_server negative_pid_world = Ok (Some (-1)) ∧
  health_check (local_client sample_server) negative_pid_world = Ok false ∧
  stop 10 (sample_server, negative_pid_world)
    = (Raise (Exn ValueError "pid must be a positive integer (got -1)"),
       (sample_server, negative_pid_world)).
Proof. repeat split. Qed.



(** C2, at the input where the code departs from it. A supervisor that
    holds no handle (one made by a later run of the controlling program)
    finds the backend 4242 alive through the PID file. [stop] returns
    normally, has removed the PID file and has sent no signal: process
    4242 is still alive and is no longer on record. *)
Theorem stop_without_handle_clears_pid_file :
  let st := stop 10 (sample_server, orphan_world) in
  process sample_server = None ∧
  is_running sample_server orphan_world = Ok true ∧
  st.1 = Ok tt ∧
  w_files orphan_world !! _pid_file sample_server = Some (File 420 (Some "4242")) ∧
  w_files st.2.2 !! _pid_file sample_server = None ∧
  w_signals st.2.2 = [] ∧
  (∃ p, w_procs st.2.2 !! 4242 = Some p ∧
        alive_at (w_clock st.2.2) p = true ∧
        PyStr.contains "sense" (PyStr.lower (p_name p)) = true).
Proof.
  cbv zeta. repeat (split; [reflexivity|]).
  eexists. repeat split; reflexivity.
Qed.

(** ** Idempotent start *)

(** A [start] that returns normally from a supervisor that was not
    running has resolved the binary, spawned a child and saved its PID. *)
Lemma start_ok_inv self w (wait_for_ready : bool) T st :
  is_running self w = Ok false →
  start wait_for_ready T (self, w) = (Ok tt, st) →
  ∃ bp bm' wb cpid p q,
    get_binary_path (binary_manager self, w) = (Ok bp, (bm', wb)) ∧
    w_spawn wb = SpawnChild cpid p :: q ∧
    mkdir_ok (w_host wb) (path_parent (_pid_file self)) = true ∧
    write_ok (w_host wb) (_pid_file self) = true.
Proof.
  intros Hrun.
  cbv [start ask mbind M_bind mret M_ret try_except on_binary_manager with_self
       set_process modify_state liftW raise print subprocess_Popen _save_pid
       mkdir write_text].
  rewrite Hrun.
  destruct (get_binary_path (binary_manager self, w)) as [[bp|e|] [bm' wb]].
  2:{ cbn [find_clause existsb].
      destruct (isinstance e Exception); intros H; discriminate H. }
  2:{ intros H; discriminate H. }
  destruct self as [port_ iface db pol sudo bm proc pf].
  cbn [use_sudo port w_spawn w_host w_files w_procs log_stdout set_spawn
       set_procs log_spawned _pid_file pid binary_manager] in *.
  destruct sudo.
  all: cbn [w_spawn w_host w_files log_stdout set_spawn set_procs log_spawned].
  all: destruct (w_spawn wb) as [|[e|cpid p] q] eqn:Hspawn.
  all: cbn [find_clause existsb];
    try (destruct (isinstance _ Exception); intros H; discriminate H).
  all: cbn [w_host w_files log_stdout set_spawn set_procs log_spawned _pid_file pid].
  all: destruct (mkdir_ok _ _) eqn:Hmk;
    [|cbn [find_clause existsb]; intros H; vm_compute in H; discriminate H].
  all: cbn [w_host w_files log_stdout set_spawn set_procs log_spawned _pid_file pid].
  all: destruct (write_ok _ _) eqn:Hwr;
    [|cbn [find_clause existsb]; intros H; vm_compute in H; discriminate H].
  all: intros _; eauto 10.
Qed.

(** Such a [start] has spawned exactly one process. *)
Lemma start_ok_spawned self w (wait_for_ready : bool) T st :
  is_running self w = Ok false →
  start wait_for_ready T (self, w) = (Ok tt, st) →
  ∃ cmd, w_spawned st.2 = w_spawned w ++ [cmd].
Proof.
  intros Hrun Hstart.
  destruct (start_ok_inv _ _ _ _ _ Hrun Hstart)
    as (bp & bm' & wb & cpid & p & q & Hbin & Hspawn & Hmk & Hwr).
  rewrite (start_launch _ _ _ T _ _ _ _ _ _ Hrun Hbin Hspawn Hmk Hwr) in Hstart.
  destruct (get_binary_path_frame _ _ _ _ _ Hbin) as (fs & out & ->).
  cbv zeta in Hstart.
  pose proof (launched_fields self bp cpid p q fs out w)
    as (_ & _ & _ & _ & Hspawned & _).
  exists (command_line self bp).
  destruct wait_for_ready.
  - destruct (wait_for_ready_only_clock
                (holding bm' (Some (Popen_ cpid)) self) T
                (launched self bp cpid p q (with_files_stdout fs out w)))
      as [t Ht].
    destruct (_wait_for_ready _ _ _) as [[[]|e|] w2]; cbn [snd] in Ht; subst w2.
    + injection Hstart as <-. exact Hspawned.
    + destruct (isinstance e Exception); discriminate Hstart.
    + discriminate Hstart.
  - injection Hstart as <-. exact Hspawned.
Qed.

(** C5. [start] on a supervisor whose liveness check reports running
    spawns nothing and does not raise: it prints one line and returns,
    leaving the supervisor, the process table and the log of spawned
    commands as they were. So when a first [start] has spawned the
    backend and the liveness check then reports running, a second
    [start] adds nothing: the two calls have spawned exactly one process. *)
Theorem start_idempotent :
  (∀ self w (wait_for_ready : bool) T,
     is_running self w = Ok true →
     ∃ w', start wait_for_ready T (self, w) = (Ok tt, (self, w')) ∧
           w_spawned w' = w_spawned w ∧
           w_procs w' = w_procs w ∧
           w_spawn w' = w_spawn w ∧
           w_stdout w' = w_stdout w ++
             ["SENSE server is already running on port "
              +:+ PyStr.str (port self)]) ∧
  (∀ self w (wait1 wait2 : bool) T1 T2 st,
     is_running self w = Ok false →
     start wait1 T1 (self, w) = (Ok tt, st) →
     is_running st.1 st.2 = Ok true →
     ∃ cmd w2,
       w_spawned st.2 = w_spawned w ++ [cmd] ∧
       start wait2 T2 st = (Ok tt, (st.1, w2)) ∧
       w_spawned w2 = w_spawned w ++ [cmd]).
Proof.
  split.
  - intros self w wait_for_ready T Hrun.
    rewrite (start_already_running _ _ _ _ Hrun).
    eexists. split; [reflexivity|]. repeat split.
  - intros self w wait1 wait2 T1 T2 [s1 w1] Hnot Hfirst Hrun.
    destruct (start_ok_spawned _ _ _ _ _ Hnot Hfirst) as [cmd Hcmd].
    cbn [fst snd] in *.
    rewrite (start_already_running _ _ wait2 T2 Hrun).
    exists cmd. eexists. split; [exact Hcmd|].
    split; [reflexivity|]. exact Hcmd.
Qed.

Lemma start_idempotent_witness :
  ∃ st w2,
    start true 30 (sample_server, ready_world (sample_child None)) = (Ok tt, st) ∧
    is_running st.1 st.2 = Ok true ∧
    start true 30 st = (Ok tt, (st.1, w2)) ∧
    length (w_spawned w2) = 1%nat.
Proof.
  eexists. 
  destruct (proj2 start_idempotent sample_server
              (ready_world (sample_child None)) true true 30 30 _
              eq_refl eq_refl eq_refl) as (cmd & w2 & Hone & Hsecond & Htwo).
  exists w2. split; [reflexivity|]. split; [reflexivity|].
  split; [exact Hsecond|]. rewrite Htwo. reflexivity.
Defined.

(** ** What stop does to the PID file *)

(** Collecting a child changes the process table only, and there only
    the zombie mark of the child. *)
Lemma collect_child_fields h w :
  w_host (collect_child h w) = w_host w ∧
  w_clock (collect_child h w) = w_clock w ∧
  w_files (collect_child h w) = w_files w ∧
  w_http (collect_child h w) = w_http w ∧
  w_spawn (collect_child h w) = w_spawn w ∧
  w_spawned (collect_child h w) = w_spawned w ∧
  w_signals (collect_child h w) = w_signals w ∧
  w_stdout (collect_child h w) = w_stdout w.
Proof.
  unfold collect_child. destruct (w_procs w !! pid h) as [p|]; [|now repeat split].
  destruct (alive_at _ _); now repeat split.
Qed.

Lemma collect_child_clock h w : w_clock (collect_child h w) = w_clock w.
Proof. apply collect_child_fields. Qed.

Lemma collect_child_files h w : w_files (collect_child h w) = w_files w.
Proof. apply collect_child_fields. Qed.

Lemma collect_child_signals h w : w_signals (collect_child h w) = w_signals w.
Proof. apply collect_child_fields. Qed.

Lemma collect_child_spawned h w : w_spawned (collect_child h w) = w_spawned w.
Proof. apply collect_child_fields. Qed.

Lemma collect_child_spawn h w : w_spawn (collect_child h w) = w_spawn w.
Proof. apply collect_child_fields. Qed.

Lemma collect_child_stdout h w : w_stdout (collect_child h w) = w_stdout w.
Proof. apply collect_child_fields. Qed.

Lemma collect_child_host h w : w_host (collect_child h w) = w_host w.
Proof. apply collect_child_fields. Qed.

(** The child is still in the table, with the exit it had. *)
Lemma collect_child_lookup h w p :
  w_procs w !! pid h = Some p →
  ∃ p', w_procs (collect_child h w) !! pid h = Some p' ∧
        p_exit_at p' = p_exit_at p ∧ p_returncode p' = p_returncode p.
Proof.
  intros Hp. unfold collect_child. rewrite Hp.
  destruct (alive_at _ _); [eauto|].
  cbn [w_procs set_procs]. rewrite lookup_insert_eq. eauto.
Qed.

Lemma poll_collect_child h w : poll h (collect_child h w) = poll h w.
Proof.
  unfold poll at 2. destruct (w_procs w !! pid h) as [p|] eqn:Hp.
  - destruct (collect_child_lookup h w p Hp) as (p' & Hp' & He & Hr).
    unfold poll. rewrite Hp', collect_child_clock. unfold alive_at.
    now rewrite He, Hr.
  - unfold collect_child. rewrite Hp. unfold poll. now rewrite Hp.
Qed.

Ltac collect_fields :=
  rewrite ?collect_child_clock, ?collect_child_files, ?collect_child_signals,
    ?collect_child_spawned, ?collect_child_spawn, ?collect_child_stdout,
    ?collect_child_host.

Lemma send_signal_files h sig w r w' :
  send_signal h sig w = (r, w') → w_files w' = w_files w.
Proof.
  unfold send_signal. destruct (w_procs w !! pid h) as [p|]; [|now intros [= _ <-]].
  destruct (negb (alive_at _ _)); [now intros [= _ <-]|].
  destruct (negb (p_signalable p)); now intros [= _ <-].
Qed.

Lemma wait_files h t w r w' :
  wait h t w = (r, w') → w_files w' = w_files w.
Proof.
  unfold wait. destruct (w_procs w !! pid h) as [p|]; [|now intros [= _ <-]].
  destruct (p_exit_at p), t; try destruct (_ <=? _); intros [= _ <-];
    collect_fields; reflexivity.
Qed.

Lemma remove_pid_fails self w r w' :
  _remove_pid self w = (r, w') → r ≠ Ok tt → w' = w.
Proof.
  cbv [_remove_pid get_state mbind M_bind mret M_ret unlink].
  destruct (path_exists w _).
  - destruct (w_files w !! _pid_file self); [|now intros [= _ <-]].
    destruct (unlink_ok _ _); [|now intros [= _ <-]].
    intros [= <- _] H. now destruct H.
  - intros [= <- _] H. now destruct H.
Qed.

(** Runs the [except Exception] clause of a goal. *)
Ltac wrap_exception :=
  cbn [find_clause existsb]; rewrite ?orb_false_r;
  match goal with
  | |- context [isinstance ?e Exception] => destruct (isinstance e Exception)
  end.

(** The end of [stop]: [_remove_pid] inside the [try]. *)
Ltac stop_tail :=
  match goal with
  | |- context [_remove_pid ?s ?w0] =>
      let H3 := fresh "H3" in
      destruct (_remove_pid s w0) as [[[]|?e|] ?w3] eqn:H3;
      [ let Hne := fresh "Hne" in intros [= <- <-] Hne; now destruct Hne
      | apply remove_pid_fails in H3 as ->; [|discriminate];
        wrap_exception; intros [= <- <-]; cbn [snd w_files log_stdout]; congruence
      | apply remove_pid_fails in H3 as ->; [|discriminate];
        intros [= <- <-]; cbn [snd w_files log_stdout]; congruence ]
  end.

(** X18. Whenever [stop] does not return normally, the files are as
    they were: the PID file is removed only by a [stop] that succeeds. *)
Lemma stop_failure_keeps_files self w T r st :
  stop T (self, w) = (r, st) → r ≠ Ok tt → w_files st.2 = w_files w.
Proof.
  cbv [stop ask mbind M_bind mret M_ret try_except get_state liftW with_self
       set_process modify_state print terminate kill raise].
  destruct (is_running self w) as [[]|e|]; cbn [negb].
  2-4: intros [= <- <-]; try reflexivity; intros H; now destruct H.
  destruct (process self) as [h|]; [|stop_tail].
  cbn [log_stdout].
  destruct (send_signal h SIGTERM _) as [[[]|e|] w1] eqn:H1;
    apply send_signal_files in H1; cbn [w_files log_stdout] in H1.
  2:{ wrap_exception; intros [= <- <-]; cbn; congruence. }
  2:{ intros [= <- <-]; cbn; congruence. }
  destruct (wait h (Some T) w1) as [[rc|e|] w2] eqn:H2;
    apply wait_files in H2.
  - stop_tail.
  - cbn [find_clause existsb]. rewrite orb_false_r.
    destruct (isinstance e TimeoutExpired).
    + destruct (send_signal h SIGKILL _) as [[[]|e'|] w3] eqn:H3;
        apply send_signal_files in H3; cbn [w_files log_stdout] in H3.
      2:{ wrap_exception; intros [= <- <-]; cbn; congruence. }
      2:{ intros [= <- <-]; cbn; congruence. }
      destruct (wait h None w3) as [[rc|e'|] w4] eqn:H4;
        apply wait_files in H4.
      * stop_tail.
      * wrap_exception; intros [= <- <-]; cbn; congruence.
      * intros [= <- <-]; cbn; congruence.
    + wrap_exception; intros [= <- <-]; cbn; congruence.
  - intros [= <- <-]; cbn; congruence.
Qed.

Lemma stop_failure_keeps_files_witness :
  w_files (stop 10 (held_server, root_owned_world)).2.2 = pid_file_4242.
Proof.
  refine (stop_failure_keeps_files held_server root_owned_world 10
            (stop 10 (held_server, root_owned_world)).1
            (stop 10 (held_server, root_owned_world)).2 _ _).
  - reflexivity.
  - intros H. discriminate H.
Defined.

Lemma poll_frame h w w' :
  w_procs w' = w_procs w → w_clock w' = w_clock w → poll h w' = poll h w.
Proof. intros Hp Hc. unfold poll. now rewrite Hp, Hc. Qed.

Lemma wait_ok_exited h t w rc w' :
  wait h t w = (Ok rc, w') → poll h w' ≠ None.
Proof.
  unfold wait.
  destruct (w_procs w !! pid h) as [p|] eqn:Hp.
  - destruct (p_exit_at p) as [d|] eqn:Hd, t as [t|];
      try destruct (Z.leb_spec d (w_clock w + 1000 * Z.max 0 t));
      intros [= _ <-]; rewrite poll_collect_child; unfold poll;
      cbn [w_procs w_clock set_clock]; rewrite Hp;
      unfold alive_at; rewrite Hd;
      (destruct (Z.ltb_spec (Z.max (w_clock w) d) d); [lia|discriminate]).
  - intros [= _ <-]. unfold poll. now rewrite Hp.
Qed.

Lemma remove_pid_frame self w r w' :
  _remove_pid self w = (r, w') →
  w_procs w' = w_procs w ∧ w_clock w' = w_clock w ∧ w_signals w' = w_signals w.
Proof.
  cbv [_remove_pid get_state mbind M_bind mret M_ret unlink].
  destruct (path_exists w _); [|now intros [= _ <-]].
  destruct (w_files w !! _pid_file self); [|now intros [= _ <-]].
  destruct (unlink_ok _ _); now intros [= _ <-].
Qed.

(** X19. With a handle, a [stop] that found the backend running returns
    normally only once the child has exited, and it has dropped the
    handle. *)
Lemma stop_with_handle_waits self w T h st :
  process self = Some h → stop T (self, w) = (Ok tt, st) →
  is_running self w = Ok true →
  poll h st.2 ≠ None ∧ process st.1 = None.
Proof.
  intros Hh Hstop Hrun. revert Hstop.
  cbv [stop ask mbind M_bind mret M_ret try_except get_state liftW with_self
       set_process modify_state print terminate kill raise].
  rewrite Hrun. cbn [negb]. cbv beta iota zeta. rewrite Hh. cbn [log_stdout].
  destruct (send_signal h SIGTERM _) as [[[]|e|] w1] eqn:H1.
  2:{ wrap_exception; intros H; discriminate H. }
  2:{ intros H; discriminate H. }
  destruct (wait h (Some T) w1) as [[rc|e|] w2] eqn:H2.
  - apply wait_ok_exited in H2.
    destruct (_remove_pid _ _) as [[[]|e|] w3] eqn:H3.
    + apply remove_pid_frame in H3 as (Hp & Hc & _). intros [= <-]. cbn [fst snd process].
      split; [|reflexivity]. now rewrite (poll_frame h _ _ Hp Hc).
    + wrap_exception; intros H; discriminate H.
    + intros H; discriminate H.
  - cbn [find_clause existsb]. rewrite orb_false_r.
    destruct (isinstance e TimeoutExpired).
    + destruct (send_signal h SIGKILL _) as [[[]|e'|] w3] eqn:H3'.
      2:{ wrap_exception; intros H; discriminate H. }
      2:{ intros H; discriminate H. }
      destruct (wait h None w3) as [[rc|e'|] w4] eqn:H4.
      * apply wait_ok_exited in H4.
        destruct (_remove_pid _ _) as [[[]|e'|] w5] eqn:H5.
        -- apply remove_pid_frame in H5 as (Hp & Hc & _). intros [= <-].
           cbn [fst snd process].
           split; [|reflexivity]. now rewrite (poll_frame h _ _ Hp Hc).
        -- wrap_exception; intros H; discriminate H.
        -- intros H; discriminate H.
      * wrap_exception; intros H; discriminate H.
      * intros H; discriminate H.
    + wrap_exception; intros H; discriminate H.
  - intros H; discriminate H.
Qed.

Lemma stop_with_handle_waits_witness :
  poll (Popen_ 4242) (stop 10 (held_server, orphan_world)).2.2 ≠ None ∧
  process (stop 10 (held_server, orphan_world)).2.1 = None.
Proof.
  refine (stop_with_handle_waits held_server orphan_world 10 (Popen_ 4242)
            (stop 10 (held_server, orphan_world)).2 eq_refl _ eq_refl).
  vm_compute. reflexivity.
Defined.

(** Without a handle, [stop] signals nothing and leaves the process table
    as it is, whatever it does to the PID file. *)
Lemma stop_without_handle_sends_nothing self w T r st :
  process self = None → stop T (self, w) = (r, st) →
  w_signals st.2 = w_signals w ∧ w_procs st.2 = w_procs w.
Proof.
  intros Hh.
  cbv [stop ask mbind M_bind mret M_ret try_except get_state liftW with_self
       set_process modify_state print terminate kill raise].
  destruct (is_running self w) as [[]|e|]; cbn [negb].
  2-4: now intros [= _ <-].
  rewrite Hh.
  destruct (_remove_pid self w) as [[[]|e|] w3] eqn:H3;
    apply remove_pid_frame in H3 as (Hp & _ & Hs).
  - now intros [= _ <-].
  - wrap_exception; now intros [= _ <-].
  - now intros [= _ <-].
Qed.

(** * Further properties of the client *)

(** X1. [get_findings] with a limit returns a prefix of the array the
    endpoint sent: its first [limit] findings when [limit] is not
    negative (all of them when there are fewer), and all but the last
    [-limit] when it is negative. *)
Theorem get_findings_limit self w r l (limit : Z) :
  session_get (base_url self +:+ "/findings") w = Ok r →
  raise_for_status (base_url self +:+ "/findings") r = Ok tt →
  json_loads (w_host w) (text r) = Decoded (JList l) →
  ∃ l',
    get_findings self (Some limit) w = Ok l' ∧
    l' `prefix_of` l ∧
    Z.of_nat (length l') =
      if limit <? 0 then Z.max 0 (Z.of_nat (length l) + limit)
      else Z.min limit (Z.of_nat (length l)).
Proof.
  intros Hget Hstatus Hjson.
  rewrite (get_findings_decoded _ _ _ _ Hget Hstatus), Hjson.
  eexists. split; [reflexivity|]. unfold slice_to.
  split; [destruct (limit <? 0); apply prefix_take|].
  destruct (Z.ltb_spec limit 0); rewrite length_take; lia.
Qed.

Lemma get_findings_limit_witness :
  ∃ l', get_findings sample_client (Some (-1)) findings_world = Ok l' ∧
        l' `prefix_of` three_findings ∧ Z.of_nat (length l') = 2.
Proof.
  exact (get_findings_limit sample_client findings_world _ three_findings (-1)
           eq_refl eq_refl eq_refl).
Defined.

(** X2. A request that fails in transport, or that is answered with a
    4xx or 5xx status, makes [get_findings] raise [APIError]; for a
    transport failure the message carries the text of the cause. An
    exception that is neither a [RequestException] nor a JSON decoding
    error passes through unchanged. *)
Theorem get_findings_request_errors self limit w :
  (∀ e, session_get (base_url self +:+ "/findings") w = Raise e →
        isinstance e RequestException = true →
        get_findings self limit w
          = Raise (Exn APIError ("Failed to fetch findings: " +:+ exn_str e))) ∧
  (∀ r, session_get (base_url self +:+ "/findings") w = Ok r →
        400 <= status_code r < 600 →
        ∃ text, get_findings self limit w = Raise (Exn APIError text)) ∧
  (∀ e, session_get (base_url self +:+ "/findings") w = Raise e →
        isinstance e RequestException = false →
        isinstance e JSONDecodeError = false →
        get_findings self limit w = Raise e).
Proof.
  unfold get_findings. split; [|split].
  - intros e -> He. cbn [mbind res_bind try_res find_clause existsb].
    now rewrite He.
  - intros r -> Hs. cbn [mbind res_bind]. unfold raise_for_status.
    destruct (Z.leb_spec 400 (status_code r)); [|lia].
    destruct (Z.ltb_spec (status_code r) 500); cbn [andb].
    + cbn [mbind res_bind try_res find_clause existsb isinstance exn_class_of].
      eexists. reflexivity.
    + destruct (Z.leb_spec 500 (status_code r)); [|lia].
      destruct (Z.ltb_spec (status_code r) 600); [|lia].
      cbn [andb mbind res_bind try_res find_clause existsb isinstance exn_class_of].
      eexists. reflexivity.
  - intros e -> H1 H2. cbn [mbind res_bind try_res find_clause existsb].
    now rewrite H1, H2.
Qed.

Lemma get_findings_request_errors_witness :
  get_findings sample_client None empty_world
    = Raise (Exn APIError "Failed to fetch findings: Connection refused")
  ∧ ∃ text, get_findings sample_client None
              (answering (Response 503 "Service Unavailable" "" [] StreamClosed))
            = Raise (Exn APIError text).
Proof.
  destruct (get_findings_request_errors sample_client None empty_world)
    as (H1 & _).
  destruct (get_findings_request_errors sample_client None
              (answering (Response 503 "Service Unavailable" "" [] StreamClosed)))
    as (_ & H2 & _).
  split.
  - apply (H1 refused); reflexivity.
  - apply (H2 (Response 503 "Service Unavailable" "" [] StreamClosed)
              eq_refl).
    simpl. lia.
Defined.


(** X4. When the stream cannot be opened, because the request fails in
    transport or is answered with a 4xx or 5xx status, iterating over
    [stream_findings] yields nothing and raises [APIError] at the first
    [next]. *)
Theorem stream_findings_open_failure self w fuel :
  (0 < fuel)%nat →
  (∀ e, session_get (base_url self +:+ "/stream") w = Raise e →
        isinstance e RequestException = true →
        collect fuel self w GenCreated
          = Some ([], Raised (Exn APIError
                               ("Failed to stream findings: " +:+ exn_str e)))) ∧
  (∀ r, session_get (base_url self +:+ "/stream") w = Ok r →
        400 <= status_code r < 600 →
        ∃ text, collect fuel self w GenCreated
                = Some ([], Raised (Exn APIError text))).
Proof.
  intros Hfuel. destruct fuel; [lia|]. cbn [collect gen_next]. split.
  - intros e -> He. cbn [mbind res_bind]. unfold stream_exit. now rewrite He.
  - intros r -> Hs. cbn [mbind res_bind]. unfold raise_for_status.
    destruct (Z.leb_spec 400 (status_code r)); [|lia].
    destruct (Z.ltb_spec (status_code r) 500); cbn [andb mbind res_bind].
    + eexists. reflexivity.
    + destruct (Z.leb_spec 500 (status_code r)); [|lia].
      destruct (Z.ltb_spec (status_code r) 600); [|lia].
      cbn [andb mbind res_bind]. eexists. reflexivity.
Qed.

Lemma stream_findings_open_failure_witness :
  collect 1 sample_client empty_world GenCreated
  = Some ([], Raised (Exn APIError "Failed to stream findings: Connection refused")).
Proof.
  apply (proj1 (stream_findings_open_failure sample_client empty_world 1
                  ltac:(lia)) refused); reflexivity.
Defined.

Lemma first_with_id_dicts findings finding_id :
  forallb is_dict findings = true →
  first_with_id findings finding_id = Ok (List.find (has_id finding_id) findings).
Proof.
  induction findings as [|f rest IH]; [reflexivity|].
  cbn [forallb]. intros [Hf Hrest]%andb_true_iff.
  destruct f; try discriminate Hf.
  cbn [first_with_id json_get mbind res_bind List.find].
  unfold has_id at 1. cbn [field].
  destruct (eq_int _ _); [reflexivity|]. now apply IH.
Qed.

(** X5. When every finding the endpoint sent is a JSON object,
    [get_finding_by_id] returns the first of them whose id equals the one
    asked for, and [None] when there is none. When the first finding is
    not an object, the call raises an error that is not an [APIError]. *)
Theorem get_finding_by_id_first self w findings finding_id :
  get_findings self None w = Ok findings →
  (forallb is_dict findings = true →
   get_finding_by_id self finding_id w
     = Ok (List.find (has_id finding_id) findings)) ∧
  (∀ f rest, findings = f :: rest → is_dict f = false →
     get_finding_by_id self finding_id w
       = Raise (other_error "object has no attribute 'get'")).
Proof.
  intros Hget. unfold get_finding_by_id. rewrite Hget. cbn [mbind res_bind].
  split.
  - apply first_with_id_dicts.
  - intros f rest -> Hf. destruct f; try discriminate Hf; reflexivity.
Qed.

Lemma get_finding_by_id_first_witness :
  get_finding_by_id sample_client 2 findings_world
    = Ok (Some (finding 2 "endpoint" 4617315517961601024))
  ∧ get_finding_by_id sample_client 999 findings_world = Ok None.
Proof.
  split.
  - exact (proj1 (get_finding_by_id_first sample_client findings_world
                    three_findings 2 eq_refl) eq_refl).
  - exact (proj1 (get_finding_by_id_first sample_client findings_world
                    three_findings 999 eq_refl) eq_refl).
Defined.

Lemma comprehension_filter {A} (test : A → res bool) (keep : A → bool) l :
  Forall (λ f, test f = Ok (keep f)) l →
  comprehension test l = Ok (List.filter keep l).
Proof.
  induction 1 as [|f rest Hf _ IH]; [reflexivity|].
  cbn [comprehension List.filter]. rewrite Hf. cbn [mbind res_bind].
  rewrite IH. cbn [mbind res_bind mret res_ret]. now destruct (keep f).
Qed.

(** X6. When every finding the endpoint sent is a JSON object,
    [get_findings_by_type] returns, in the order received, exactly the
    findings whose type is the string asked for; a finding without a type
    is left out. *)
Theorem get_findings_by_type_filter self w findings finding_type :
  get_findings self None w = Ok findings →
  forallb is_dict findings = true →
  get_findings_by_type self finding_type w
    = Ok (List.filter (has_type finding_type) findings).
Proof.
  intros Hget Hdicts. unfold get_findings_by_type. rewrite Hget.
  cbn [mbind res_bind]. apply comprehension_filter.
  apply Forall_forall. intros f Hin.
  apply list_elem_of_In in Hin.
  rewrite forallb_forall in Hdicts. specialize (Hdicts f Hin).
  destruct f; try discriminate Hdicts. reflexivity.
Qed.

Lemma get_findings_by_type_filter_witness :
  get_findings_by_type sample_client "network" findings_world
  = Ok [finding 1 "network" 4620693217682128896;
        finding 3 "network" 4618441417868443648].
Proof.
  exact (get_findings_by_type_filter sample_client findings_world
           three_findings "network" eq_refl eq_refl).
Defined.

(** X7. When every finding the endpoint sent is a JSON object whose
    severity is a number or is missing, [get_findings_by_severity] returns,
    in the order received, exactly the findings whose severity lies
    between the two bounds, both included, a missing severity counting as
    0. A first finding whose severity is not a number makes the call raise
    an error that is not an [APIError]. *)
Theorem get_findings_by_severity_filter self w findings lo hi :
  get_findings self None w = Ok findings →
  (forallb has_numeric_severity findings = true →
   get_findings_by_severity self lo hi w
     = Ok (List.filter (severity_in lo hi) findings)) ∧
  (∀ f rest, findings = f :: rest → is_dict f = true → severity f = None →
     get_findings_by_severity self lo hi w
       = Raise (other_error "'<=' not supported between these instances")).
Proof.
  intros Hget. unfold get_findings_by_severity. rewrite Hget.
  cbn [mbind res_bind]. split.
  - intros Hnum. apply comprehension_filter.
    apply Forall_forall. intros f Hin. apply list_elem_of_In in Hin.
    rewrite forallb_forall in Hnum. specialize (Hnum f Hin).
    unfold has_numeric_severity in Hnum.
    apply andb_true_iff in Hnum as [Hd Hs]. apply bool_decide_eq_true in Hs.
    destruct f; try discriminate Hd.
    unfold severity_in, severity_between, severity in *. cbn [json_get field mbind res_bind] in *.
    destruct Hs as [n ->]. reflexivity.
  - intros f rest -> Hd Hs. destruct f; try discriminate Hd.
    unfold severity in Hs. cbn [field] in Hs.
    cbn [comprehension json_get mbind res_bind]. unfold severity_between.
    now rewrite Hs.
Qed.

Lemma get_findings_by_severity_filter_witness :
  get_findings_by_severity sample_client (Finite 6 0) (Finite 10 0) findings_world
  = Ok [finding 1 "network" 4620693217682128896;
        finding 3 "network" 4618441417868443648].
Proof.
  exact (proj1 (get_findings_by_severity_filter sample_client findings_world
                  three_findings (Finite 6 0) (Finite 10 0) eq_refl) eq_refl).
Defined.

Lemma rstrip_char_last x s : last_char (PyStr.rstrip_char x s) ≠ Some x.
Proof.
  induction s as [|c s IH]; [discriminate|].
  cbn [PyStr.rstrip_char]. destruct (PyStr.rstrip_char x s) as [|c' r] eqn:E.
  - destruct (Ascii.eqb_spec c x); [discriminate|].
    cbn. congruence.
  - exact IH.
Qed.

Lemma rstrip_char_snoc x s :
  PyStr.rstrip_char x (s +:+ String x EmptyString) = PyStr.rstrip_char x s.
Proof.
  induction s as [|c s IH].
  - change (EmptyString +:+ String x EmptyString) with (String x EmptyString).
    cbn [PyStr.rstrip_char]. now rewrite Ascii.eqb_refl.
  - change (String c s +:+ String x EmptyString)
      with (String c (s +:+ String x EmptyString)).
    cbn [PyStr.rstrip_char]. now rewrite IH.
Qed.

(** X8. The base URL a client keeps never ends with a slash, and a
    trailing slash in the URL given to the constructor makes no
    difference. *)
Theorem base_url_trailing_slash url timeout :
  last_char (base_url (SenseClient_init url timeout)) ≠ Some "/"%char ∧
  SenseClient_init (url +:+ "/") timeout = SenseClient_init url timeout.
Proof.
  unfold SenseClient_init. cbn [base_url]. split.
  - apply rstrip_char_last.
  - f_equal. apply rstrip_char_snoc.
Qed.

(** * Further properties of the supervisor *)

(** ** Readiness *)

Lemma health_check_cases c w :
  (∃ b, health_check c w = Ok b) ∨
  (∃ e, health_check c w = Raise e ∧ exn_class_of e = KeyboardInterrupt).
Proof.
  unfold health_check, session_get.
  destruct (w_http _ _ _) as [e|r]; cbn [mbind res_bind mret res_ret try_res].
  - cbn [find_clause existsb]. rewrite orb_false_r.
    destruct (isinstance e Exception) eqn:He; [left; eauto|].
    right. exists e. split; [reflexivity|]. now apply not_exception_class.
  - left. eauto.
Qed.

Lemma is_running_cases self w :
  (∃ b, is_running self w = Ok b) ∨
  (∃ e, is_running self w = Raise e ∧
        (exn_class_of e = KeyboardInterrupt ∨
         ∃ n, _read_pid self w = Ok (Some n) ∧ n < 0 ∧ e = bad_pid n)).
Proof.
  pose proof (health_check_cases (local_client self) w) as Hhealth.
  destruct (handle_alive self w) eqn:Hh.
  { unfold is_running. rewrite Hh. left; eauto. }
  rewrite (is_running_pid_file _ _ Hh).
  destruct (read_pid_never_raises self w) as [[n|] Hr]; rewrite Hr.
  2:{ destruct Hhealth as [?|(e & ? & ?)]; [now left|right; eauto]. }
  destruct (n =? 0).
  { destruct Hhealth as [?|(e & ? & ?)]; [now left|right; eauto]. }
  destruct (Z.ltb_spec n 0) as [Hneg|_]; [right; eauto 10|].
  destruct (pid_lookup _ n) as [p|].
  2:{ destruct Hhealth as [?|(e & ? & ?)]; [now left|right; eauto]. }
  destruct (p_inspectable p); [left; eauto|].
  destruct Hhealth as [?|(e & ? & ?)]; [now left|right; eauto].
Qed.

Lemma wait_loop_bounded self c t0 T :
  ∀ (n : nat) w, (Z.to_nat (t0 + 1000 * T - w_clock w) ≤ n)%nat →
  (wait_loop self c t0 T w).1 ≠ Hang ∧
  ∃ j, 0 <= j ∧
    (wait_loop self c t0 T w).2 = set_clock (w_clock w + 500 * j) w ∧
    (j = 0 ∨ w_clock w + 500 * j < t0 + 1000 * T + 500) ∧
    ((wait_loop self c t0 T w).1 = Ok tt →
     w_clock w + 500 * j < t0 + 1000 * T ∧
     health_check c (set_clock (w_clock w + 500 * j) w) = Ok true).
Proof.
  induction n as [|n IH]; intros w Hn; rewrite wait_loop_step.
  - destruct (decide _) as [H|H]; [lia|]. cbn [fst snd].
    split; [discriminate|]. exists 0. split; [lia|].
    rewrite Z.add_0_r. split; [apply set_clock_id|].
    split; [now left|]. intros Hok; discriminate Hok.
  - destruct (decide _) as [H|H].
    2:{ cbn [fst snd]. split; [discriminate|]. exists 0. split; [lia|].
        rewrite Z.add_0_r. split; [apply set_clock_id|].
        split; [now left|]. intros Hok; discriminate Hok. }
    destruct (health_check_cases c w) as [[b Hb]|(e & He & _)].
    2:{ rewrite He. cbn [fst snd]. split; [discriminate|]. exists 0.
        split; [lia|]. rewrite Z.add_0_r. split; [apply set_clock_id|].
        split; [now left|]. intros Hok; discriminate Hok. }
    rewrite Hb. destruct b.
    { cbn [fst snd]. split; [discriminate|]. exists 0. split; [lia|].
      rewrite Z.add_0_r. split; [apply set_clock_id|]. split; [now left|].
      intros _. split; [lia|]. now rewrite <- set_clock_id. }
    destruct (died self w).
    { cbn [fst snd]. split; [discriminate|]. exists 0. split; [lia|].
      rewrite Z.add_0_r. split; [apply set_clock_id|].
      split; [now left|]. intros Hok; discriminate Hok. }
    destruct (IH (set_clock (w_clock w + 500) w)) as (Hh & j & Hj & Hw & Hb' & Hok).
    { cbn [w_clock set_clock]. lia. }
    split; [exact Hh|]. exists (j + 1). split; [lia|].
    cbn [w_clock set_clock] in *.
    replace (w_clock w + 500 * (j + 1)) with (w_clock w + 500 + 500 * j) by lia.
    split; [exact Hw|]. split; [right; lia|]. exact Hok.
Qed.



Lemma wait_loop_ready self c t0 T h p k :
  process self = Some h → 500 * k < 1000 * T →
  (∀ j, 0 <= j < k → alive_at (t0 + 500 * j) p = true) →
  ∀ (n : nat) w,
    w_procs w !! pid h = Some p →
    w_clock w = t0 + 500 * (k - Z.of_nat n) → Z.of_nat n <= k →
    (∀ j, k - Z.of_nat n <= j < k →
          health_check c (set_clock (t0 + 500 * j) w) = Ok false) →
    health_check c (set_clock (t0 + 500 * k) w) = Ok true →
    wait_loop self c t0 T w = (Ok tt, set_clock (t0 + 500 * k) w).
Proof.
  intros Hh HT Halive. induction n as [|n IH]; intros w Hp Hc Hn Hfalse Htrue;
    rewrite wait_loop_step;
    (destruct (decide _) as [_|Hout]; [|lia]).
  - replace (t0 + 500 * k) with (w_clock w) in * by lia.
    rewrite <- set_clock_id in *. now rewrite Htrue.
  - assert (health_check c w = Ok false) as ->
      by (rewrite health_check_now, Hc; apply Hfalse; lia).
    rewrite (died_alive _ _ _ _ Hh Hp).
    assert (alive_at (w_clock w) p = true) as ->
      by (rewrite Hc; apply Halive; lia).
    apply (IH (set_clock (w_clock w + 500) w)).
    + exact Hp.
    + cbn [w_clock set_clock]. lia.
    + lia.
    + intros j Hj. apply Hfalse. lia.
    + exact Htrue.
Qed.

(** ** start *)

Lemma read_pid_launched self bm' h bp cpid p q w t out :
  _read_pid (holding bm' h self)
    (log_stdout out (set_clock t (launched self bp cpid p q w))) = Ok (Some cpid).
Proof.
  rewrite (read_pid_text _ _
             (match w_files w !! _pid_file self with
              | Some f => f_mode f
              | None => new_file_mode (w_host w)
              end) (PyStr.str cpid)).
  - now rewrite PyStrFacts.int_str.
  - unfold launched. destruct (use_sudo self);
      cbn [w_files w_host log_stdout set_clock set_files log_spawned set_procs
           set_spawn holding _pid_file];
      apply lookup_insert_eq.
Qed.

(** X10. [start] on a supervisor that is not running, when the binary
    resolves, the child is spawned and its PID can be saved. Without
    waiting, [start] returns at once. With waiting, if the probes of the
    first [k] half-second rounds fail while the child is alive and the
    probe of round [k], which begins within the timeout, succeeds,
    [start] returns after [k] half seconds. Either way the supervisor
    holds the child's handle, the PID file reads back the child's PID,
    one command has been spawned, no signal has been sent and the last
    line printed reports the PID. *)
Theorem start_success self w T bp bm' wb cpid p q :
  is_running self w = Ok false →
  get_binary_path (binary_manager self, w) = (Ok bp, (bm', wb)) →
  w_spawn w = SpawnChild cpid p :: q →
  mkdir_ok (w_host w) (path_parent (_pid_file self)) = true →
  write_ok (w_host w) (_pid_file self) = true →
  let t0 := w_clock w in
  let self' := holding bm' (Some (Popen_ cpid)) self in
  let done w' :=
    _read_pid self' w' = Ok (Some cpid) ∧
    w_procs w' = <[cpid := p]> (w_procs w) ∧
    w_spawned w' = w_spawned w ++ [command_line self bp] ∧
    w_signals w' = w_signals w ∧
    last (w_stdout w')
      = Some ("SENSE server started successfully (PID: "
              +:+ PyStr.str cpid +:+ ")") in
  (∃ w', start false T (self, w) = (Ok tt, (self', w')) ∧
         w_clock w' = t0 ∧ done w') ∧
  (∀ k, 0 <= k → 500 * k < 1000 * T →
     (∀ j, 0 <= j < k →
        health_at self w (t0 + 500 * j) = Ok false ∧
        alive_at (t0 + 500 * j) p = true) →
     health_at self w (t0 + 500 * k) = Ok true →
     ∃ w', start true T (self, w) = (Ok tt, (self', w')) ∧
           w_clock w' = t0 + 500 * k ∧ done w').
Proof.
  intros Hrun Hbin Hspawn Hmk Hwr.
  destruct (get_binary_path_frame _ _ _ _ _ Hbin) as (fs & out & ->).
  cbv zeta.
  pose proof (launched_fields self bp cpid p q fs out w)
    as (Hclock & Hhttp & Hsig & Hprocs & Hspawned & _).
  set (self1 := holding bm' (Some (Popen_ cpid)) self).
  set (w1 := launched self bp cpid p q (with_files_stdout fs out w)) in *.
  split.
  - rewrite (start_launch _ _ false T _ _ _ _ _ _ Hrun Hbin Hspawn Hmk Hwr).
    cbv zeta. cbn [mret M_ret]. fold self1 w1.
    eexists. split; [reflexivity|].
    cbn [w_clock w_procs w_spawned w_signals w_stdout log_stdout].
    split; [exact Hclock|]. split.
    { rewrite (set_clock_id w1). apply read_pid_launched. }
    split; [exact Hprocs|]. split; [exact Hspawned|]. split; [exact Hsig|].
    apply last_snoc.
  - intros k Hk0 HkT Hrounds Hready.
    rewrite (start_launch _ _ true T _ _ _ _ _ _ Hrun Hbin Hspawn Hmk Hwr).
    cbv zeta. unfold _wait_for_ready. fold self1 w1. rewrite Hclock.
    assert (w_procs w1 !! pid (Popen_ cpid) = Some p) as Hp
      by (rewrite Hprocs; apply lookup_insert_eq).
    rewrite (wait_loop_ready self1 (local_client self1) (w_clock w) T
               (Popen_ cpid) p k eq_refl HkT
               (λ j Hj, proj2 (Hrounds j Hj)) (Z.to_nat k) w1 Hp).
    + eexists. split; [reflexivity|].
      cbn [w_clock w_procs w_spawned w_signals w_stdout log_stdout set_clock].
      split; [reflexivity|]. split; [apply read_pid_launched|].
      split; [exact Hprocs|]. split; [exact Hspawned|]. split; [exact Hsig|].
      apply last_snoc.
    + rewrite Hclock. f_equal. lia.
    + lia.
    + intros j Hj. unfold self1, w1. rewrite health_at_launched.
      apply Hrounds. lia.
    + unfold self1, w1. rewrite health_at_launched. exact Hready.
Qed.

Lemma start_success_witness :
  ∃ w', start true 30 (sample_server, ready_world (sample_child None))
          = (Ok tt, (holding (remember "/opt/sense-ai/sense" (BinaryManager_init "latest"))
                        (Some (Popen_ 4242)) sample_server, w')) ∧
        w_clock w' = 1000 ∧
        _read_pid sample_server w' = Ok (Some 4242).
Proof.
  destruct (proj2 (start_success sample_server (ready_world (sample_child None)) 30
                     "/opt/sense-ai/sense" _ _ 4242 (sample_child None) []
                     eq_refl eq_refl eq_refl eq_refl eq_refl) 2)
    as (w' & Hstart & Hclock & Hpid & _).
  - lia.
  - lia.
  - intros j Hj. assert (j = 0 ∨ j = 1) as [-> | ->] by lia; split; reflexivity.
  - reflexivity.
  - exists w'. split; [exact Hstart|]. split; [exact Hclock|]. exact Hpid.
Defined.

(** X11. When the binary cannot be resolved, [start] raises
    [ServerError] with the message Failed to locate SENSE binary:
    followed by the text of the cause. Nothing has been spawned or
    signalled, and the supervisor holds the handle it held before. *)
Theorem start_without_binary self w (wait_for_ready : bool) T e bm' wb :
  is_running self w = Ok false →
  get_binary_path (binary_manager self, w) = (Raise e, (bm', wb)) →
  isinstance e Exception = true →
  start wait_for_ready T (self, w)
    = (Raise (locate_failed e), (holding bm' (process self) self, wb)) ∧
  w_spawned wb = w_spawned w ∧ w_spawn wb = w_spawn w ∧
  w_procs wb = w_procs w ∧ w_signals wb = w_signals w.
Proof.
  intros Hrun Hbin He.
  destruct (get_binary_path_frame _ _ _ _ _ Hbin) as (fs & out & ->).
  split; [|repeat split].
  cbv [start ask mbind M_bind mret M_ret try_except on_binary_manager raise].
  rewrite Hrun, Hbin. cbn [find_clause existsb]. rewrite orb_false_r, He.
  reflexivity.
Qed.

Lemma start_without_binary_witness :
  (start true 30 (sample_server, empty_world)).1
  = Raise (Exn ServerError
             ("Failed to locate SENSE binary: "
              +:+ "Could not find or download SENSE binary. "
              +:+ "Please build it manually or check your internet connection. Error: "
              +:+ "Failed to download binary from "
              +:+ "https://github.com/Faux16/sense-ai/releases/download/v0.1.0/sense-linux-amd64"
              +:+ ". You may need to build the binary manually. Error: "
              +:+ "Network is unreachable")).
Proof.
  rewrite (proj1 (start_without_binary sample_server empty_world true 30
                    _ _ _ eq_refl eq_refl eq_refl)).
  reflexivity.
Defined.

Ltac unfold_start :=
  cbv [start ask mbind M_bind mret M_ret try_except on_binary_manager with_self
       set_process modify_state liftW raise print subprocess_Popen _save_pid
       mkdir write_text].

Lemma start_spawn_fails self w (wait_for_ready : bool) T bp bm' wb e q :
  is_running self w = Ok false →
  get_binary_path (binary_manager self, w) = (Ok bp, (bm', wb)) →
  w_spawn wb = SpawnFails e :: q → isinstance e Exception = true →
  ∃ w',
    start wait_for_ready T (self, w)
      = (Raise (start_failed e), (holding bm' (process self) self, w')) ∧
    w_files w' = w_files wb ∧ w_procs w' = w_procs wb ∧
    w_spawned w' = w_spawned wb ∧ w_signals w' = w_signals wb ∧
    w_clock w' = w_clock wb.
Proof.
  intros Hrun Hbin Hspawn He. unfold_start.
  rewrite Hrun, Hbin. cbn [find_clause existsb].
  destruct self as [port_ iface db pol sudo bm proc pf].
  cbn [use_sudo port w_spawn w_host w_files w_procs log_stdout set_spawn
       set_procs log_spawned _pid_file pid process] in *.
  destruct sudo.
  all: cbn [w_spawn w_host w_files log_stdout set_spawn set_procs log_spawned];
    rewrite Hspawn; cbn [find_clause existsb]; rewrite orb_false_r, He;
    eexists; split; [reflexivity|]; repeat split.
Qed.

Lemma start_save_fails self w (wait_for_ready : bool) T bp bm' wb cpid p q :
  is_running self w = Ok false →
  get_binary_path (binary_manager self, w) = (Ok bp, (bm', wb)) →
  w_spawn wb = SpawnChild cpid p :: q →
  mkdir_ok (w_host wb) (path_parent (_pid_file self))
    && write_ok (w_host wb) (_pid_file self) = false →
  ∃ msg w',
    start wait_for_ready T (self, w)
      = (Raise (Exn ServerError ("Failed to start SENSE server: " +:+ msg)),
         (holding bm' (Some (Popen_ cpid)) self, w')) ∧
    w_files w' = w_files wb ∧
    w_procs w' = <[cpid := p]> (w_procs wb) ∧
    w_spawned w' = w_spawned wb ++ [command_line self bp] ∧
    w_signals w' = w_signals wb ∧
    w_clock w' = w_clock wb.
Proof.
  intros Hrun Hbin Hspawn Hsave. unfold_start.
  rewrite Hrun, Hbin. cbn [find_clause existsb].
  destruct self as [port_ iface db pol sudo bm proc pf].
  cbn [use_sudo port w_spawn w_host w_files w_procs log_stdout set_spawn
       set_procs log_spawned _pid_file pid process] in *.
  destruct sudo.
  all: cbn [w_spawn w_host w_files log_stdout set_spawn set_procs log_spawned];
    rewrite Hspawn;
    cbn [w_host w_files log_stdout set_spawn set_procs log_spawned _pid_file pid].
  all: destruct (mkdir_ok _ _);
    [cbn [andb] in Hsave;
     cbn [w_host w_files log_stdout set_spawn set_procs log_spawned _pid_file pid];
     rewrite Hsave|];
    cbn [find_clause existsb isinstance exn_class_of];
    do 2 eexists; (split; [reflexivity|]); repeat split.
Qed.

(** X12. When the launch fails, [start] raises [ServerError] with a
    message that begins Failed to start SENSE server. If [Popen] raises,
    no process has been added and the handle and the files are as binary
    resolution left them. If the child is spawned but its PID cannot be
    saved, the supervisor keeps the child's handle, the child is in the
    process table and no signal has been sent to it: it is left running
    with no PID file written. *)
Theorem start_launch_failures self w (wait_for_ready : bool) T bp bm' wb :
  is_running self w = Ok false →
  get_binary_path (binary_manager self, w) = (Ok bp, (bm', wb)) →
  (∀ e q, w_spawn w = SpawnFails e :: q → isinstance e Exception = true →
     ∃ w',
       start wait_for_ready T (self, w)
         = (Raise (start_failed e), (holding bm' (process self) self, w')) ∧
       w_files w' = w_files wb ∧ w_procs w' = w_procs w ∧
       w_spawned w' = w_spawned w) ∧
  (∀ cpid p q, w_spawn w = SpawnChild cpid p :: q →
     mkdir_ok (w_host w) (path_parent (_pid_file self))
       && write_ok (w_host w) (_pid_file self) = false →
     ∃ msg w',
       start wait_for_ready T (self, w)
         = (Raise (Exn ServerError ("Failed to start SENSE server: " +:+ msg)),
            (holding bm' (Some (Popen_ cpid)) self, w')) ∧
       w_files w' = w_files wb ∧
       w_procs w' = <[cpid := p]> (w_procs w) ∧
       w_signals w' = w_signals w).
Proof.
  intros Hrun Hbin.
  pose proof (get_binary_path_frame _ _ _ _ _ Hbin) as (fs & out & Hwb).
  split.
  - intros e q Hspawn He.
    destruct (start_spawn_fails self w wait_for_ready T bp bm' wb e q Hrun Hbin)
      as (w' & Hs & Hf & Hp & Hsp & _ & _); [now subst wb|exact He|].
    exists w'. subst wb. repeat split; assumption.
  - intros cpid p q Hspawn Hsave.
    destruct (start_save_fails self w wait_for_ready T bp bm' wb cpid p q Hrun Hbin)
      as (msg & w' & Hs & Hf & Hp & _ & Hsig & _); [now subst wb|now subst wb|].
    exists msg, w'. subst wb. repeat split; assumption.
Qed.

Lemma start_launch_failures_witness :
  ∃ msg w',
    start true 30 (sample_server, read_only_world)
      = (Raise (Exn ServerError ("Failed to start SENSE server: " +:+ msg)),
         (holding (remember "/opt/sense-ai/sense" (BinaryManager_init "latest"))
            (Some (Popen_ 4242)) sample_server, w')) ∧
    w_files w' = dev_files ∧
    w_procs w' = <[4242 := sample_child None]> ∅ ∧
    w_signals w' = [].
Proof.
  exact (proj2 (start_launch_failures sample_server read_only_world true 30
                  "/opt/sense-ai/sense" _ _ eq_refl eq_refl)
           4242 (sample_child None) [] eq_refl eq_refl).
Defined.

Ltac start_leaf :=
  cbn [fst snd w_clock w_signals w_spawned log_stdout set_clock set_spawn
       with_files_stdout];
  split; [lia|]; split; [reflexivity|now left].

(** X13. Whatever [start] meets, and however it ends, it has sent no
    signal and it has spawned at most one process; the clock has not
    gone back. *)
Theorem start_footprint self w (wait_for_ready : bool) T :
  let r := start wait_for_ready T (self, w) in
  w_clock w <= w_clock r.2.2 ∧
  w_signals r.2.2 = w_signals w ∧
  (w_spawned r.2.2 = w_spawned w ∨ ∃ cmd, w_spawned r.2.2 = w_spawned w ++ [cmd]).
Proof.
  cbv zeta.
  pose proof (is_running_cases self w) as Hcases.
  destruct (is_running self w) as [[]|e|] eqn:Hrun.
  - rewrite (start_already_running _ _ _ _ Hrun). start_leaf.
  - destruct (get_binary_path (binary_manager self, w)) as [[bp|e|] [bm' wb]] eqn:Hbin;
      pose proof (get_binary_path_frame _ _ _ _ _ Hbin) as (fs & out & Hwb).
    2: cbv [start ask mbind M_bind mret M_ret try_except on_binary_manager raise];
      rewrite Hrun, Hbin; cbn [find_clause existsb]; rewrite ?orb_false_r;
      destruct (isinstance e Exception); subst wb; start_leaf.
    2: cbv [start ask mbind M_bind mret M_ret try_except on_binary_manager raise];
      rewrite Hrun, Hbin; subst wb; start_leaf.
    assert (w_signals wb = w_signals w ∧ w_spawned wb = w_spawned w
            ∧ w_clock wb = w_clock w)
      as (Hsig0 & Hsp0 & Hc0) by (now subst wb).
    rewrite <- Hsig0, <- Hsp0, <- Hc0. clear Hwb Hsig0 Hsp0 Hc0.
    destruct (w_spawn wb) as [|[e|cpid p] q] eqn:Hspawn.
    { cbv [start ask mbind M_bind mret M_ret try_except on_binary_manager with_self
           set_process modify_state liftW raise print subprocess_Popen].
      rewrite Hrun, Hbin. cbn [find_clause existsb].
      destruct self as [port_ iface db pol sudo bm proc pf].
      cbn [use_sudo port w_spawn w_host w_files w_procs log_stdout set_spawn
           set_procs log_spawned _pid_file pid process] in *.
      destruct sudo;
        cbn [w_spawn w_host w_files log_stdout set_spawn set_procs log_spawned];
        rewrite Hspawn;
        change (isinstance (Exn OSError "cannot execute the command") Exception)
          with true;
        cbn [find_clause existsb orb]; start_leaf. }
    { destruct (isinstance e Exception) eqn:He.
      - destruct (start_spawn_fails self w wait_for_ready T bp bm' _ e q Hrun Hbin
                    Hspawn He) as (w' & -> & _ & _ & Hsp & Hsig & Hc).
        cbn [fst snd].
        split; [lia|]. split; [exact Hsig|left; exact Hsp].
      - cbv [start ask mbind M_bind mret M_ret try_except on_binary_manager with_self
             set_process modify_state liftW raise print subprocess_Popen].
        rewrite Hrun, Hbin. cbn [find_clause existsb].
        destruct self as [port_ iface db pol sudo bm proc pf].
        cbn [use_sudo port w_spawn w_host w_files w_procs log_stdout set_spawn
             set_procs log_spawned _pid_file pid process] in *.
        destruct sudo;
          cbn [w_spawn w_host w_files log_stdout set_spawn set_procs log_spawned];
          rewrite Hspawn; cbn [find_clause existsb]; rewrite orb_false_r, He;
          start_leaf. }
    destruct (mkdir_ok (w_host wb) (path_parent (_pid_file self))
              && write_ok (w_host wb) (_pid_file self)) eqn:Hsave.
    + apply andb_true_iff in Hsave as [Hmk Hwr].
      rewrite (start_launch _ _ _ T _ _ _ _ _ _ Hrun Hbin Hspawn Hmk Hwr).
      cbv zeta.
      pose proof (launched_fields self bp cpid p q (w_files wb) (w_stdout wb) wb)
        as (Hclock & _ & Hsig & _ & Hspawned & _).
      rewrite <- with_files_stdout_id in Hclock, Hsig, Hspawned.
      destruct wait_for_ready.
      * unfold _wait_for_ready.
        destruct (wait_loop_bounded
                    (holding bm' (Some (Popen_ cpid)) self)
                    (local_client (holding bm' (Some (Popen_ cpid)) self))
                    (w_clock (launched self bp cpid p q wb)) T _
                    (launched self bp cpid p q wb) (le_n _))
          as (Hnh & j & Hj & Hw & Hb & _).
        destruct (wait_loop _ _ _ _ _) as [[[]|e|] w2]; cbn [fst snd] in Hw, Hnh;
          [| |now destruct Hnh]; subst w2;
          try destruct (isinstance e Exception);
          cbn [fst snd w_clock w_signals w_spawned log_stdout set_clock];
          (split; [lia|]);
          (split; [exact Hsig|right; eexists; exact Hspawned]).
      * cbn [mret M_ret fst snd w_clock w_signals w_spawned log_stdout].
        split; [lia|].
        split; [exact Hsig|right; eexists; exact Hspawned].
    + destruct (start_save_fails self w wait_for_ready T bp bm' _ cpid p q Hrun Hbin
                  Hspawn Hsave) as (msg & w' & -> & _ & _ & Hsp & Hsig & Hc).
      cbn [fst snd]. split; [lia|].
      split; [exact Hsig|right; eexists; exact Hsp].
  - cbv [start ask mbind M_bind]. rewrite Hrun. start_leaf.
  - destruct Hcases as [[b Hb]|(e & He & _)]; discriminate.
Qed.

(** ** stop *)

Ltac world_fields :=
  repeat (cbn [w_signals w_clock w_files w_stdout w_host w_spawn w_spawned
               set_files set_clock log_stdout log_signal set_procs];
          collect_fields).

Ltac unfold_stop :=
  cbv [stop ask mbind M_bind mret M_ret try_except get_state liftW with_self
       set_process modify_state print terminate kill raise].

Lemma handle_alive_running self w h p :
  process self = Some h → w_procs w !! pid h = Some p →
  alive_at (w_clock w) p = true → is_running self w = Ok true.
Proof.
  intros Hh Hp Ha. unfold is_running, handle_alive, poll.
  now rewrite Hh, Hp, Ha.
Qed.

Lemma send_signal_live h sig w p :
  w_procs w !! pid h = Some p → alive_at (w_clock w) p = true →
  send_signal h sig w =
    if p_signalable p then
      (Ok tt,
       log_signal (pid h) sig
         (set_procs (<[pid h := signalled (w_clock w) sig p]> (w_procs w)) w))
    else (Raise (Exn OSError "[Errno 1] Operation not permitted"), w).
Proof.
  intros Hp Ha. unfold send_signal. rewrite Hp, Ha. cbn [negb].
  now destruct (p_signalable p).
Qed.

Lemma wait_timeout_cases h T w p :
  w_procs w !! pid h = Some p →
  wait h (Some T) w =
    if alive_at (w_clock w + 1000 * Z.max 0 T) p then
      (Raise (Exn TimeoutExpired "timed out"),
       set_clock (w_clock w + 1000 * Z.max 0 T) w)
    else
      (Ok (p_returncode p),
       collect_child h
         (set_clock (Z.max (w_clock w) (default 0 (p_exit_at p))) w)).
Proof.
  intros Hp. unfold wait, alive_at. rewrite Hp.
  destruct (p_exit_at p) as [d|]; [|reflexivity].
  cbn [default].
  destruct (Z.leb_spec d (w_clock w + 1000 * Z.max 0 T));
    destruct (Z.ltb_spec (w_clock w + 1000 * Z.max 0 T) d); try lia; reflexivity.
Qed.

Lemma remove_pid_ok self w :
  w_files w !! _pid_file self = None ∨ unlink_ok (w_host w) (_pid_file self) = true →
  _remove_pid self w = (Ok tt, set_files (delete (_pid_file self) (w_files w)) w).
Proof.
  intros H. cbv [_remove_pid get_state mbind M_bind mret M_ret unlink path_exists].
  destruct (w_files w !! _pid_file self) as [f|] eqn:Hf.
  - rewrite bool_decide_eq_true_2 by eauto. rewrite Hf.
    destruct H as [H|H]; [discriminate H|]. now rewrite H.
  - rewrite bool_decide_eq_false_2 by (now intros [? ?]).
    rewrite delete_id by exact Hf. now destruct w.
Qed.

(** X14. [stop] on a supervisor whose child is alive, may be signalled
    and exits within [g] milliseconds of SIGTERM, with [g] no longer than
    the timeout: [stop] returns normally, having sent SIGTERM and nothing
    else, waited at most [g] milliseconds, dropped the handle, removed
    the PID file and printed its two lines; the child has exited. *)
Theorem stop_graceful self w T h p g :
  process self = Some h → w_procs w !! pid h = Some p →
  alive_at (w_clock w) p = true → p_signalable p = true →
  p_term_grace p = Some g → 0 <= g <= 1000 * T →
  w_files w !! _pid_file self = None ∨ unlink_ok (w_host w) (_pid_file self) = true →
  ∃ w',
    stop T (self, w) = (Ok tt, (holding (binary_manager self) None self, w')) ∧
    w_signals w' = w_signals w ++ [(pid h, SIGTERM)] ∧
    poll h w' ≠ None ∧
    w_clock w <= w_clock w' <= w_clock w + g ∧
    w_files w' = delete (_pid_file self) (w_files w) ∧
    w_stdout w' = w_stdout w ++ ["Stopping SENSE server..."; "SENSE server stopped"].
Proof.
  intros Hh Hp Ha Hs Hg Hg' Hrm.
  pose proof (handle_alive_running _ _ _ _ Hh Hp Ha) as Hrun.
  unfold_stop. rewrite Hrun. cbn [negb]. cbv beta iota zeta. rewrite Hh.
  rewrite (send_signal_live h SIGTERM (log_stdout _ w) p Hp Ha), Hs.
  set (p' := signalled _ SIGTERM p).
  set (w1 := log_signal _ _ _).
  assert (w_procs w1 !! pid h = Some p') as Hp1 by apply lookup_insert_eq.
  assert (∃ d, p_exit_at p' = Some d ∧ w_clock w <= d ∧ d <= w_clock w + g)
    as (d & Hd & Hd1 & Hd2).
  { unfold p', signalled. cbn [w_clock log_stdout]. rewrite Hg.
    unfold alive_at in Ha. destruct (p_exit_at p) as [d'|] eqn:He.
    - apply Z.ltb_lt in Ha. destruct (Z.leb_spec d' (w_clock w + g)).
      + exists d'. rewrite He. split; [reflexivity|lia].
      + eexists. cbn [p_exit_at]. split; [reflexivity|]. lia.
    - eexists. cbn [p_exit_at]. split; [reflexivity|]. lia. }
  rewrite (wait_timeout_cases h T w1 p' Hp1).
  assert (alive_at (w_clock w1 + 1000 * Z.max 0 T) p' = false) as ->.
  { unfold alive_at. rewrite Hd. apply Z.ltb_ge.
    change (w_clock w1) with (w_clock w). lia. }
  rewrite Hd. cbv [default from_option id]. cbv beta iota zeta.
  match goal with
  | |- context [_remove_pid ?s ?w0] =>
      rewrite (remove_pid_ok s w0)
        by (destruct self as [port_ iface db pol sudo bm proc pf];
            cbn [_pid_file] in *; world_fields; exact Hrm)
  end.
  eexists. split; [destruct self as [port_ iface db pol sudo bm proc pf]; reflexivity|].
  split; [world_fields; reflexivity|]. split.
  { match goal with
    | |- poll h ?W' ≠ None =>
        match W' with
        | context [collect_child h ?W] =>
            rewrite (poll_frame h (collect_child h W) W' eq_refl eq_refl),
              poll_collect_child
        end
    end.
    unfold poll.
    cbn [w_procs w_clock set_files set_clock log_stdout log_signal set_procs].
    rewrite Hp1. unfold alive_at. rewrite Hd. change (w_clock w1) with (w_clock w).
    destruct (Z.ltb_spec (Z.max (w_clock w) d) d); [lia|intros Hx; discriminate Hx]. }
  split; [world_fields; change (w_clock w1) with (w_clock w); lia|]. split.
  { destruct self as [port_ iface db pol sudo bm proc pf]; world_fields;
      reflexivity. }
  world_fields.
  change (w_stdout w1) with (w_stdout w ++ ["Stopping SENSE server..."]).
  now rewrite <- app_assoc.
Qed.

Lemma stop_graceful_witness :
  ∃ w',
    stop 10 (held_server, orphan_world) = (Ok tt, (sample_server, w')) ∧
    w_signals w' = [(4242, SIGTERM)] ∧
    poll (Popen_ 4242) w' ≠ None ∧
    0 <= w_clock w' <= 100 ∧
    w_files w' = delete "/home/user/.senseai/server.pid" pid_file_4242.
Proof.
  destruct (stop_graceful held_server orphan_world 10 (Popen_ 4242)
              (sample_child None) 100 eq_refl eq_refl eq_refl eq_refl eq_refl
              ltac:(lia) (or_intror eq_refl))
    as (w' & Hstop & Hsig & Hpoll & Hclock & Hfiles & _).
  exists w'. split; [exact Hstop|]. split; [exact Hsig|].
  split; [exact Hpoll|]. split; [exact Hclock|exact Hfiles].
Defined.

Lemma signalled_signalable now sig p :
  p_signalable (signalled now sig p) = p_signalable p.
Proof.
  unfold signalled. destruct sig; [|reflexivity].
  destruct (p_term_grace p); [|reflexivity].
  destruct (p_exit_at p); [destruct (_ <=? _)|]; reflexivity.
Qed.

(** X15. [stop] on a supervisor whose child may be signalled and is
    still alive when the timeout has passed after SIGTERM: [stop] sends
    SIGTERM, waits the whole timeout, sends SIGKILL and returns normally.
    The child has exited with status -9 at that moment, the handle is
    dropped, the PID file is removed and the line about forcing the
    shutdown is printed between the other two. *)
Theorem stop_escalates self w T h p :
  process self = Some h → w_procs w !! pid h = Some p →
  p_signalable p = true →
  alive_at (w_clock w + 1000 * Z.max 0 T) (signalled (w_clock w) SIGTERM p) = true →
  w_files w !! _pid_file self = None ∨ unlink_ok (w_host w) (_pid_file self) = true →
  ∃ w' p',
    stop T (self, w) = (Ok tt, (holding (binary_manager self) None self, w')) ∧
    w_signals w' = w_signals w ++ [(pid h, SIGTERM); (pid h, SIGKILL)] ∧
    w_clock w' = w_clock w + 1000 * Z.max 0 T ∧
    w_procs w' !! pid h = Some p' ∧
    p_exit_at p' = Some (w_clock w') ∧ p_returncode p' = -9 ∧
    w_files w' = delete (_pid_file self) (w_files w) ∧
    w_stdout w' = w_stdout w ++
      ["Stopping SENSE server..."; "Forcing server shutdown...";
       "SENSE server stopped"].
Proof.
  intros Hh Hp Hs Hlate Hrm.
  assert (alive_at (w_clock w) p = true) as Ha.
  { assert (alive_at (w_clock w) (signalled (w_clock w) SIGTERM p) = true) as H
      by (apply alive_at_mono with (t' := w_clock w + 1000 * Z.max 0 T);
          [lia|exact Hlate]).
    revert H. unfold signalled, alive_at.
    destruct (p_term_grace p) as [g|]; [|easy].
    destruct (p_exit_at p) as [d'|] eqn:He; [|easy].
    destruct (Z.leb_spec d' (w_clock w + g)); [now rewrite He|].
    cbn [p_exit_at]. intros H1%Z.ltb_lt. apply Z.ltb_lt. lia. }
  pose proof (handle_alive_running _ _ _ _ Hh Hp Ha) as Hrun.
  unfold_stop. rewrite Hrun. cbn [negb]. cbv beta iota zeta. rewrite Hh.
  rewrite (send_signal_live h SIGTERM (log_stdout _ w) p Hp Ha), Hs.
  change (w_clock (log_stdout "Stopping SENSE server..." w)) with (w_clock w).
  set (p1 := signalled (w_clock w) SIGTERM p) in *.
  set (w1 := log_signal _ _ _).
  assert (w_procs w1 !! pid h = Some p1) as Hp1 by apply lookup_insert_eq.
  rewrite (wait_timeout_cases h T w1 p1 Hp1).
  change (w_clock w1) with (w_clock w). rewrite Hlate.
  cbn [find_clause existsb].
  change (isinstance (Exn TimeoutExpired "timed out") TimeoutExpired) with true.
  cbn [orb]. cbv beta iota zeta.
  set (t1 := w_clock w + 1000 * Z.max 0 T) in *.
  set (w2 := log_stdout "Forcing server shutdown..." (set_clock t1 w1)).
  assert (w_procs w2 !! pid h = Some p1) as Hp2 by exact Hp1.
  assert (p_signalable p1 = true) as Hs1
    by (unfold p1; now rewrite signalled_signalable).
  rewrite (send_signal_live h SIGKILL w2 p1 Hp2 Hlate), Hs1.
  change (w_clock w2) with t1.
  set (p2 := signalled t1 SIGKILL p1).
  set (w3 := log_signal _ SIGKILL _).
  assert (w_procs w3 !! pid h = Some p2) as Hp3 by apply lookup_insert_eq.
  assert (wait h None w3 = (Ok (-9), collect_child h (set_clock t1 w3))) as ->.
  { unfold wait. rewrite Hp3. cbn [p2 signalled p_exit_at p_returncode].
    change (w_clock w3) with t1. now rewrite Z.max_id. }
  match goal with
  | |- context [_remove_pid ?s ?w0] =>
      rewrite (remove_pid_ok s w0)
        by (destruct self as [port_ iface db pol sudo bm proc pf];
            cbn [_pid_file] in *; world_fields; exact Hrm)
  end.
  destruct (collect_child_lookup h (set_clock t1 w3) p2 Hp3)
    as (p' & Hp' & Hexit & Hrc).
  eexists. exists p'.
  split; [destruct self as [port_ iface db pol sudo bm proc pf]; reflexivity|].
  split; [world_fields; cbn; now rewrite <- app_assoc|].
  split; [world_fields; reflexivity|].
  split; [exact Hp'|].
  split; [rewrite Hexit; world_fields; reflexivity|].
  split; [rewrite Hrc; reflexivity|].
  split; [destruct self as [port_ iface db pol sudo bm proc pf]; world_fields;
          reflexivity|].
  world_fields. cbn. now rewrite <- !app_assoc.
Qed.

Lemma stop_escalates_witness :
  ∃ w' p',
    stop 10 (held_server, stubborn_world) = (Ok tt, (sample_server, w')) ∧
    w_signals w' = [(4242, SIGTERM); (4242, SIGKILL)] ∧
    w_clock w' = 10000 ∧
    w_procs w' !! 4242 = Some p' ∧ p_returncode p' = -9.
Proof.
  destruct (stop_escalates held_server stubborn_world 10 (Popen_ 4242)
              (Proc "sense" None 0 "" true true None true)
              eq_refl eq_refl eq_refl eq_refl (or_intror eq_refl))
    as (w' & p' & Hstop & Hsig & Hclock & Hp & _ & Hrc & _).
  exists w', p'. split; [exact Hstop|]. split; [exact Hsig|].
  split; [exact Hclock|]. split; [exact Hp|exact Hrc].
Defined.

(** X16. [stop] on a supervisor whose child is alive but may not be
    signalled (a backend started through sudo) raises [ServerError]: the
    [PermissionError] of [os.kill] is caught and wrapped, and the message
    is Failed to stop SENSE server: followed by the text of that error.
    The supervisor keeps the handle, and the world is as before but for
    one printed line: no signal was delivered and the PID file is still
    there. *)
Theorem stop_not_permitted self w T h p :
  process self = Some h → w_procs w !! pid h = Some p →
  alive_at (w_clock w) p = true → p_signalable p = false →
  stop T (self, w)
    = (Raise (stop_failed (Exn OSError "[Errno 1] Operation not permitted")),
       (self, log_stdout "Stopping SENSE server..." w)).
Proof.
  intros Hh Hp Ha Hs.
  pose proof (handle_alive_running _ _ _ _ Hh Hp Ha) as Hrun.
  unfold_stop. rewrite Hrun. cbn [negb]. cbv beta iota zeta. rewrite Hh.
  rewrite (send_signal_live h SIGTERM (log_stdout _ w) p Hp Ha), Hs.
  reflexivity.
Qed.

Lemma stop_not_permitted_witness :
  stop 10 (held_server, root_owned_world)
    = (Raise (Exn ServerError
                "Failed to stop SENSE server: [Errno 1] Operation not permitted"),
       (held_server, log_stdout "Stopping SENSE server..." root_owned_world)).
Proof.
  exact (stop_not_permitted held_server root_owned_world 10 (Popen_ 4242)
           (Proc "sudo" None 0 "" true false (Some 100) true)
           eq_refl eq_refl eq_refl eq_refl).
Defined.








(** ** Liveness and restart *)


Lemma send_signal_spawned h sig w r w' :
  send_signal h sig w = (r, w') →
  w_spawned w' = w_spawned w ∧ w_spawn w' = w_spawn w.
Proof.
  unfold send_signal. destruct (w_procs w !! pid h) as [p|]; [|now intros [= _ <-]].
  destruct (negb (alive_at _ _)); [now intros [= _ <-]|].
  destruct (negb (p_signalable p)); now intros [= _ <-].
Qed.

Lemma wait_spawned h t w r w' :
  wait h t w = (r, w') → w_spawned w' = w_spawned w ∧ w_spawn w' = w_spawn w.
Proof.
  unfold wait. destruct (w_procs w !! pid h) as [p|]; [|now intros [= _ <-]].
  destruct (p_exit_at p), t; try destruct (_ <=? _); intros [= _ <-];
    collect_fields; now split.
Qed.

Lemma remove_pid_spawned self w r w' :
  _remove_pid self w = (r, w') →
  w_spawned w' = w_spawned w ∧ w_spawn w' = w_spawn w.
Proof.
  cbv [_remove_pid get_state mbind M_bind mret M_ret unlink].
  destruct (path_exists w _); [|now intros [= _ <-]].
  destruct (w_files w !! _pid_file self); [|now intros [= _ <-]].
  destruct (unlink_ok _ _); now intros [= _ <-].
Qed.

Ltac spawned_done :=
  cbn [fst snd w_spawned w_spawn log_stdout] in *; split; congruence.

Lemma stop_spawns_nothing self w T :
  w_spawned (stop T (self, w)).2.2 = w_spawned w ∧
  w_spawn (stop T (self, w)).2.2 = w_spawn w.
Proof.
  unfold_stop.
  destruct (is_running self w) as [[]|e|]; cbn [negb]; [|now split..].
  cbv beta iota zeta.
  destruct (process self) as [h|].
  2:{ destruct (_remove_pid self w) as [[[]|e|] w3] eqn:E3;
        apply remove_pid_spawned in E3 as [? ?];
        [|wrap_exception|]; spawned_done. }
  cbn [log_stdout].
  destruct (send_signal h SIGTERM _) as [[[]|e|] w1] eqn:E1;
    apply send_signal_spawned in E1 as [? ?];
    [| wrap_exception; spawned_done | spawned_done].
  destruct (wait h (Some T) w1) as [[rc|e|] w2] eqn:E2;
    apply wait_spawned in E2 as [? ?]; [| |spawned_done].
  - destruct (_remove_pid _ _) as [[[]|e|] w3] eqn:E3;
      apply remove_pid_spawned in E3 as [? ?];
      [|wrap_exception|]; spawned_done.
  - cbn [find_clause existsb]. rewrite orb_false_r.
    destruct (isinstance e TimeoutExpired); [|wrap_exception; spawned_done].
    destruct (send_signal h SIGKILL _) as [[[]|e'|] w3] eqn:E3;
      apply send_signal_spawned in E3 as [? ?];
      [| wrap_exception; spawned_done | spawned_done].
    destruct (wait h None w3) as [[rc|e'|] w4] eqn:E4;
      apply wait_spawned in E4 as [? ?];
      [| wrap_exception; spawned_done | spawned_done].
    destruct (_remove_pid _ _) as [[[]|e'|] w5] eqn:E5;
      apply remove_pid_spawned in E5 as [? ?];
      [|wrap_exception|]; spawned_done.
Qed.

(** X21. [restart] stops with a timeout of 10 seconds whatever its own
    timeout, pauses one second and starts with waiting. On a supervisor
    that is not running it is [start] one second later. When [stop]
    raises, [restart] raises the same exception in the same state, and
    nothing has been spawned. *)
Theorem restart_sequence self w T :
  (is_running self w = Ok false →
   restart T (self, w) = start true T (self, set_clock (w_clock w + 1000) w)) ∧
  (∀ st, stop 10 (self, w) = (Ok tt, st) →
     restart T (self, w)
       = start true T (st.1, set_clock (w_clock st.2 + 1000) st.2)) ∧
  (∀ e st, stop 10 (self, w) = (Raise e, st) →
     restart T (self, w) = (Raise e, st) ∧
     w_spawned st.2 = w_spawned w ∧ w_spawn st.2 = w_spawn w).
Proof.
  split; [|split].
  - intros Hrun. unfold restart. cbv [mbind M_bind].
    rewrite (stop_not_running _ _ _ Hrun). reflexivity.
  - intros [s1 w1] Hstop. unfold restart. cbv [mbind M_bind].
    rewrite Hstop. reflexivity.
  - intros e [s1 w1] Hstop. unfold restart. cbv [mbind M_bind].
    rewrite Hstop. split; [reflexivity|].
    pose proof (stop_spawns_nothing self w 10) as H. now rewrite Hstop in H.
Qed.

(** ** Status *)

Lemma get_status_cases cpu mem self w :
  get_status cpu mem self w =
    running ← is_running self w;
    if (running : bool) then
      read ← _read_pid self w;
      match known_pid read self with
      | Some n =>
          if n =? 0 then Ok (base_status self true)
          else if n <? 0 then Raise (bad_pid n)
          else
            match pid_lookup (polled self w) n with
            | None => Ok (base_status self true)
            | Some p =>
                let s1 := <["pid" := JInt n]> (base_status self true) in
                match cpu p with
                | Ok c =>
                    let s2 := <["cpu_percent" := c]> s1 in
                    match mem p with
                    | Ok m => Ok (<["memory_mb" := m]> s2)
                    | Raise e => if process_gone e then Ok s2 else Raise e
                    | Hang => Hang
                    end
                | Raise e => if process_gone e then Ok s1 else Raise e
                | Hang => Hang
                end
            end
      | None => Ok (base_status self true)
      end
    else Ok (base_status self false).
Proof.
  unfold get_status.
  destruct (is_running self w) as [[]| |]; try reflexivity.
  cbn [mbind res_bind].
  destruct (_read_pid self w) as [read| |]; try reflexivity.
  cbn [mbind res_bind].
  destruct (known_pid read self) as [n|]; [|reflexivity].
  destruct (n =? 0); [reflexivity|]. cbn [negb].
  cbv [try_except mbind M_bind mret M_ret ask dict_set modify_state psutil_Process].
  destruct (n <? 0); [reflexivity|].
  destruct (pid_lookup (polled self w) n) as [p|]; [|reflexivity].
  destruct (cpu p) as [c|e|]; [| |reflexivity].
  - destruct (mem p) as [m|e|]; [reflexivity| |reflexivity].
    cbn [find_clause existsb]. unfold process_gone. rewrite orb_false_r.
    destruct (isinstance e NoSuchProcess || isinstance e AccessDenied); reflexivity.
  - cbn [find_clause existsb]. unfold process_gone. rewrite orb_false_r.
    destruct (isinstance e NoSuchProcess || isinstance e AccessDenied); reflexivity.
Qed.

Ltac status_facts :=
  repeat match goal with
         | |- _ ∧ _ => split
         | |- ∀ _, _ => intro
         | |- _ → _ => intro
         end;
  unfold base_status in *; simplify_map_eq; eauto.

(** X22. Every status [get_status] returns has the four entries
    running, port, interface and db_path, with the verdict of
    [is_running] and the configured values. When the verdict is [False]
    it has no other entry. An entry pid holds a non-zero PID that names a
    process the system knows and that comes from the PID file or, when
    the file gives none, from the handle. An entry cpu_percent comes only
    with pid, and memory_mb only with cpu_percent. *)
Theorem get_status_fields cpu mem self w status :
  get_status cpu mem self w = Ok status →
  ∃ running,
    is_running self w = Ok running ∧
    status !! "running" = Some (JBool running) ∧
    status !! "port" = Some (JInt (port self)) ∧
    status !! "interface" = Some (JStr (interface self)) ∧
    status !! "db_path" = Some (JStr (db_path self)) ∧
    (running = false → status = base_status self false) ∧
    (∀ v, status !! "pid" = Some v →
       ∃ n read, v = JInt n ∧ n ≠ 0 ∧ is_Some (w_procs w !! n) ∧
                 _read_pid self w = Ok read ∧ known_pid read self = Some n) ∧
    (is_Some (status !! "cpu_percent") → is_Some (status !! "pid")) ∧
    (is_Some (status !! "memory_mb") → is_Some (status !! "cpu_percent")).
Proof.
  rewrite get_status_cases.
  destruct (is_running self w) as [[]| |]; cbn [mbind res_bind];
    try (intros H; discriminate H).
  2:{ intros [= <-]. exists false. status_facts. }
  destruct (_read_pid self w) as [read| |]; cbn [mbind res_bind];
    try (intros H; discriminate H).
  destruct (known_pid read self) as [n|] eqn:Hk.
  2:{ intros [= <-]. exists true. status_facts; discriminate. }
  destruct (Z.eqb_spec n 0) as [Hn|Hn].
  { intros [= <-]. exists true. status_facts; discriminate. }
  destruct (n <? 0); [intros H; discriminate H|].
  destruct (pid_lookup (polled self w) n) as [p|] eqn:Hp.
  2:{ intros [= <-]. exists true. status_facts; discriminate. }
  apply pid_lookup_polled_inv in Hp as [Hp _].
  cbv zeta.
  assert (∀ v, Some (JInt n) = Some v →
            ∃ n0 read0, v = JInt n0 ∧ n0 ≠ 0 ∧ is_Some (w_procs w !! n0) ∧
                        Ok read = Ok read0 ∧ known_pid read0 self = Some n0) as Hpid.
  { intros v [= <-]. exists n, read. rewrite Hp. eauto 10. }
  destruct (cpu p) as [c|e|]; [| |intros H; discriminate H].
  - destruct (mem p) as [m|e|]; [| |intros H; discriminate H].
    + intros [= <-]. exists true. status_facts; discriminate.
    + destruct (process_gone e); [|intros H; discriminate H].
      intros [= <-]. exists true. status_facts; discriminate.
  - destruct (process_gone e); [|intros H; discriminate H].
    intros [= <-]. exists true. status_facts; discriminate.
Qed.

(** X23. [get_status] when the supervisor is running and the known PID
    is positive and names a process that psutil finds (one that runs, or
    a zombie other than the child of the handle, which the poll of
    [is_running] has collected). If both metrics can be read, the status
    has pid,
    cpu_percent and memory_mb. If reading a metric raises
    [NoSuchProcess] or [AccessDenied], the status is returned with the
    entries set so far: pid alone, or pid and cpu_percent. Any other
    exception of the CPU reading leaves [get_status]. *)
Theorem get_status_metrics cpu mem self w read n p :
  is_running self w = Ok true → _read_pid self w = Ok read →
  known_pid read self = Some n → 0 < n →
  pid_lookup (polled self w) n = Some p →
  let s1 := <["pid" := JInt n]> (base_status self true) in
  (∀ c m, cpu p = Ok c → mem p = Ok m →
     get_status cpu mem self w
       = Ok (<["memory_mb" := m]> (<["cpu_percent" := c]> s1))) ∧
  (∀ e, cpu p = Raise e → process_gone e = true →
     get_status cpu mem self w = Ok s1) ∧
  (∀ c e, cpu p = Ok c → mem p = Raise e → process_gone e = true →
     get_status cpu mem self w = Ok (<["cpu_percent" := c]> s1)) ∧
  (∀ e, cpu p = Raise e → process_gone e = false →
     get_status cpu mem self w = Raise e).
Proof.
  intros Hrun Hread Hk Hn Hp. cbv zeta. rewrite get_status_cases, Hrun.
  cbn [mbind res_bind]. rewrite Hread. cbn [mbind res_bind]. rewrite Hk, Hp.
  destruct (Z.eqb_spec n 0) as [|_]; [lia|].
  destruct (Z.ltb_spec n 0) as [|_]; [lia|].
  cbv zeta. split; [|split; [|split]].
  - now intros c m -> ->.
  - now intros e -> ->.
  - now intros c e -> -> ->.
  - now intros e -> ->.
Qed.

Lemma get_status_fields_witness :
  ∃ status,
    get_status idle idle sample_server orphan_world = Ok status ∧
    status !! "running" = Some (JBool true) ∧
    status !! "port" = Some (JInt 9999).
Proof.
  eexists. split; [reflexivity|].
  destruct (get_status_fields idle idle sample_server orphan_world _ eq_refl)
    as (running & Hrun & Hr & Hport & _).
  injection Hrun as <-. split; [exact Hr|exact Hport].
Defined.

Lemma get_status_metrics_witness :
  get_status denied idle held_server orphan_world
    = Ok (<["pid" := JInt 4242]> (base_status held_server true)).
Proof.
  apply (proj1 (proj2 (get_status_metrics denied idle held_server orphan_world
                         (Some 4242) 4242 (sample_child None)
                         eq_refl eq_refl eq_refl eq_refl eq_refl))
           (Exn AccessDenied "access denied")); reflexivity.
Defined.

(** ** The PID file and the command line *)

Module PyStrSpaces.
Import PyStr PyStrFacts.

Lemma lstrip_spaces pre t :
  all_chars is_space pre = true → lstrip (pre +:+ t) = lstrip t.
Proof.
  induction pre as [|c pre IH]; [reflexivity|].
  cbn [all_chars]. intros [Hc Hpre]%andb_true_iff.
  change (String c pre +:+ t) with (String c (pre +:+ t)).
  cbn [lstrip]. rewrite Hc. now apply IH.
Qed.

Lemma rstrip_all_spaces post :
  all_chars is_space post = true → rstrip post = "".
Proof.
  induction post as [|c post IH]; [reflexivity|].
  cbn [all_chars]. intros [Hc Hpost]%andb_true_iff.
  cbn [rstrip]. now rewrite IH, Hc.
Qed.

Lemma rstrip_spaces t post :
  all_chars is_space post = true → rstrip (t +:+ post) = rstrip t.
Proof.
  intros Hpost. induction t as [|c t IH].
  - change ("" +:+ post) with post. now rewrite rstrip_all_spaces.
  - change (String c t +:+ post) with (String c (t +:+ post)).
    cbn [rstrip]. now rewrite IH.
Qed.

Lemma lstrip_all_spaces s : all_chars is_space s = true → lstrip s = "".
Proof.
  induction s as [|c s IH]; [reflexivity|].
  cbn [all_chars]. intros [Hc Hs]%andb_true_iff.
  cbn [lstrip]. now rewrite Hc, IH.
Qed.

Lemma strip_spaces pre t post :
  all_chars is_space pre = true → all_chars is_space post = true →
  strip (pre +:+ t +:+ post) = strip t.
Proof.
  intros Hpre Hpost. unfold strip. rewrite (lstrip_spaces _ _ Hpre).
  induction t as [|c t IH].
  - change ("" +:+ post) with post. now rewrite (lstrip_all_spaces _ Hpost).
  - change (String c t +:+ post) with (String c (t +:+ post)).
    cbn [lstrip]. destruct (is_space c); [exact IH|].
    change (String c (t +:+ post)) with (String c t +:+ post).
    now apply rstrip_spaces.
Qed.

Lemma int_spaces pre t post :
  all_chars is_space pre = true → all_chars is_space post = true →
  int (pre +:+ t +:+ post) = int t.
Proof.
  intros Hpre Hpost. unfold int. now rewrite (strip_spaces _ _ _ Hpre Hpost).
Qed.

End PyStrSpaces.

(** X24. White space around the text of the PID file makes no
    difference to [_read_pid]: in particular a file that holds the
    decimal form of [n] between blanks or line ends reads as [n]. *)
Theorem read_pid_ignores_whitespace self w mode pre s post :
  w_files w !! _pid_file self = Some (File mode (Some (pre +:+ s +:+ post))) →
  PyStr.all_chars PyStr.is_space pre = true →
  PyStr.all_chars PyStr.is_space post = true →
  _read_pid self w = Ok (PyStr.int s) ∧
  (∀ n, s = PyStr.str n → _read_pid self w = Ok (Some n)).
Proof.
  intros Hf Hpre Hpost.
  rewrite (read_pid_text _ _ _ _ Hf), (PyStrSpaces.int_spaces _ _ _ Hpre Hpost).
  split; [reflexivity|]. intros n ->. now rewrite PyStrFacts.int_str.
Qed.

Lemma read_pid_ignores_whitespace_witness :
  _read_pid sample_server
    (set_files {[ "/home/user/.senseai/server.pid" :=
                    File 420 (Some (" " +:+ "4242" +:+ newline)) ]} empty_world)
  = Ok (Some 4242).
Proof.
  refine (proj2 (read_pid_ignores_whitespace sample_server _ 420 " " "4242"
                   newline _ _ _) 4242 _); reflexivity.
Defined.

(** X25. [_remove_pid] never blocks. When it returns, the PID file is
    gone, nothing else has changed and [_read_pid] gives [None]; this
    includes the case where there was no file. When it raises, the file
    exists and may not be removed, the exception is an [OSError] and the
    world is unchanged. *)
Theorem remove_pid_clears self w r w' :
  _remove_pid self w = (r, w') →
  r ≠ Hang ∧
  (r = Ok tt →
     w' = set_files (delete (_pid_file self) (w_files w)) w ∧
     _read_pid self w' = Ok None) ∧
  (∀ e, r = Raise e →
     w' = w ∧ is_Some (w_files w !! _pid_file self) ∧
     unlink_ok (w_host w) (_pid_file self) = false ∧
     exn_class_of e = OSError).
Proof.
  cbv [_remove_pid get_state mbind M_bind mret M_ret unlink path_exists].
  destruct (w_files w !! _pid_file self) as [f|] eqn:Hf.
  - rewrite bool_decide_eq_true_2 by eauto. rewrite Hf.
    destruct (unlink_ok _ _) eqn:Hu; intros [= <- <-].
    + split; [intros H; discriminate H|]. split; [|intros e H; discriminate H].
      intros _. split; [reflexivity|].
      unfold _read_pid, path_exists. cbn [w_files set_files].
      rewrite lookup_delete_eq, bool_decide_eq_false_2; [reflexivity|].
      now intros [? ?].
    + split; [intros H; discriminate H|]. split; [intros H; discriminate H|].
      intros e [= <-]. eauto.
  - rewrite bool_decide_eq_false_2 by (now intros [? ?]). intros [= <- <-].
    split; [intros H; discriminate H|]. split; [|intros e H; discriminate H].
    intros _. rewrite delete_id by exact Hf. split; [now destruct w|].
    unfold _read_pid, path_exists.
    rewrite bool_decide_eq_false_2; [reflexivity|]. rewrite Hf. now intros [? ?].
Qed.

Lemma remove_pid_clears_witness :
  ∃ w', _remove_pid sample_server orphan_world = (Ok tt, w') ∧
        _read_pid sample_server orphan_world = Ok (Some 4242) ∧
        _read_pid sample_server w' = Ok None.
Proof.
  eexists. split; [reflexivity|]. split; [reflexivity|].
  apply (proj1 (proj2 (remove_pid_clears sample_server orphan_world _ _ eq_refl))
           eq_refl).
Defined.

(** X26. The command line of a supervisor made by the constructor:
    sudo first if asked for, then the binary, the port, the interface,
    the database and always the policies file, the defaults standing in
    for a database or policies path that is missing or empty. *)
Theorem command_line_of_init w port_ iface db pol sudo bp :
  command_line (SenseServer_init w port_ iface db pol sudo) bp =
    (if sudo then ["sudo"] else []) ++
    [bp; "--port"; PyStr.str port_; "--interface"; iface;
     "--db"; str_or db "/tmp/sense.db";
     "--policies"; str_or pol "policies.yaml"].
Proof.
  unfold command_line, SenseServer_init.
  cbn [use_sudo port interface db_path policy_file].
  assert (String.eqb (str_or pol "policies.yaml") "" = false) as ->.
  { destruct pol as [[|c s]|]; reflexivity. }
  reflexivity.
Qed.

(** * Further properties of the binary manager *)

Lemma S_IXALL_bits i :
  0 <= i → Z.testbit S_IXALL i = (i =? 0) || (i =? 3) || (i =? 6).
Proof.
  intros Hi. destruct (Z.ltb_spec i 7) as [Hlt|Hge].
  - assert (i = 0 ∨ i = 1 ∨ i = 2 ∨ i = 3 ∨ i = 4 ∨ i = 5 ∨ i = 6)
      as [->|[->|[->|[->|[->|[->| ->]]]]]] by lia; reflexivity.
  - rewrite Z.bits_above_log2; [|vm_compute; discriminate|change (Z.log2 S_IXALL) with 6; lia].
    destruct (Z.eqb_spec i 0), (Z.eqb_spec i 3), (Z.eqb_spec i 6); try lia; reflexivity.
Qed.

Lemma make_executable_run path w :
  _make_executable path w =
    if String.eqb (sys_platform (w_host w)) "win32" then (Ok tt, w)
    else
      match w_files w !! path with
      | None => (Raise (Exn OSError ("no such file " +:+ path)), w)
      | Some f =>
          if chmod_ok (w_host w) path then
            (Ok tt,
             set_files (<[path := File (Z.lor (f_mode f) S_IXALL) (f_text f)]>
                          (w_files w)) w)
          else (Raise (Exn OSError ("cannot change mode of " +:+ path)), w)
      end.
Proof.
  cbv [_make_executable get_state mbind M_bind mret M_ret raise modify_state].
  destruct (String.eqb _ _); cbn [negb]; [reflexivity|].
  destruct (w_files w !! path); [|reflexivity].
  destruct (chmod_ok _ _); reflexivity.
Qed.

Lemma make_executable_twice path w w' :
  _make_executable path w = (Ok tt, w') → _make_executable path w' = (Ok tt, w').
Proof.
  rewrite !make_executable_run.
  destruct (String.eqb (sys_platform (w_host w)) "win32") eqn:Hwin.
  { intros [= <-]. now rewrite Hwin. }
  destruct (w_files w !! path) as [f|] eqn:Hf; [|intros H; discriminate H].
  destruct (chmod_ok (w_host w) path) eqn:Hch; [|intros H; discriminate H].
  intros [= <-]. cbn [w_host w_files set_files]. rewrite Hwin, Hch.
  rewrite lookup_insert_eq. cbn [f_mode f_text].
  rewrite insert_insert_eq, <- Z.lor_assoc, Z.lor_diag. reflexivity.
Qed.

(** X27. [_make_executable] does nothing on win32. Elsewhere, when it
    returns, the file existed, its text is unchanged, its mode has gained
    exactly the three execute bits (bits 0, 3 and 6) and kept every bit
    it had, no other file has changed, and a second call changes
    nothing. *)
Theorem make_executable_bits path w :
  (sys_platform (w_host w) = "win32" → _make_executable path w = (Ok tt, w)) ∧
  (sys_platform (w_host w) ≠ "win32" →
   ∀ w', _make_executable path w = (Ok tt, w') →
     ∃ f f',
       w_files w !! path = Some f ∧ w_files w' !! path = Some f' ∧
       f_text f' = f_text f ∧
       (∀ i, 0 <= i →
          Z.testbit (f_mode f') i
            = Z.testbit (f_mode f) i || (i =? 0) || (i =? 3) || (i =? 6)) ∧
       (∀ q, q ≠ path → w_files w' !! q = w_files w !! q) ∧
       _make_executable path w' = (Ok tt, w')).
Proof.
  split.
  - intros Hwin. rewrite make_executable_run, Hwin. reflexivity.
  - intros Hwin w' Hrun. pose proof (make_executable_twice _ _ _ Hrun) as Htwice.
    rewrite make_executable_run in Hrun.
    destruct (String.eqb_spec (sys_platform (w_host w)) "win32"); [contradiction|].
    destruct (w_files w !! path) as [f|] eqn:Hf; [|discriminate Hrun].
    destruct (chmod_ok (w_host w) path); [|discriminate Hrun].
    injection Hrun as <-. cbn [w_files set_files].
    exists f, (File (Z.lor (f_mode f) S_IXALL) (f_text f)).
    split; [reflexivity|]. split; [apply lookup_insert_eq|].
    split; [reflexivity|]. split.
    + intros i Hi. cbn [f_mode]. rewrite Z.lor_spec, (S_IXALL_bits i Hi).
      now rewrite !orb_assoc.
    + split; [|exact Htwice]. intros q Hq. now apply lookup_insert_ne.
Qed.

Lemma make_executable_bits_witness :
  ∃ f', w_files (_make_executable "/opt/sense-ai/sense"
                   (set_files {[ "/opt/sense-ai/sense" := File 420 None ]} empty_world)).2
          !! "/opt/sense-ai/sense" = Some f' ∧
        f_mode f' = 493.
Proof.
  destruct (proj2 (make_executable_bits "/opt/sense-ai/sense"
                     (set_files {[ "/opt/sense-ai/sense" := File 420 None ]} empty_world))
              ltac:(discriminate) _ eq_refl)
    as (f & f' & Hf & Hf' & _).
  exists f'. split; [exact Hf'|].
  cbn in Hf'. now injection Hf' as <-.
Defined.

Lemma make_executable_keeps path w w' :
  _make_executable path w = (Ok tt, w') →
  (∀ q, path_exists w q = true → path_exists w' q = true) ∧
  w_host w' = w_host w ∧ w_stdout w' = w_stdout w.
Proof.
  rewrite make_executable_run.
  destruct (String.eqb _ _); [now intros [= <-]|].
  destruct (w_files w !! path) as [f|] eqn:Hf; [|intros H; discriminate H].
  destruct (chmod_ok _ _); [|intros H; discriminate H].
  intros [= <-]. split; [|now split]. intros q Hq. unfold path_exists in *.
  cbn [w_files set_files]. apply bool_decide_eq_true in Hq.
  apply bool_decide_eq_true. destruct (decide (q = path)) as [->|Hne].
  - rewrite lookup_insert_eq. eauto.
  - now rewrite lookup_insert_ne.
Qed.

Lemma download_binary_run bm w :
  _download_binary bm w =
    match get_cache_dir w with
    | (Ok d, _) =>
        let p := download_target w d in
        let url := download_url bm w in
        let wl := log_stdout ("Downloading SENSE binary from " +:+ url +:+ "...") w in
        match urlretrieve (w_host w) url with
        | Raise e =>
            if isinstance e Exception then
              (Raise (Exn BinaryNotFoundError
                        ("Failed to download binary from " +:+ url +:+ ". "
                         +:+ "You may need to build the binary manually. Error: "
                         +:+ exn_str e)), wl)
            else (Raise e, wl)
        | Hang => (Hang, wl)
        | Ok _ =>
            let fresh := File (new_file_mode (w_host w)) None in
            let w0 := set_files (<[p := fresh]> (w_files w)) wl in
            if String.eqb (sys_platform (w_host w)) "win32" then
              (Ok p, log_stdout ("Binary downloaded to " +:+ p) w0)
            else if chmod_ok (w_host w) p then
              (Ok p,
               log_stdout ("Binary downloaded to " +:+ p)
                 (set_files
                    (<[p := File (Z.lor (new_file_mode (w_host w)) S_IXALL) None]>
                       (w_files w)) wl))
            else (Raise (Exn OSError ("cannot change mode of " +:+ p)), w0)
        end
    | (Raise e, _) => (Raise e, w)
    | (Hang, _) => (Hang, w)
    end.
Proof.
  cbv [_download_binary get_state mbind M_bind mret M_ret raise modify_state
       print try_except]. unfold download_target.
  destruct (get_platform_info _ _) as [os_name arch] eqn:Hpl. cbn [fst].
  destruct (get_cache_dir w) as [[d|e|] w1] eqn:Hc;
    pose proof (get_cache_dir_world _ _ _ Hc) as ->; try reflexivity.
  cbn [w_host log_stdout]. cbv zeta.
  destruct (urlretrieve _ _) as [[]|e|] eqn:Hu.
  2:{ cbn [find_clause existsb]. rewrite orb_false_r.
      destruct (isinstance e Exception); reflexivity. }
  2:{ reflexivity. }
  rewrite make_executable_run. cbn [w_host w_files set_files log_stdout].
  destruct (String.eqb (sys_platform (w_host w)) "win32"); [reflexivity|].
  rewrite lookup_insert_eq. cbn [f_mode f_text].
  destruct (chmod_ok _ _); [|reflexivity].
  now rewrite insert_insert_eq.
Qed.

Lemma download_binary_ok bm w p w' :
  _download_binary bm w = (Ok p, w') →
  ∃ d,
    get_cache_dir w = (Ok d, w) ∧ p = download_target w d ∧
    path_exists w' p = true ∧
    (∀ q, q ≠ p → w_files w' !! q = w_files w !! q) ∧
    w_host w' = w_host w ∧
    _make_executable p w' = (Ok tt, w') ∧
    w_stdout w' = w_stdout w ++
      ["Downloading SENSE binary from " +:+ download_url bm w +:+ "...";
       "Binary downloaded to " +:+ p].
Proof.
  rewrite download_binary_run.
  destruct (get_cache_dir w) as [[d|e|] w1] eqn:Hc;
    [|intros H; discriminate H..].
  pose proof (get_cache_dir_world _ _ _ Hc) as ->.
  cbv zeta. destruct (urlretrieve _ _) as [[]|e|].
  2:{ destruct (isinstance e Exception); intros H; discriminate H. }
  2:{ intros H; discriminate H. }
  destruct (String.eqb (sys_platform (w_host w)) "win32") eqn:Hwin.
  - intros [= <- <-]. exists d. split; [reflexivity|]. split; [reflexivity|].
    split.
    { unfold path_exists. cbn [w_files set_files log_stdout].
      apply bool_decide_eq_true. rewrite lookup_insert_eq. eauto. }
    split.
    { intros q Hq. cbn [w_files set_files log_stdout]. now apply lookup_insert_ne. }
    split; [reflexivity|]. split.
    { rewrite make_executable_run. cbn [w_host set_files log_stdout].
      now rewrite Hwin. }
    cbn [w_stdout set_files log_stdout]. now rewrite <- app_assoc.
  - destruct (chmod_ok (w_host w) (download_target w d)) eqn:Hch;
      [|intros H; discriminate H].
    intros [= <- <-]. exists d. split; [reflexivity|]. split; [reflexivity|].
    split.
    { unfold path_exists. cbn [w_files set_files log_stdout].
      apply bool_decide_eq_true. rewrite lookup_insert_eq. eauto. }
    split.
    { intros q Hq. cbn [w_files set_files log_stdout]. now apply lookup_insert_ne. }
    split; [reflexivity|]. split.
    { rewrite make_executable_run. cbn [w_host w_files set_files log_stdout].
      rewrite Hwin, lookup_insert_eq, Hch. cbn [f_mode f_text].
      now rewrite insert_insert_eq, <- Z.lor_assoc, Z.lor_diag. }
    cbn [w_stdout set_files log_stdout]. now rewrite <- app_assoc.
Qed.

Lemma download_binary_creates bm w p w' :
  _download_binary bm w = (Ok p, w') → path_exists w' p = true.
Proof. now intros (d & _ & _ & H & _)%download_binary_ok. Qed.

(** X28. A path [get_binary_path] has returned is remembered by the
    manager, and the next call returns the same path and changes
    nothing: nothing is downloaded or printed again. *)
Theorem get_binary_path_stable bm w p bm' w' :
  get_binary_path (bm, w) = (Ok p, (bm', w')) →
  _binary_path bm' = Some p ∧
  get_binary_path (bm', w') = (Ok p, (bm', w')).
Proof.
  destruct (memo_hit bm w) as [p0|] eqn:Hm.
  { rewrite (get_binary_path_memo _ _ _ Hm). intros [= <- <- <-].
    split; [|now apply get_binary_path_memo].
    unfold memo_hit in Hm. destruct (_binary_path bm) as [q|]; [|discriminate Hm].
    destruct (path_exists w q); now inversion Hm. }
  rewrite (get_binary_path_miss _ _ Hm).
  assert (∀ q w1, path_exists w1 q = true →
            _binary_path (remember q bm) = Some q ∧
            get_binary_path (remember q bm, w1) = (Ok q, (remember q bm, w1)))
    as Hhit.
  { intros q w1 Hq. split; [reflexivity|]. apply get_binary_path_memo.
    unfold memo_hit. cbn [remember _binary_path]. now rewrite Hq. }
  destruct (_find_in_path w) as [p1|] eqn:H1.
  { intros [= <- <- <-]. split; [reflexivity|].
    destruct (memo_hit (remember p1 bm) w) as [q|] eqn:Hm2.
    - unfold memo_hit in Hm2. cbn [remember _binary_path] in Hm2.
      destruct (path_exists w p1) eqn:He; [|discriminate Hm2].
      now apply Hhit.
    - rewrite (get_binary_path_miss _ _ Hm2), H1. reflexivity. }
  cbv zeta. destruct (path_exists w _) eqn:H2.
  { intros [= <- <- <-]. now apply Hhit. }
  destruct (get_cache_dir w) as [[d|e|] w1] eqn:H3; [|intros H; discriminate H..].
  cbv zeta. destruct (path_exists w (path_join d BINARY_NAME)) eqn:H4.
  - destruct (_make_executable _ w) as [[[]|e|] w2] eqn:H5;
      [|intros H; discriminate H..].
    intros [= <- <- <-]. apply Hhit.
    now apply (proj1 (make_executable_keeps _ _ _ H5)).
  - destruct (_download_binary bm w) as [[q|e|] w2] eqn:H5.
    + intros [= <- <- <-]. apply Hhit. exact (download_binary_creates _ _ _ _ H5).
    + destruct (isinstance e Exception); intros H; discriminate H.
    + intros H; discriminate H.
Qed.

Lemma get_binary_path_stable_witness :
  let st := (get_binary_path (BinaryManager_init "latest",
                              set_files dev_files empty_world)).2 in
  get_binary_path st = (Ok "/opt/sense-ai/sense", st).
Proof.
  cbv zeta.
  exact (proj2 (get_binary_path_stable (BinaryManager_init "latest")
                  (set_files dev_files empty_world) "/opt/sense-ai/sense" _ _
                  eq_refl)).
Defined.

(** X29. [verify_binary] answers [True] exactly when the binary
    resolves and running it with --help gives return code 0. A failure
    to resolve the binary, or an [Exception] raised by running it, gives
    [False]; the only exception that can leave [verify_binary] is a
    [KeyboardInterrupt]. *)
Theorem verify_binary_answers run_help bm w :
  let r := (verify_binary run_help (bm, w)).1 in
  (r = Ok true ↔
   ∃ p, (get_binary_path (bm, w)).1 = Ok p ∧ run_help p = Ok 0) ∧
  (∀ e, (get_binary_path (bm, w)).1 = Raise e → isinstance e Exception = true →
        r = Ok false) ∧
  (∀ p e, (get_binary_path (bm, w)).1 = Ok p → run_help p = Raise e →
          isinstance e Exception = true → r = Ok false) ∧
  (∀ e, r = Raise e → exn_class_of e = KeyboardInterrupt).
Proof.
  cbv zeta.
  cbv [verify_binary try_except mbind M_bind mret M_ret ask].
  destruct (get_binary_path (bm, w)) as [[p|e|] st]; cbn [fst] in *.
  3:{ split; [|split; [|split]].
      - split; [intros H; discriminate H|]. intros (p' & H & _). discriminate H.
      - intros e H; discriminate H.
      - intros p' e H; discriminate H.
      - intros e H; discriminate H. }
  - destruct (run_help p) as [rc|e|] eqn:Hr.
    + cbn [fst]. split; [|split; [|split]].
      * split.
        -- intros [= H]. exists p. split; [reflexivity|].
           rewrite Hr. f_equal. now apply Z.eqb_eq.
        -- intros (p' & [= <-] & Hp). rewrite Hr in Hp. injection Hp as ->.
           reflexivity.
      * intros e H; discriminate H.
      * intros p' e [= <-] H. rewrite Hr in H. discriminate H.
      * intros e H; discriminate H.
    + cbn [find_clause existsb]. rewrite orb_false_r.
      destruct (isinstance e Exception) eqn:He; cbn [fst].
      * split; [|split; [|split]].
        -- split; [intros H; discriminate H|].
           intros (p' & [= <-] & Hp). rewrite Hr in Hp. discriminate Hp.
        -- intros e' H; discriminate H.
        -- reflexivity.
        -- intros e' H; discriminate H.
      * split; [|split; [|split]].
        -- split; [intros H; discriminate H|].
           intros (p' & [= <-] & Hp). rewrite Hr in Hp. discriminate Hp.
        -- intros e' H; discriminate H.
        -- intros p' e' [= <-] H. rewrite Hr in H. injection H as <-.
           intros H. rewrite He in H. discriminate H.
        -- intros e' [= <-]. now apply not_exception_class.
    + cbn [fst]. split; [|split; [|split]].
      * split; [intros H; discriminate H|].
        intros (p' & [= <-] & Hp). rewrite Hr in Hp. discriminate Hp.
      * intros e H; discriminate H.
      * intros p' e [= <-] H. rewrite Hr in H. discriminate H.
      * intros e H; discriminate H.
  - cbn [find_clause existsb]. rewrite orb_false_r.
    destruct (isinstance e Exception) eqn:He; cbn [fst].
    + split; [|split; [|split]].
      * split; [intros H; discriminate H|]. intros (p' & H & _). discriminate H.
      * reflexivity.
      * intros p' e' H; discriminate H.
      * intros e' H; discriminate H.
    + split; [|split; [|split]].
      * split; [intros H; discriminate H|]. intros (p' & H & _). discriminate H.
      * intros e' [= <-] H. rewrite He in H. discriminate H.
      * intros p' e' H; discriminate H.
      * intros e' [= <-]. now apply not_exception_class.
Qed.

Lemma get_cache_dir_host w w' :
  w_host w' = w_host w → (get_cache_dir w').1 = (get_cache_dir w).1.
Proof.
  intros Hh. unfold get_cache_dir, mkdir, expanduser, get_state, mbind, M_bind,
    mret, M_ret. rewrite Hh.
  now destruct (mkdir_ok _ _).
Qed.

Lemma append_inj d x y : d +:+ x = d +:+ y → x = y.
Proof.
  induction d as [|c d IH].
  - change ("" +:+ x) with x. now change ("" +:+ y) with y.
  - change (String c d +:+ x) with (String c (d +:+ x)).
    change (String c d +:+ y) with (String c (d +:+ y)).
    intros [= H]. now apply IH.
Qed.

Lemma path_join_inj d a b : path_join d a = path_join d b → a = b.
Proof.
  unfold path_join. intros H%append_inj.
  change ("/" +:+ a) with (String "/" a) in H.
  change ("/" +:+ b) with (String "/" b) in H.
  now injection H.
Qed.

(** X30. After a download into an empty cache. Where the system is not
    Windows, the cache strategy now finds the downloaded file, and a
    later manager for which the search path and the development tree
    give nothing returns it without downloading again. On Windows the
    download is stored as sense.exe while the cache is searched for
    sense, so the cache strategy still finds nothing. *)
Theorem download_then_cache bm w p w' :
  strategy_cache w = Ok None →
  _download_binary bm w = (Ok p, w') →
  let os_name :=
    (get_platform_info (platform_system (w_host w))
       (platform_machine (w_host w))).1 in
  (os_name ≠ "windows" →
     strategy_cache w' = Ok (Some p) ∧
     ∀ bm2, memo_hit bm2 w' = None → strategy_path w' = Ok None →
            strategy_dev w' = Ok None →
            get_binary_path (bm2, w') = (Ok p, (remember p bm2, w'))) ∧
  (os_name = "windows" → strategy_cache w' = Ok None).
Proof.
  intros Hcache (d & Hd & Hp & Hex & Hother & Hhost & Hmx & _)%download_binary_ok.
  cbv zeta.
  assert (get_cache_dir w' = (Ok d, w')) as Hd'.
  { pose proof (get_cache_dir_host w w' Hhost) as H. rewrite Hd in H.
    destruct (get_cache_dir w') as [r w1] eqn:E.
    pose proof (get_cache_dir_world _ _ _ E) as ->. cbn [fst] in H. now subst r. }
  unfold download_target in Hp. split.
  - intros Hos. apply String.eqb_neq in Hos. rewrite Hos in Hp. subst p.
    assert (strategy_cache w' = Ok (Some (path_join d BINARY_NAME))) as Hsc.
    { unfold strategy_cache. rewrite Hd', Hex, Hmx. reflexivity. }
    split; [exact Hsc|].
    intros bm2 Hm Hpath Hdev. rewrite (get_binary_path_miss _ _ Hm).
    rewrite strategy_path_find in Hpath. injection Hpath as ->.
    unfold strategy_dev in Hdev. cbv zeta in *.
    destruct (path_exists w' (path_join (project_root (w_host w')) "sense"));
      [discriminate Hdev|].
    now rewrite Hd', Hex, Hmx.
  - intros Hos. apply String.eqb_eq in Hos. rewrite Hos in Hp. subst p.
    unfold strategy_cache in *. rewrite Hd in Hcache. rewrite Hd'.
    assert (path_exists w (path_join d BINARY_NAME) = false) as Hno.
    { destruct (path_exists w (path_join d BINARY_NAME)); [|reflexivity].
      destruct ((_make_executable _ w).1); discriminate Hcache. }
    assert (path_exists w' (path_join d BINARY_NAME) = false) as ->; [|reflexivity].
    unfold path_exists in *. rewrite Hother; [exact Hno|].
    intros H%path_join_inj. discriminate H.
Qed.

Lemma download_then_cache_witness :
  let w' := (_download_binary (BinaryManager_init "latest") online_world).2 in
  strategy_cache w' = Ok (Some "/home/user/.cache/senseai/sense") ∧
  get_binary_path (BinaryManager_init "1.0", w')
    = (Ok "/home/user/.cache/senseai/sense",
       (remember "/home/user/.cache/senseai/sense" (BinaryManager_init "1.0"), w')).
Proof.
  cbv zeta.
  destruct (proj1 (download_then_cache (BinaryManager_init "latest") online_world
                     "/home/user/.cache/senseai/sense" _ eq_refl eq_refl)
              ltac:(discriminate)) as [Hsc Hget].
  split; [exact Hsc|].
  apply Hget; reflexivity.
Defined.
